(** * Release-tree sorter and manifest ([meta.json]) generator

    A shallow embedding of [full_final_script.py] (class [MetaJsonHandler])
    and [full_local_script.py] (the folder router and the full-rebuild
    manifest writer), followed by the properties established about them.

    Conventions of the embedding.
    - Python [str] is [string]; the case and digit functions act on the
      ASCII range, every other byte is left as it is.
    - A parsed JSON document is a [json] value; a Python [dict] keeps its
      insertion order, so it is an association list.
    - A raised exception is a value of [error]; code that touches the file
      system runs in a state monad that keeps the state reached when the
      exception was raised.
    - The regular-expression engine, the [dateutil] parser and the JSON text
      parser are libraries outside the repository: they are parameters of the
      functions that call them. *)

From Stdlib Require Import List String Ascii Bool ZArith Lia Arith.
From Stdlib Require Import DecimalString.
From Stdlib Require Floats.SpecFloat.
Import ListNotations.

Open Scope string_scope.
Open Scope list_scope.

(** ** Exceptions and results *)

Inductive error : Type :=
| KeyError (key : string)
| IndexError
| TypeError
| AttributeError
| JSONDecodeError
| ParserError
| ReError
| FileNotFoundError
| FileExistsError
| NotADirectoryError
| IsADirectoryError
| OSError.

Inductive result (A : Type) : Type :=
| Ok (a : A)
| Err (e : error).

Arguments Ok {A} a.
Arguments Err {A} e.

Definition rbind {A B : Type} (r : result A) (k : A -> result B) : result B :=
  match r with
  | Ok a => k a
  | Err e => Err e
  end.

Declare Scope res_scope.
Delimit Scope res_scope with res.
Notation "x <- r ;; k" := (rbind r (fun x => k))
  (at level 61, r at next level, right associativity) : res_scope.

(** A [for] loop whose body may raise: the accumulator is threaded through
    the elements in order and the first exception ends the loop. *)
Fixpoint rfold {A B : Type} (body : B -> A -> result B) (l : list A) (acc : B)
  : result B :=
  match l with
  | [] => Ok acc
  | x :: l' => rbind (body acc x) (rfold body l')
  end.

(** ** Python strings

    A string is a sequence of one-byte characters. The case functions and
    the digit test below are Python's on ASCII text. *)

Module PyStr.

Definition is_digit (c : ascii) : bool :=
  let n := nat_of_ascii c in (48 <=? n)%nat && (n <=? 57)%nat.

Definition is_upper (c : ascii) : bool :=
  let n := nat_of_ascii c in (65 <=? n)%nat && (n <=? 90)%nat.

Definition is_lower (c : ascii) : bool :=
  let n := nat_of_ascii c in (97 <=? n)%nat && (n <=? 122)%nat.

Definition to_upper (c : ascii) : ascii :=
  if is_lower c then ascii_of_nat (nat_of_ascii c - 32) else c.

Definition to_lower (c : ascii) : ascii :=
  if is_upper c then ascii_of_nat (nat_of_ascii c + 32) else c.

Definition underscore : ascii := "_"%char.
Definition slash : ascii := "/"%char.
Definition dot : ascii := "."%char.

(** [s.lower()] *)
Fixpoint lower (s : string) : string :=
  match s with
  | EmptyString => EmptyString
  | String c s' => String (to_lower c) (lower s')
  end.

(** [s.capitalize()]: first character upper case, the rest lower case. *)
Definition capitalize (s : string) : string :=
  match s with
  | EmptyString => EmptyString
  | String c s' => String (to_upper c) (lower s')
  end.

(** [s.startswith(p)] *)
Fixpoint startswith (p s : string) : bool :=
  match p with
  | EmptyString => true
  | String a p' =>
      match s with
      | EmptyString => false
      | String b s' => Ascii.eqb a b && startswith p' s'
      end
  end.

(** [s.endswith(p)] *)
Fixpoint endswith (p s : string) : bool :=
  String.eqb p s ||
  match s with
  | EmptyString => false
  | String _ s' => endswith p s'
  end.

(** [p in s] for two strings: [p] occurs in [s]. *)
Fixpoint contains (p s : string) : bool :=
  startswith p s ||
  match s with
  | EmptyString => false
  | String _ s' => contains p s'
  end.

(** [s.split(sep, n)] for a one-character separator: at most [n] cuts, made
    at the leftmost occurrences; what follows the last cut is kept whole. *)
Fixpoint split (sep : ascii) (n : nat) (s : string) : list string :=
  match s with
  | EmptyString => [EmptyString]
  | String c s' =>
      match n with
      | O => [s]
      | S n' =>
          if Ascii.eqb c sep then EmptyString :: split sep n' s'
          else
            match split sep n s' with
            | [] => [String c EmptyString]
            | h :: t => String c h :: t
            end
      end
  end.

(** [s.split(sep)]: no bound on the number of cuts. *)
Definition split_all (sep : ascii) (s : string) : list string :=
  split sep (String.length s) s.

(** [sep.join(parts)] *)
Definition join (sep : string) (parts : list string) : string :=
  String.concat sep parts.

(** [list(s)]: the one-character strings of [s]. *)
Fixpoint chars (s : string) : list string :=
  match s with
  | EmptyString => []
  | String c s' => String c EmptyString :: chars s'
  end.

(** [int(s)] for a string of ASCII digits. *)
Definition digit_val (c : ascii) : Z := Z.of_nat (nat_of_ascii c - 48).

Fixpoint int_of_digits_acc (acc : Z) (s : string) : Z :=
  match s with
  | EmptyString => acc
  | String c s' => int_of_digits_acc (10 * acc + digit_val c) s'
  end.

Definition int_of_digits (s : string) : Z := int_of_digits_acc 0 s.

(** [str(n)] for an integer. *)
Definition str_of_int (n : Z) : string := NilZero.string_of_int (Z.to_int n).

End PyStr.

(** ** JSON documents and the Python operations used on them *)

#[local] Set Warnings "-register-all".

Inductive json : Type :=
| JNull
| JBool (b : bool)
| JInt (n : Z)
| JFloat (f : SpecFloat.spec_float)
| JStr (s : string)
| JArr (items : list json)
| JObj (members : list (string * json)).

(** An insertion-ordered [dict] with string keys. *)
Module PyDict.

Section Ops.
Context {V : Type}.

(** [d.get(k)] *)
Fixpoint lookup (k : string) (d : list (string * V)) : option V :=
  match d with
  | [] => None
  | (k', v) :: d' => if String.eqb k' k then Some v else lookup k d'
  end.

(** [k in d] *)
Definition mem (k : string) (d : list (string * V)) : bool :=
  match lookup k d with
  | Some _ => true
  | None => false
  end.

(** [d[k] = v]: an existing key keeps its place, a new key goes last. *)
Fixpoint set (k : string) (v : V) (d : list (string * V)) : list (string * V) :=
  match d with
  | [] => [(k, v)]
  | (k', v') :: d' =>
      if String.eqb k' k then (k, v) :: d' else (k', v') :: set k v d'
  end.

(** The pairs of [l] assigned in order to the dict [d]. *)
Definition assign (l : list (string * V)) (d : list (string * V))
  : list (string * V) :=
  fold_left (fun d kv => set (fst kv) (snd kv) d) l d.

(** The dict built by assigning the pairs of [l] in order to an empty dict. *)
Definition of_pairs (l : list (string * V)) : list (string * V) := assign l [].

Definition keys (d : list (string * V)) : list string := map fst d.

End Ops.

End PyDict.

Module Py.

(** [bool(x)] *)
Definition truthy (x : json) : bool :=
  match x with
  | JNull => false
  | JBool b => b
  | JInt n => negb (Z.eqb n 0)
  | JFloat f =>
      match f with
      | SpecFloat.S754_zero _ => false
      | _ => true
      end
  | JStr s => negb (String.eqb s "")
  | JArr l => match l with [] => false | _ => true end
  | JObj d => match d with [] => false | _ => true end
  end.

(** [x == s] for a string literal [s]. *)
Definition eq_str (x : json) (s : string) : bool :=
  match x with
  | JStr t => String.eqb t s
  | _ => false
  end.

(** [x[k]] for a string key. *)
Definition getitem (x : json) (k : string) : result json :=
  match x with
  | JObj d =>
      match PyDict.lookup k d with
      | Some v => Ok v
      | None => Err (KeyError k)
      end
  | _ => Err TypeError
  end.

(** [x[k] = v] for a string key. *)
Definition setitem (x : json) (k : string) (v : json) : result json :=
  match x with
  | JObj d => Ok (JObj (PyDict.set k v d))
  | _ => Err TypeError
  end.

(** [k in x] for a string [k]. *)
Definition contains (k : string) (x : json) : result bool :=
  match x with
  | JObj d => Ok (PyDict.mem k d)
  | JArr l => Ok (existsb (fun y => eq_str y k) l)
  | JStr s => Ok (PyStr.contains k s)
  | _ => Err TypeError
  end.

(** [for y in x]: the values the loop variable takes. *)
Definition iter (x : json) : result (list json) :=
  match x with
  | JObj d => Ok (map JStr (PyDict.keys d))
  | JArr l => Ok l
  | JStr s => Ok (map JStr (PyStr.chars s))
  | _ => Err TypeError
  end.

(** [x.items()] *)
Definition items (x : json) : result (list (string * json)) :=
  match x with
  | JObj d => Ok d
  | _ => Err AttributeError
  end.

(** Position [i] of a sequence of length [n], negative positions counting
    from the end. *)
Definition seq_index {A : Type} (l : list A) (i : Z) : result A :=
  let n := Z.of_nat (List.length l) in
  let j := if (i <? 0)%Z then (i + n)%Z else i in
  if ((0 <=? j) && (j <? n))%Z then
    match nth_error l (Z.to_nat j) with
    | Some a => Ok a
    | None => Err IndexError
    end
  else Err IndexError.

(** [x[y]] for an arbitrary subscript [y]. *)
Definition subscript (x y : json) : result json :=
  match x, y with
  | JObj d, JStr k => getitem x k
  | JObj d, (JArr _ | JObj _) => Err TypeError
  | JObj d, _ => Err (KeyError "")
  | JArr l, JInt i => seq_index l i
  | JArr l, JBool b => seq_index l (if b then 1%Z else 0%Z)
  | JStr s, JInt i => seq_index (map JStr (PyStr.chars s)) i
  | JStr s, JBool b => seq_index (map JStr (PyStr.chars s)) (if b then 1%Z else 0%Z)
  | _, _ => Err TypeError
  end.

End Py.

(** ** The version pattern [(\d+)\.(\d+)\.(\d+)\.(\d+)]

    The matcher is Python's on names made of ASCII characters, where a
    digit of the pattern is one of the ten ASCII digits. *)

Module Version.

Record groups : Type := mkGroups {
  family : string;
  major : string;
  minor : string;
  patch : string
}.

(** The longest run of digits at the head of [s], and what follows it. *)
Fixpoint take_digits (s : string) : string * string :=
  match s with
  | EmptyString => (EmptyString, EmptyString)
  | String c s' =>
      if PyStr.is_digit c then
        let (d, r) := take_digits s' in (String c d, r)
      else (EmptyString, s)
  end.

(** [\d+] at the head of [s]: the digits and the rest. A shorter run can
    never be followed by a dot or by the end of the pattern with a longer
    overall match, so the longest run is the only one to try. *)
Definition digits1 (s : string) : option (string * string) :=
  match take_digits s with
  | (EmptyString, _) => None
  | (d, r) => Some (d, r)
  end.

(** [\.] at the head of [s]. *)
Definition dot1 (s : string) : option string :=
  match s with
  | String c r => if Ascii.eqb c PyStr.dot then Some r else None
  | EmptyString => None
  end.

(** The pattern matched at the head of [s]. *)
Definition match_here (s : string) : option groups :=
  match digits1 s with
  | None => None
  | Some (a, r1) =>
  match dot1 r1 with
  | None => None
  | Some r1' =>
  match digits1 r1' with
  | None => None
  | Some (b, r2) =>
  match dot1 r2 with
  | None => None
  | Some r2' =>
  match digits1 r2' with
  | None => None
  | Some (c, r3) =>
  match dot1 r3 with
  | None => None
  | Some r3' =>
  match digits1 r3' with
  | None => None
  | Some (d, _) => Some (mkGroups a b c d)
  end end end end end end end.

(** [re.search(r"(\d+)\.(\d+)\.(\d+)\.(\d+)", s)]: the leftmost match. *)
Fixpoint search (s : string) : option groups :=
  match match_here s with
  | Some g => Some g
  | None =>
      match s with
      | EmptyString => None
      | String _ s' => search s'
      end
  end.

(** [match.groups()] and [match.group(0)] *)
Definition group_list (g : groups) : list string :=
  [family g; major g; minor g; patch g].

Definition group0 (g : groups) : string := PyStr.join "." (group_list g).

(** The [versionInfo] record both scripts build from a match. *)
Definition version_info (g : groups) : json :=
  JObj
    [ ("versionCompact",
        JStr (PyStr.join "."
                (map (fun x => PyStr.str_of_int (PyStr.int_of_digits x))
                     (group_list g))));
      ("versionFull", JStr (group0 g));
      ("versionFamily", JInt (PyStr.int_of_digits (family g)));
      ("versionMajor", JInt (PyStr.int_of_digits (major g)));
      ("versionMinor", JInt (PyStr.int_of_digits (minor g)));
      ("versionPatch", JInt (PyStr.int_of_digits (patch g))) ].

End Version.

(** ** Paths ([posixpath]) *)

Module PyPath.

(** [(p[:i], p[i:])] for [i = p.rfind("/") + 1]. *)
Fixpoint split_last (p : string) : string * string :=
  match p with
  | EmptyString => (EmptyString, EmptyString)
  | String c p' =>
      match split_last p' with
      | (EmptyString, _) =>
          if Ascii.eqb c PyStr.slash then (String c EmptyString, p')
          else (EmptyString, p)
      | (h, t) => (String c h, t)
      end
  end.

(** [os.path.basename(p)] *)
Definition basename (p : string) : string := snd (split_last p).

Fixpoint all_slashes (s : string) : bool :=
  match s with
  | EmptyString => true
  | String c s' => Ascii.eqb c PyStr.slash && all_slashes s'
  end.

(** [s.rstrip("/")] *)
Fixpoint rstrip_slashes (s : string) : string :=
  match s with
  | EmptyString => EmptyString
  | String c s' =>
      match rstrip_slashes s' with
      | EmptyString =>
          if Ascii.eqb c PyStr.slash then EmptyString else String c EmptyString
      | r => String c r
      end
  end.

(** [os.path.dirname(p)] *)
Definition dirname (p : string) : string :=
  let head := fst (split_last p) in
  if negb (String.eqb head "") && negb (all_slashes head)
  then rstrip_slashes head else head.

Fixpoint ends_with_slash (s : string) : bool :=
  match s with
  | EmptyString => false
  | String c EmptyString => Ascii.eqb c PyStr.slash
  | String _ s' => ends_with_slash s'
  end.

(** [os.path.join(a, b)] *)
Definition join (a b : string) : string :=
  if PyStr.startswith "/" b then b
  else if String.eqb a "" || ends_with_slash a then a ++ b
  else a ++ "/" ++ b.

(** A plain name: no separator in it. *)
Fixpoint no_slash (s : string) : bool :=
  match s with
  | EmptyString => true
  | String c s' => negb (Ascii.eqb c PyStr.slash) && no_slash s'
  end.

End PyPath.

(** ** The file system

    A directory holds its plain files and its sub-directories, each in the
    order in which the operating system lists them. Entry names are single
    path components. A file is the JSON document its text parses to, or raw
    text that is no JSON document. *)

Module Fs.

Inductive content : Type :=
| Json (doc : json)
| Raw (text : string).

Definition listing : Type := list (string * content).

Inductive tree : Type :=
| Node (files : listing) (dirs : list (string * tree)).

Definition files_of (t : tree) : listing := match t with Node f _ => f end.
Definition dirs_of (t : tree) : list (string * tree) :=
  match t with Node _ d => d end.

Definition empty_dir : tree := Node [] [].

(** The state monad of code that reads and writes a state [S] and may raise:
    the state reached is kept when an exception is raised. *)
Definition M (S A : Type) : Type := S -> S * result A.

Definition ret {S A : Type} (a : A) : M S A := fun s => (s, Ok a).

Definition lift {S A : Type} (r : result A) : M S A := fun s => (s, r).

Definition bind {S A B : Type} (m : M S A) (k : A -> M S B) : M S B :=
  fun s =>
    match m s with
    | (s', Ok a) => k a s'
    | (s', Err e) => (s', Err e)
    end.

(** A [for] loop of statements. *)
Fixpoint for_each {S A : Type} (l : list A) (body : A -> M S unit) : M S unit :=
  match l with
  | [] => ret tt
  | x :: l' => bind (body x) (fun _ => for_each l' body)
  end.

Section Entries.

(** Where the operating system puts a new entry among the names already
    listed: [slot name names] is its position in the new listing. *)
Variable slot : string -> list string -> nat.

Context {V : Type}.

Definition insert_at (n : nat) (x : string * V) (l : list (string * V))
  : list (string * V) :=
  firstn n l ++ x :: skipn n l.

(** A new entry. *)
Definition add_entry (name : string) (v : V) (l : list (string * V))
  : list (string * V) :=
  insert_at (slot name (map fst l)) (name, v) l.

(** An existing entry gets a new value and keeps its place. *)
Fixpoint replace_entry (name : string) (v : V) (l : list (string * V))
  : list (string * V) :=
  match l with
  | [] => []
  | (n, x) :: l' =>
      if String.eqb n name then (name, v) :: l'
      else (n, x) :: replace_entry name v l'
  end.

(** Remove an entry. *)
Fixpoint remove_entry (name : string) (l : list (string * V))
  : list (string * V) :=
  match l with
  | [] => []
  | (n, x) :: l' =>
      if String.eqb n name then l' else (n, x) :: remove_entry name l'
  end.

(** Create or overwrite. *)
Definition write_entry (name : string) (v : V) (l : list (string * V))
  : list (string * V) :=
  if PyDict.mem name l then replace_entry name v l else add_entry name v l.

End Entries.

(** [os.path.exists(p)] for a path [p] of components below [t]. *)
Fixpoint exists_path (p : list string) (t : tree) : bool :=
  match p with
  | [] => true
  | n :: p' =>
      match p' with
      | [] => PyDict.mem n (files_of t) || PyDict.mem n (dirs_of t)
      | _ =>
          match PyDict.lookup n (dirs_of t) with
          | Some sub => exists_path p' sub
          | None => false
          end
      end
  end.

Section TreeOps.

Variable slot : string -> list string -> nat.

(** The longest name of an entry, in bytes ([NAME_MAX]). *)
Definition NAME_MAX : nat := 255.

Definition name_ok (n : string) : bool := (String.length n <=? NAME_MAX)%nat.

(** [os.makedirs(p)]: the leaf must not exist; missing ancestors are made,
    and stay when a later component cannot be made. A name longer than
    [NAME_MAX] cannot be made ([OSError]). *)
Fixpoint mkdirs (p : list string) (t : tree) : tree * result unit :=
  match p with
  | [] => (t, Err FileExistsError)
  | n :: p' =>
      match p' with
      | [] =>
          if PyDict.mem n (files_of t) || PyDict.mem n (dirs_of t)
          then (t, Err FileExistsError)
          else if negb (name_ok n) then (t, Err OSError)
          else (Node (files_of t) (add_entry slot n empty_dir (dirs_of t)),
                Ok tt)
      | _ =>
          match PyDict.lookup n (dirs_of t) with
          | Some sub =>
              let (sub', r) := mkdirs p' sub in
              (Node (files_of t) (replace_entry n sub' (dirs_of t)), r)
          | None =>
              if PyDict.mem n (files_of t) then (t, Err NotADirectoryError)
              else if negb (name_ok n) then (t, Err OSError)
              else
                let (sub', r) := mkdirs p' empty_dir in
                (Node (files_of t) (add_entry slot n sub' (dirs_of t)), r)
          end
      end
  end.

Definition makedirs (p : list string) : M tree unit := mkdirs p.

(** What is moved by a rename: a plain file or a whole directory. *)
Inductive entry : Type :=
| IsFile (c : content)
| IsDir (sub : tree).

Definition find_entry (name : string) (t : tree) : option entry :=
  match PyDict.lookup name (files_of t) with
  | Some c => Some (IsFile c)
  | None =>
      match PyDict.lookup name (dirs_of t) with
      | Some sub => Some (IsDir sub)
      | None => None
      end
  end.

Definition drop_entry (name : string) (t : tree) : tree :=
  match PyDict.lookup name (files_of t) with
  | Some _ => Node (remove_entry name (files_of t)) (dirs_of t)
  | None => Node (files_of t) (remove_entry name (dirs_of t))
  end.

(** Put [e] under [name] in directory [t], as POSIX [rename] does at its
    destination: a plain file replaces a plain file, a directory replaces an
    empty directory. *)
Definition place_entry (name : string) (e : entry) (t : tree) : result tree :=
  match e, find_entry name t with
  | IsFile c, None => Ok (Node (add_entry slot name c (files_of t)) (dirs_of t))
  | IsFile c, Some (IsFile _) =>
      Ok (Node (replace_entry name c (files_of t)) (dirs_of t))
  | IsFile _, Some (IsDir _) => Err IsADirectoryError
  | IsDir sub, None => Ok (Node (files_of t) (add_entry slot name sub (dirs_of t)))
  | IsDir sub, Some (IsDir (Node [] [])) =>
      Ok (Node (files_of t) (replace_entry name sub (dirs_of t)))
  | IsDir _, Some (IsDir _) => Err OSError
  | IsDir _, Some (IsFile _) => Err NotADirectoryError
  end.

(** Apply [f] to the directory at path [p] below [t]. *)
Fixpoint in_dir (p : list string) (f : tree -> result tree) (t : tree)
  : result tree :=
  match p with
  | [] => f t
  | n :: p' =>
      match PyDict.lookup n (dirs_of t) with
      | Some sub =>
          rbind (in_dir p' f sub) (fun sub' =>
          Ok (Node (files_of t) (replace_entry n sub' (dirs_of t))))
      | None =>
          if PyDict.mem n (files_of t) then Err NotADirectoryError
          else Err FileNotFoundError
      end
  end.

(** [os.rename(name, dst)] in the directory [t], for [dst] the path made of
    the components [dest] and then [name]: the entry [name] of [t] goes,
    under the same name, into the directory at [dest] below [t]. *)
Definition rename_into (name : string) (dest : list string) : M tree unit :=
  fun t =>
    match find_entry name t with
    | None => (t, Err FileNotFoundError)
    | Some e =>
        match e, dest with
        | IsDir _, d :: _ =>
            if String.eqb d name then (t, Err OSError)
            else
              match in_dir dest (place_entry name e) (drop_entry name t) with
              | Ok t' => (t', Ok tt)
              | Err er => (t, Err er)
              end
        | _, _ =>
            match in_dir dest (place_entry name e) (drop_entry name t) with
            | Ok t' => (t', Ok tt)
            | Err er => (t, Err er)
            end
        end
    end.

End TreeOps.

(** The descent of a walk into the sub-directories [ds], in listing order,
    [walk d sub] being the walk of the sub-directory [sub] named [d]. *)
Definition walk_dirs (walk : string -> tree -> tree * result unit)
  : list (string * tree) -> list (string * tree) * result unit :=
  fix go (ds : list (string * tree)) : list (string * tree) * result unit :=
    match ds with
    | [] => ([], Ok tt)
    | (d, sub) :: ds' =>
        match walk d sub with
        | (sub', Err e) => ((d, sub') :: ds', Err e)
        | (sub', Ok _) => let (ds'', r) := go ds' in ((d, sub') :: ds'', r)
        end
    end.

(** [os.walk(top)], top-down, with the loop body run at each directory: the
    body gets the path, the sub-directory names and the file names as listed
    before it runs, and acts on the files of that directory. The first
    exception ends the walk. *)
Fixpoint os_walk (body : string -> list string -> list string -> M listing unit)
  (top : string) (t : tree) {struct t} : tree * result unit :=
  match t with
  | Node files dirs =>
      match body top (map fst dirs) (map fst files) files with
      | (files', Err e) => (Node files' dirs, Err e)
      | (files', Ok _) =>
          let (dirs', r) :=
            walk_dirs (fun d sub => os_walk body (PyPath.join top d) sub) dirs in
          (Node files' dirs', r)
      end
  end.

(** A statement acting on the files of the top directory. *)
Definition at_top {A : Type} (m : M listing A) : M tree A :=
  fun t =>
    match t with
    | Node files dirs => let (files', r) := m files in (Node files' dirs, r)
    end.

End Fs.

Declare Scope fs_scope.
Delimit Scope fs_scope with fs.
Notation "x <- m ;; k" := (Fs.bind m (fun x => k))
  (at level 61, m at next level, right associativity) : fs_scope.
Notation "m ;;; k" := (Fs.bind m (fun _ => k))
  (at level 61, right associativity) : fs_scope.

(** ** The process environment and the parsed timestamp *)

(** [os.environ]: the variables in the order [items()] yields them. *)
Definition environ : Type := list (string * string).

(** [os.environ.get(name, default)] *)
Definition environ_get (env : environ) (name default : string) : string :=
  match PyDict.lookup name env with
  | Some v => v
  | None => default
  end.

(** A [datetime]: the six fields the script reads, and the rest of it
    (fraction of a second, zone), which only [isoformat] looks at. *)
Record datetime : Type := mkDatetime {
  dt_year : Z;
  dt_month : Z;
  dt_day : Z;
  dt_hour : Z;
  dt_minute : Z;
  dt_second : Z;
  dt_rest : string
}.

(** ** [full_final_script.py]: class [MetaJsonHandler] *)

Module MetaJsonHandler.

Import Fs.

Definition META_TEMPLATE : json :=
  JObj
    [ ("self", JStr "meta.json");
      ("selfDirName", JStr "");
      ("metaTargets", JArr []);
      ("files", JObj []);
      ("versionInfo", JObj []) ].

Definition BUILD_INFO_TEMPLATE : json :=
  JObj
    [ ("buildNode", JStr "");
      ("buildId", JInt 0);
      ("buildTimestamp", JStr "");
      ("buildYear", JInt 0);
      ("buildMonth", JInt 0);
      ("buildDay", JInt 0);
      ("buildHour", JInt 0);
      ("buildMinute", JInt 0);
      ("buildSecond", JInt 0);
      ("versionIar", JStr "");
      ("versionPython", JStr "");
      ("versionJlink", JStr "");
      ("versionControlSystem",
        JObj [ ("type", JStr "git"); ("repositories", JObj []) ]) ].

Section Handler.

(** Where a newly created file appears in the listing of its directory. *)
Variable slot : string -> list string -> nat.

(** [dateutil.parser.parse]: [None] when it raises. *)
Variable parse_timestamp : string -> option datetime.

(** [timestamp.astimezone().isoformat()], which depends on the local zone. *)
Variable isoformat_local : datetime -> string.

(** [json.loads]: [None] when it raises. *)
Variable json_loads : string -> option json.

(** The functions below act on the listing of the directory that contains
    [file_path]; the file is the entry named by the last path component, and
    no sub-directory of that directory has that name. *)

(** [_load_json_file], lines 49-58. *)
Definition _load_json_file (file_path : string) (template : json)
  : M listing json :=
  fun fs =>
    let name := PyPath.basename file_path in
    let fs1 :=
      if negb (PyDict.mem name fs)
      then add_entry slot name (Json template) fs
      else fs in
    match PyDict.lookup name fs1 with
    | Some (Json doc) => (fs1, Ok doc)
    | Some (Raw _) => (fs1, Err JSONDecodeError)
    | None => (fs1, Err FileNotFoundError)
    end.

(** [_save_json_file], lines 60-65. *)
Definition _save_json_file (file_path : string) (data : json) : M listing unit :=
  fun fs => (write_entry slot (PyPath.basename file_path) (Json data) fs, Ok tt).

(** [_get_timestamp_from_env], lines 67-83. *)
Definition _get_timestamp_from_env (env : environ) (env_var_name : string)
  : result (string * (Z * Z * Z * Z * Z * Z)) :=
  match parse_timestamp (environ_get env env_var_name "") with
  | None => Err ParserError
  | Some timestamp =>
      Ok (isoformat_local timestamp,
          (dt_year timestamp, dt_month timestamp, dt_day timestamp,
           dt_hour timestamp, dt_minute timestamp, dt_second timestamp))
  end.

(** [x.capitalize() or "_"] *)
Definition capitalize_or_underscore (x : string) : string :=
  match PyStr.capitalize x with
  | EmptyString => "_"
  | c => c
  end.

(** [_get_repo_name], lines 85-92. *)
Definition _get_repo_name (env_var_name : string) : result string :=
  match nth_error (PyStr.split PyStr.underscore 2 env_var_name) 2 with
  | None => Err IndexError
  | Some repo_name =>
      let repo_name :=
        PyStr.join ""
          (map capitalize_or_underscore
               (PyStr.split_all PyStr.underscore repo_name)) in
      match repo_name with
      | EmptyString => Err IndexError
      | String c rest => Ok (String (PyStr.to_lower c) rest)
      end
  end.

(** [update_meta_json], lines 94-107. The nested dict [meta_json[json_path]]
    is changed in place, so it stays where it is in [meta_json]. *)
Definition update_meta_json (file_path key value json_path : string)
  : M listing unit :=
  (meta_json <- _load_json_file file_path META_TEMPLATE ;;
   self_dir_name <- lift (Py.getitem meta_json "selfDirName") ;;
   meta_json <-
     (if negb (Py.truthy self_dir_name)
      then lift (Py.setitem meta_json "selfDirName"
                   (JStr (PyPath.basename (PyPath.dirname file_path))))
      else ret meta_json) ;;
   target <- lift (Py.getitem meta_json json_path) ;;
   target <- lift (Py.setitem target key (JStr value)) ;;
   meta_json <- lift (Py.setitem meta_json json_path target) ;;
   _save_json_file file_path meta_json)%fs.

(** The body of the loop over [os.environ.items()], lines 132-138. *)
Definition add_repository (build_info_json : json) (kv : string * string)
  : result json :=
  let (key, value) := kv in
  if PyStr.startswith "GIT_INFO_" key then
    (repo_name <- _get_repo_name key ;;
     repo_info <-
       match json_loads value with
       | Some v => Ok v
       | None => Err JSONDecodeError
       end ;;
     vcs <- Py.getitem build_info_json "versionControlSystem" ;;
     repositories <- Py.getitem vcs "repositories" ;;
     repositories <- Py.setitem repositories repo_name repo_info ;;
     vcs <- Py.setitem vcs "repositories" repositories ;;
     Py.setitem build_info_json "versionControlSystem" vcs)%res
  else Ok build_info_json.

(** Lines 114-138 of [generate_build_info_file]: the assignments made to the
    loaded document. *)
Definition fill_build_info (env : environ) (build_info_json : json)
  : result json :=
  (b <- Py.setitem build_info_json "buildNode"
          (JStr (environ_get env "NODE_NAME" "")) ;;
   b <- Py.setitem b "buildId" (JStr (environ_get env "BUILD_ID" "")) ;;
   ts <- _get_timestamp_from_env env "BUILD_TIMESTAMP" ;;
   let '(iso, (year, month, day, hour, minute, second)) := ts in
   b <- Py.setitem b "buildTimestamp" (JStr iso) ;;
   b <- Py.setitem b "buildYear" (JInt year) ;;
   b <- Py.setitem b "buildMonth" (JInt month) ;;
   b <- Py.setitem b "buildDay" (JInt day) ;;
   b <- Py.setitem b "buildHour" (JInt hour) ;;
   b <- Py.setitem b "buildMinute" (JInt minute) ;;
   b <- Py.setitem b "buildSecond" (JInt second) ;;
   b <- Py.setitem b "versionIar" (JStr (environ_get env "IAR_VERSION" "")) ;;
   b <- Py.setitem b "versionPython"
          (JStr (environ_get env "PYTHON_VERSION" "")) ;;
   b <- Py.setitem b "versionJlink"
          (JStr (environ_get env "JLINK_VERSION" "")) ;;
   vcs <- Py.getitem b "versionControlSystem" ;;
   vcs <- Py.setitem vcs "repositories" (JObj []) ;;
   b <- Py.setitem b "versionControlSystem" vcs ;;
   rfold add_repository env b)%res.

(** [generate_build_info_file], lines 109-140. *)
Definition generate_build_info_file (env : environ) (file_path : string)
  : M listing unit :=
  (build_info_json <- _load_json_file file_path BUILD_INFO_TEMPLATE ;;
   build_info_json <- lift (fill_build_info env build_info_json) ;;
   _save_json_file file_path build_info_json)%fs.

(** One [metaTargets] entry, lines 157-160. *)
Definition meta_target (dir : string) : json :=
  JObj [ ("metaInformationFile", JStr (dir ++ "/meta.json"));
         ("targetName", JStr dir) ].

(** The body of the loop over the files, lines 167-190. *)
Definition scan_version (meta_json : json) (file : string) : result json :=
  match Version.search file with
  | Some m => Py.setitem meta_json "versionInfo" (Version.version_info m)
  | None => Ok meta_json
  end.

(** Lines 155-160: a directory that listed no [meta.json] gets its name and
    its targets. *)
Definition init_manifest (root : string) (dirs files : list string)
  (meta_json : json) : result json :=
  if negb (existsb (String.eqb "meta.json") files) then
    (m <- Py.setitem meta_json "selfDirName" (JStr (PyPath.basename root)) ;;
     Py.setitem m "metaTargets" (JArr (map meta_target dirs)))%res
  else Ok meta_json.

(** Lines 162-165: a listed [buildInfo.json] is entered under [files]. *)
Definition link_build_info (files : list string) (meta_json : json)
  : result json :=
  if existsb (String.eqb "buildInfo.json") files then
    (has_files <- Py.contains "files" meta_json ;;
     m <- (if negb has_files
           then Py.setitem meta_json "files" (JObj [])
           else Ok meta_json) ;;
     fs <- Py.getitem m "files" ;;
     fs <- Py.setitem fs "buildInfo" (JStr "buildInfo.json") ;;
     Py.setitem m "files" fs)%res
  else Ok meta_json.

(** Lines 155-190: what one iteration of the loop over [os.walk] does to the
    loaded manifest. *)
Definition update_manifest (root : string) (dirs files : list string)
  (meta_json : json) : result json :=
  (meta_json <- init_manifest root dirs files meta_json ;;
   meta_json <- link_build_info files meta_json ;;
   rfold scan_version files meta_json)%res.

(** The body of the loop over [os.walk], lines 152-192. *)
Definition visit (root : string) (dirs files : list string) : M listing unit :=
  let meta_path := PyPath.join root "meta.json" in
  (meta_json <- _load_json_file meta_path META_TEMPLATE ;;
   meta_json <- lift (update_manifest root dirs files meta_json) ;;
   _save_json_file meta_path meta_json)%fs.

(** [create_meta_files_all], lines 142-192, on the tree at
    [meta_release_dir]. *)
Definition create_meta_files_all (env : environ) (meta_release_dir : string)
  : M tree unit :=
  let build_info_path := PyPath.join meta_release_dir "buildInfo.json" in
  (at_top (generate_build_info_file env build_info_path) ;;;
   os_walk visit meta_release_dir)%fs.

End Handler.

End MetaJsonHandler.

(** ** [full_local_script.py] *)

Module LocalScript.

Import Fs.

Definition META_FILE_NAME : string := "meta.json".

(** The value a path function accepts: a [str]. *)
Definition as_str (x : json) : result string :=
  match x with
  | JStr s => Ok s
  | _ => Err TypeError
  end.

(** Read the state. *)
Definition gets {S A : Type} (f : S -> A) : M S A := fun s => (s, Ok (f s)).

Section Router.

Variable slot : string -> list string -> nat.

(** [re.match(pattern, s) is not None]; [Err] when the pattern does not
    compile. *)
Variable re_match : string -> string -> result bool.

(** [re.match(regex, s)] for a pattern read from JSON. *)
Definition re_match_json (regex : json) (s : string) : result bool :=
  match regex with
  | JStr p => re_match p s
  | _ => Err TypeError
  end.

(** The inner loop of [create_folders], lines 34-38. *)
Definition create_subfolder (folder : string) (subfolder : json) : M tree unit :=
  if negb (Py.eq_str subfolder "files") then
    (sub <- lift (as_str subfolder) ;;
     present <- gets (exists_path [folder; sub]) ;;
     if negb present then makedirs slot [folder; sub] else ret tt)%fs
  else ret tt.

(** The body of the outer loop of [create_folders], lines 31-38. *)
Definition create_folder (folder_structure : list (string * json))
  (folder : string) : M tree unit :=
  if negb (String.eqb folder "files") then
    (present <- gets (exists_path [folder]) ;;
     if negb present then
       (makedirs slot [folder] ;;;
        subfolders <-
          lift (node <- Py.getitem (JObj folder_structure) folder ;;
                Py.iter node)%res ;;
        for_each subfolders (create_subfolder folder))
     else ret tt)%fs
  else ret tt.

(** [create_folders], lines 24-38, in the current directory. *)
Definition create_folders (folder_structure : list (string * json))
  : M tree unit :=
  for_each (PyDict.keys folder_structure) (create_folder folder_structure).

(** One pass over the patterns of a ["files"] mapping, lines 51-53 and
    56-60: every pattern that matches renames [file] into [dest]. *)
Definition move_by_patterns (file : string) (dest : result (list string))
  (patterns : list (string * json)) : M tree unit :=
  for_each patterns (fun kv =>
    (hit <- lift (re_match_json (snd kv) file) ;;
     if (hit : bool) then
       (d <- lift dest ;; rename_into slot file d)
     else ret tt)%fs).

(** The body of the loop over the sub-folders, lines 55-60. The test
    [subfolder in folder_structure[folder]] holds for every value the loop
    variable takes, since it ranges over that same object. *)
Definition move_into_subfolder (file folder : string) (patterns subfolder : json)
  : M tree unit :=
  if negb (Py.eq_str subfolder "files") then
    (regexes <-
       lift (node <- Py.subscript patterns subfolder ;;
             fs <- Py.getitem node "files" ;;
             Py.items fs)%res ;;
     move_by_patterns file
       (rbind (as_str subfolder) (fun sub => Ok [folder; sub])) regexes)%fs
  else ret tt.

(** The body of the loop over the folders, lines 49-60. *)
Definition move_into_folder (file : string) (entry : string * json)
  : M tree unit :=
  let (folder, patterns) := entry in
  if negb (String.eqb folder "files") then
    (has_files <- lift (Py.contains "files" patterns) ;;
     (if (has_files : bool) then
        (regexes <- lift (fs <- Py.getitem patterns "files" ;; Py.items fs)%res ;;
         move_by_patterns file (Ok [folder]) regexes)
      else ret tt) ;;;
     subfolders <- lift (Py.iter patterns) ;;
     for_each subfolders (move_into_subfolder file folder patterns))%fs
  else ret tt.

(** [move_files], lines 41-60, in the current directory, whose entries
    [os.listdir()] returns as [listed]. *)
Definition move_files (listed : list string)
  (folder_structure : list (string * json)) : M tree unit :=
  for_each listed (fun file =>
    for_each folder_structure (move_into_folder file)).

(** [any(re.match(pattern, old_key) for pattern in values)] *)
Fixpoint any_match (values : list json) (old_key : string) : result bool :=
  match values with
  | [] => Ok false
  | pattern :: rest =>
      rbind (re_match_json pattern old_key) (fun hit =>
      if (hit : bool) then Ok true else any_match rest old_key)
  end.

(** [next((key for key, values in regex_mappings.items() if any(...)),
    old_key)], lines 163-170. *)
Fixpoint updated_key (regex_mappings : list (string * list json))
  (old_key : string) : result string :=
  match regex_mappings with
  | [] => Ok old_key
  | (key, values) :: rest =>
      rbind (any_match values old_key) (fun hit =>
      if (hit : bool) then Ok key else updated_key rest old_key)
  end.

(** The loop of lines 161-171: the new [files] mapping. *)
Definition update_files (regex_mappings : list (string * list json))
  (files : list (string * json)) : result (list (string * json)) :=
  rfold (fun updated_files kv =>
           rbind (updated_key regex_mappings (fst kv)) (fun k =>
           Ok (PyDict.set k (snd kv) updated_files)))
        files [].

(** Lines 156-178: one [meta.json] is read, rewritten and saved. *)
Definition update_meta_file (regex_mappings : list (string * list json))
  (filename : string) : M listing unit :=
  fun fs =>
    match PyDict.lookup filename fs with
    | None => (fs, Err FileNotFoundError)
    | Some (Raw _) => (fs, Err JSONDecodeError)
    | Some (Json meta_data) =>
        match
          (has_files <- Py.contains "files" meta_data ;;
           if (has_files : bool) then
             (old <- Py.getitem meta_data "files" ;;
              old <- Py.items old ;;
              updated_files <- update_files regex_mappings old ;;
              m <- Py.setitem meta_data "files" (JObj updated_files) ;;
              Ok (Some m))
           else Ok None)%res
        with
        | Err e => (fs, Err e)
        | Ok None => (fs, Ok tt)
        | Ok (Some m) => (write_entry slot filename (Json m) fs, Ok tt)
        end
    end.

(** [update_meta_file_keys], lines 146-178, on the tree at [root_path]. *)
Definition update_meta_file_keys (root_path : string)
  (regex_mappings : list (string * list json)) : M tree unit :=
  os_walk (fun _ _ files =>
    for_each files (fun filename =>
      if String.eqb filename META_FILE_NAME
      then update_meta_file regex_mappings filename
      else ret tt))
    root_path.

End Router.

Section Rebuild.

Variable slot : string -> list string -> nat.

(** The version loop of [create_meta_json], lines 79-103: the [break] is in
    the body of [if file.endswith(".hex")]. *)
Fixpoint scan_hex (files : list string) (meta : json) : result json :=
  match files with
  | [] => Ok meta
  | file :: rest =>
      if PyStr.endswith ".hex" file then
        match Version.search file with
        | Some m => Py.setitem meta "versionInfo" (Version.version_info m)
        | None => Ok meta
        end
      else scan_hex rest meta
  end.

(** Lines 105-110. *)
Definition append_target (meta : json) (directory : string) : result json :=
  let target :=
    JObj [ ("targetName", JStr directory);
           ("metaInformationFile", JStr (directory ++ "/meta.json")) ] in
  (targets <- Py.getitem meta "metaTargets" ;;
   match targets with
   | JArr l => Py.setitem meta "metaTargets" (JArr (l ++ [target]))
   | _ => Err AttributeError
   end)%res.

(** Lines 112-114. *)
Definition record_file (meta : json) (file : string) : result json :=
  if negb (String.eqb file META_FILE_NAME) then
    (fs <- Py.getitem meta "files" ;;
     fs <- Py.setitem fs file (JStr file) ;;
     Py.setitem meta "files" fs)%res
  else Ok meta.

(** The document built for one directory, lines 71-114. *)
Definition build_meta (root : string) (dirs files : list string) : result json :=
  let meta :=
    JObj [ ("self", JStr META_FILE_NAME);
           ("selfDirName", JStr (PyPath.basename root));
           ("metaTargets", JArr []);
           ("files", JObj []);
           ("versionInfo", JObj []) ] in
  (meta <- scan_hex files meta ;;
   meta <- rfold append_target dirs meta ;;
   rfold record_file files meta)%res.

(** The body of the loop over [os.walk], lines 71-118. Opening the path
    of the manifest for writing raises [IsADirectoryError] when a
    sub-directory has that name. *)
Definition rebuild_dir (root : string) (dirs files : list string)
  : M listing unit :=
  (meta <- lift (build_meta root dirs files) ;;
   if existsb (String.eqb META_FILE_NAME) dirs
   then lift (Err IsADirectoryError)
   else
     fun fs =>
       (write_entry slot (PyPath.basename (PyPath.join root META_FILE_NAME))
          (Json meta) fs, Ok tt))%fs.

(** [create_meta_json], lines 63-118, on the tree at [root_path]. *)
Definition create_meta_json (root_path : string) : M tree unit :=
  os_walk rebuild_dir root_path.

End Rebuild.

End LocalScript.

(** ** A matcher for a fragment of Python's regular expressions

    The fragment: an optional leading [^]; then atoms, each a literal
    character, [.], [\d] or an escaped punctuation character, each optionally
    followed by [*] or [+]; an optional final [$]. On such a pattern
    [re_match] is [re.match(pattern, s) is not None]. Every other pattern is
    answered with [ReError]: the examples below use the fragment only. *)

Module ReLite.

Inductive atom : Type :=
| AnyChar
| Digit
| Lit (c : ascii).

Inductive quant : Type :=
| One
| Star
| Plus.

Inductive token : Type :=
| TAtom (a : atom)
| TStar
| TPlus
| TCaret
| TDollar
| TBad.

Definition newline : ascii := ascii_of_nat 10.

Definition is_alnum (c : ascii) : bool :=
  PyStr.is_digit c || PyStr.is_upper c || PyStr.is_lower c.

Definition escaped (c : ascii) : token :=
  if Ascii.eqb c "d"%char then TAtom Digit
  else if is_alnum c then TBad
  else TAtom (Lit c).

Definition plain (c : ascii) : token :=
  if Ascii.eqb c "."%char then TAtom AnyChar
  else if Ascii.eqb c "*"%char then TStar
  else if Ascii.eqb c "+"%char then TPlus
  else if Ascii.eqb c "^"%char then TCaret
  else if Ascii.eqb c "$"%char then TDollar
  else if existsb (Ascii.eqb c)
            ["?"; "("; ")"; "["; "]"; "{"; "}"; "|"]%char then TBad
  else TAtom (Lit c).

Fixpoint tokenize (p : string) : list token :=
  match p with
  | EmptyString => []
  | String c p1 =>
      if Ascii.eqb c "\"%char then
        match p1 with
        | EmptyString => [TBad]
        | String e p2 => escaped e :: tokenize p2
        end
      else plain c :: tokenize p1
  end.

(** The atoms with their quantifiers, and whether the pattern ends in [$]. *)
Fixpoint build (ts : list token) : option (list (atom * quant) * bool) :=
  match ts with
  | [] => Some ([], false)
  | [TDollar] => Some ([], true)
  | TAtom a :: TStar :: ts' =>
      option_map (fun r => ((a, Star) :: fst r, snd r)) (build ts')
  | TAtom a :: TPlus :: ts' =>
      option_map (fun r => ((a, Plus) :: fst r, snd r)) (build ts')
  | TAtom a :: ts' =>
      option_map (fun r => ((a, One) :: fst r, snd r)) (build ts')
  | _ => None
  end.

Definition compile (p : string) : option (list (atom * quant) * bool) :=
  match tokenize p with
  | TCaret :: ts => build ts
  | ts => build ts
  end.

Definition accepts (a : atom) (c : ascii) : bool :=
  match a with
  | AnyChar => negb (Ascii.eqb c newline)
  | Digit => PyStr.is_digit c
  | Lit x => Ascii.eqb x c
  end.

(** Zero or more characters accepted by [a], then [k] on the rest. *)
Fixpoint star (a : atom) (k : string -> bool) (s : string) : bool :=
  k s ||
  match s with
  | EmptyString => false
  | String c s' => accepts a c && star a k s'
  end.

(** The atoms match a prefix of [s]. *)
Fixpoint matches (items : list (atom * quant)) (at_end : bool) (s : string)
  : bool :=
  match items with
  | [] =>
      if at_end
      then String.eqb s "" || String.eqb s (String newline EmptyString)
      else true
  | (a, One) :: items' =>
      match s with
      | EmptyString => false
      | String c s' => accepts a c && matches items' at_end s'
      end
  | (a, Star) :: items' => star a (matches items' at_end) s
  | (a, Plus) :: items' =>
      match s with
      | EmptyString => false
      | String c s' => accepts a c && star a (matches items' at_end) s'
      end
  end.

Definition re_match (pattern s : string) : result bool :=
  match compile pattern with
  | Some (items, at_end) => Ok (matches items at_end s)
  | None => Err ReError
  end.

End ReLite.

(** ** Instances of the parameters, for the worked examples *)

Module Sample.

(** A new entry is listed last. *)
Definition slot_last (name : string) (names : list string) : nat :=
  List.length names.

(** A new entry is listed first. *)
Definition slot_first (name : string) (names : list string) : nat := 0.

Definition build_time : datetime :=
  mkDatetime 2024 5 6 7 8 9 "".

(** A parser that knows one timestamp and raises on everything else. *)
Definition parse_timestamp (s : string) : option datetime :=
  if String.eqb s "2024-05-06 07:08:09" then Some build_time else None.

Definition isoformat_local (t : datetime) : string :=
  "2024-05-06T07:08:09+00:00".

(** A JSON reader that knows the empty object and raises on everything
    else. *)
Definition json_loads (s : string) : option json :=
  if String.eqb s "{}" then Some (JObj []) else None.

Definition env : environ :=
  [ ("NODE_NAME", "node-1");
    ("BUILD_ID", "42");
    ("BUILD_TIMESTAMP", "2024-05-06 07:08:09");
    ("GIT_INFO_unused_my_repo", "{}") ].

End Sample.

(** ** Worked inputs *)

Module Worked.

Import Fs.

(** Two sub-folders of one folder. *)
Definition nested_spec : list (string * json) :=
  [ ("a", JObj [ ("files", JObj [("k1", JStr "^x.*")]);
                 ("b", JObj [("files", JObj [("k2", JStr "^y.*")])]) ]) ].

(** The current directory already holds the folder [a], without [a/b]. *)
Definition only_a : tree := Node [] [("a", empty_dir)].

(** Two folders whose patterns both match [x1.txt]. *)
Definition overlapping_spec : list (string * json) :=
  [ ("a", JObj [("files", JObj [("k1", JStr "^x.*")])]);
    ("b", JObj [("files", JObj [("k2", JStr "^x1.*")])]) ].

(** The routing specification of the router example. *)
Definition router_spec : list (string * json) :=
  [ ("a", JObj [("files", JObj [("k1", JStr "^x.*")])]);
    ("b", JObj [("files", JObj [("k2", JStr "^y.*")])]) ].

Definition one_file : tree :=
  Node [("x1.txt", Raw "")] [("a", empty_dir); ("b", empty_dir)].

Definition three_files : tree :=
  Node [("x1.txt", Raw ""); ("y1.txt", Raw ""); ("z1.txt", Raw "")]
       [("a", empty_dir); ("b", empty_dir)].

(** A release directory with two versioned files and one sub-directory. *)
Definition two_versions : tree :=
  Node [("a-1.2.3.4.bin", Raw ""); ("b-5.6.7.8.bin", Raw "")]
       [("sub", empty_dir)].

Definition run_mode_b : tree -> tree * result unit :=
  MetaJsonHandler.create_meta_files_all Sample.slot_last
    Sample.parse_timestamp Sample.isoformat_local Sample.json_loads
    Sample.env "rel".


(** The repositories mapping written for the sample environment into a
    directory that has no [buildInfo.json] yet. *)
Definition sample_repositories : result json :=
  match
    PyDict.lookup "buildInfo.json"
      (fst (MetaJsonHandler.generate_build_info_file Sample.slot_last
              Sample.parse_timestamp Sample.isoformat_local
              Sample.json_loads Sample.env "rel/buildInfo.json" []))
  with
  | Some (Json doc) =>
      rbind (Py.getitem doc "versionControlSystem") (fun vcs =>
      Py.getitem vcs "repositories")
  | _ => Err FileNotFoundError
  end.

(** A directory whose manifest was written when the directory had another
    name, and a release tree that holds it as [sub]. *)
Definition named_listing : listing :=
  [ ("meta.json",
      Json (JObj [ ("self", JStr "meta.json");
                   ("selfDirName", JStr "old");
                   ("metaTargets", JArr []);
                   ("files", JObj []);
                   ("versionInfo", JObj []) ])) ].

Definition named_tree : tree := Node [] [("sub", Node named_listing [])].


End Worked.

(** ** Key canonicalisation, as the specification words it

    The canonical key of an old key is the first logical key, in the
    iteration order of the regex mapping, whose pattern list contains a
    pattern that matches the old key from its start; an old key that no
    pattern matches is its own canonical key. *)

Module CanonSpec.

Section Spec.

Variable re_match : string -> string -> result bool.

Definition pattern_hits (values : list json) (old_key : string) : Prop :=
  exists p, In p values /\ LocalScript.re_match_json re_match p old_key = Ok true.

Definition pattern_misses (values : list json) (old_key : string) : Prop :=
  forall p, In p values -> LocalScript.re_match_json re_match p old_key = Ok false.

Inductive canonical_key (regex_mappings : list (string * list json))
  (old_key : string) : string -> Prop :=
| canonical_first (before : list (string * list json)) (key : string)
    (values : list json) (after : list (string * list json)) :
    regex_mappings = before ++ (key, values) :: after ->
    (forall kv, In kv before -> pattern_misses (snd kv) old_key) ->
    pattern_hits values old_key ->
    canonical_key regex_mappings old_key key
| canonical_self :
    (forall kv, In kv regex_mappings -> pattern_misses (snd kv) old_key) ->
    canonical_key regex_mappings old_key old_key.

(** Every pattern of the mapping compiles and is a string, so that matching
    [old_key] against it gives an answer. *)
Definition patterns_answer (regex_mappings : list (string * list json))
  (old_key : string) : Prop :=
  forall kv p, In kv regex_mappings -> In p (snd kv) ->
    exists b, LocalScript.re_match_json re_match p old_key = Ok b.

End Spec.

End CanonSpec.

(** ** Auxiliary definitions for the statements *)

Module Aux.

Import Fs.

(** The matches of the version pattern among the file names, in order. *)
Definition version_matches (files : list string) : list Version.groups :=
  flat_map (fun f => match Version.search f with
                     | Some g => [g]
                     | None => []
                     end) files.

(** The [versionInfo] assignments the full walk makes for a listing, in
    order. *)
Definition version_entries (files : list string) : list (string * json) :=
  map (fun g => ("versionInfo", Version.version_info g)) (version_matches files).

(** A manifest on which the full walk can work: a JSON object whose
    [files] member, if there is one, is an object. *)
Definition manifest_shape (doc : json) : bool :=
  match doc with
  | JObj d =>
      match PyDict.lookup "files" d with
      | None | Some (JObj _) => true
      | Some _ => false
      end
  | _ => false
  end.


(** The directory at the path [p] of sub-directory names below [t]. *)
Fixpoint subtree (p : list string) (t : tree) : option tree :=
  match p with
  | [] => Some t
  | d :: p' =>
      match PyDict.lookup d (dirs_of t) with
      | Some sub => subtree p' sub
      | None => None
      end
  end.

(** The path string the walk started at [top] gives the directory at [p]. *)
Definition walked_path (top : string) (p : list string) : string :=
  fold_left PyPath.join p top.

(** The manifest of the directory at [p] below [t]. *)
Definition manifest_at (p : list string) (t : tree) : option content :=
  match subtree p t with
  | Some sub => PyDict.lookup "meta.json" (files_of sub)
  | None => None
  end.

(** The [selfDirName] of the manifest in a listing. *)
Definition self_dir_name (name : string) (fs : listing) : option json :=
  match PyDict.lookup name fs with
  | Some (Json doc) =>
      match Py.getitem doc "selfDirName" with
      | Ok v => Some v
      | Err _ => None
      end
  | _ => None
  end.


(** The scalar fields [generate_build_info_file] assigns, in order. *)
Definition scalar_fields (isoformat_local : datetime -> string)
  (env : environ) (ts : datetime) : list (string * json) :=
  [ ("buildNode", JStr (environ_get env "NODE_NAME" ""));
    ("buildId", JStr (environ_get env "BUILD_ID" ""));
    ("buildTimestamp", JStr (isoformat_local ts));
    ("buildYear", JInt (dt_year ts));
    ("buildMonth", JInt (dt_month ts));
    ("buildDay", JInt (dt_day ts));
    ("buildHour", JInt (dt_hour ts));
    ("buildMinute", JInt (dt_minute ts));
    ("buildSecond", JInt (dt_second ts));
    ("versionIar", JStr (environ_get env "IAR_VERSION" ""));
    ("versionPython", JStr (environ_get env "PYTHON_VERSION" ""));
    ("versionJlink", JStr (environ_get env "JLINK_VERSION" "")) ].

(** The repositories mapping built from the environment, starting from
    [repos]. *)
Definition repositories_from (json_loads : string -> option json)
  (env : environ) (repos : list (string * json))
  : result (list (string * json)) :=
  rfold (fun acc (kv : string * string) =>
           if PyStr.startswith "GIT_INFO_" (fst kv) then
             (repo_name <- MetaJsonHandler._get_repo_name (fst kv) ;;
              repo_info <-
                match json_loads (snd kv) with
                | Some v => Ok v
                | None => Err JSONDecodeError
                end ;;
              Ok (PyDict.set repo_name repo_info acc))%res
           else Ok acc) env repos.

(** The first file of the listing whose name ends in [.hex]. *)
Definition first_hex (files : list string) : option string :=
  find (PyStr.endswith ".hex") files.

(** The [versionInfo] taken from the first [.hex] file alone. *)
Definition hex_version_info (files : list string) : json :=
  match first_hex files with
  | Some file =>
      match Version.search file with
      | Some m => Version.version_info m
      | None => JObj []
      end
  | None => JObj []
  end.

(** The manifest [create_meta_json] writes for a directory. *)
Definition rebuilt_meta (root : string) (dirs files : list string) : json :=
  JObj
    [ ("self", JStr "meta.json");
      ("selfDirName", JStr (PyPath.basename root));
      ("metaTargets",
        JArr (map (fun d =>
                     JObj [ ("targetName", JStr d);
                            ("metaInformationFile", JStr (d ++ "/meta.json")) ])
                  dirs));
      ("files",
        JObj (PyDict.of_pairs
                (map (fun f => (f, JStr f))
                     (filter (fun f => negb (String.eqb f "meta.json")) files))));
      ("versionInfo", hex_version_info files) ].

(** The reading under which version scanning stops after the first file of
    the listing, whatever that file is. *)
Definition first_file_version_info (files : list string) : json :=
  match files with
  | file :: _ =>
      if PyStr.endswith ".hex" file then
        match Version.search file with
        | Some m => Version.version_info m
        | None => JObj []
        end
      else JObj []
  | [] => JObj []
  end.

(** The listing as [_load_json_file] leaves it: the file is seeded with
    the template when it was absent. *)
Definition seeded (slot : string -> list string -> nat) (name : string)
  (template : json) (fs : listing) : listing :=
  if negb (PyDict.mem name fs) then add_entry slot name (Json template) fs
  else fs.

End Aux.

(** ** Further auxiliary definitions *)

Module Cover.

Import Fs.

(** The [files] mapping of the manifest [name] of a listing; empty when
    there is no such manifest or no such mapping. *)
Definition manifest_files (name : string) (fs : listing) : list (string * json) :=
  match PyDict.lookup name fs with
  | Some (Json (JObj d)) =>
      match PyDict.lookup "files" d with
      | Some (JObj F) => F
      | _ => []
      end
  | _ => []
  end.

(** A listing on which [update_meta_json] can assign under [files]: no
    manifest, or a manifest that is an object with a [selfDirName] member and
    an object as [files]. *)
Definition updatable (name : string) (fs : listing) : bool :=
  match PyDict.lookup name fs with
  | None => true
  | Some (Json (JObj d)) =>
      match PyDict.lookup "selfDirName" d, PyDict.lookup "files" d with
      | Some _, Some (JObj _) => true
      | _, _ => false
      end
  | Some _ => false
  end.

(** The number of occurrences of [c] in [s]. *)
Fixpoint count_char (c : ascii) (s : string) : nat :=
  match s with
  | EmptyString => O
  | String x s' => (if Ascii.eqb x c then 1 else 0) + count_char c s'
  end.

(** The members of the [files] mapping of a manifest object; none when
    there is no such mapping. *)
Definition files_member (d : list (string * json)) : list (string * json) :=
  match PyDict.lookup "files" d with
  | Some (JObj F) => F
  | _ => []
  end.

(** The manifest the full walk writes in a directory that listed none. *)
Definition fresh_manifest (root : string) (dirs files : list string) : json :=
  JObj
    [ ("self", JStr "meta.json");
      ("selfDirName", JStr (PyPath.basename root));
      ("metaTargets", JArr (map MetaJsonHandler.meta_target dirs));
      ("files",
        JObj (if existsb (String.eqb "buildInfo.json") files
              then [("buildInfo", JStr "buildInfo.json")]
              else []));
      ("versionInfo",
        last (map Version.version_info (Aux.version_matches files)) (JObj [])) ].

(** Lines 103-105 of [update_meta_json]: the assignments made to the loaded
    manifest. *)
Definition updated_manifest (file_path key value json_path : string)
  (meta_json : json) : result json :=
  (self_dir_name <- Py.getitem meta_json "selfDirName" ;;
   meta_json <-
     (if negb (Py.truthy self_dir_name)
      then Py.setitem meta_json "selfDirName"
             (JStr (PyPath.basename (PyPath.dirname file_path)))
      else Ok meta_json) ;;
   target <- Py.getitem meta_json json_path ;;
   target <- Py.setitem target key (JStr value) ;;
   Py.setitem meta_json json_path target)%res.

(** A [GIT_INFO_] variable whose value is no JSON. *)
Definition bad_repository (json_loads : string -> option json)
  (kv : string * string) : Prop :=
  PyStr.startswith "GIT_INFO_" (fst kv) = true /\ json_loads (snd kv) = None.

End Cover.

(** ** Dotted version numbers *)

Module VersionSpec.

(** Every character of [s] is an ASCII digit. *)
Fixpoint all_digits (s : string) : bool :=
  match s with
  | EmptyString => true
  | String c s' => PyStr.is_digit c && all_digits s'
  end.

(** A non-empty string of digits. *)
Definition number (s : string) : bool :=
  negb (String.eqb s "") && all_digits s.

Definition starts_with_digit (s : string) : bool :=
  match s with
  | String c _ => PyStr.is_digit c
  | EmptyString => false
  end.

(** Four strings joined by dots. *)
Definition dotted (a b c d : string) : string :=
  (a ++ "." ++ b ++ "." ++ c ++ "." ++ d)%string.

(** Every character of [s] is an ASCII character. On such strings the
    digits of the version pattern are the ten ASCII digits. *)
Fixpoint is_ascii (s : string) : bool :=
  match s with
  | EmptyString => true
  | String c s' => (nat_of_ascii c <? 128)%nat && is_ascii s'
  end.

(** The [versionFull] of a [versionInfo] record. *)
Definition version_full (info : json) : option string :=
  match Py.getitem info "versionFull" with
  | Ok (JStr s) => Some s
  | _ => None
  end.

End VersionSpec.

(** ** What a rewrite of the [files] mapping keeps *)

Module Keeps.

Import Fs.

(** The manifest [c'] is the manifest [c], or both are objects that agree
    on every member other than [files]. *)
Definition same_but_files (c c' : option content) : Prop :=
  c' = c \/
  exists d d',
    c = Some (Json (JObj d)) /\ c' = Some (Json (JObj d')) /\
    forall k, k <> "files" -> PyDict.lookup k d' = PyDict.lookup k d.

(** The listing [fs'] is [fs] but for the [files] mapping of the manifest. *)
Definition rewritten (fs fs' : listing) : Prop :=
  (forall name, name <> "meta.json" ->
                PyDict.lookup name fs' = PyDict.lookup name fs) /\
  same_but_files (PyDict.lookup "meta.json" fs) (PyDict.lookup "meta.json" fs').

(** The loop of [update_meta_file_keys] over the file names of one
    directory, lines 154-178. *)
Definition keys_body (slot : string -> list string -> nat)
  (re_match : string -> string -> result bool)
  (regex_mappings : list (string * list json)) (files : list string)
  : M listing unit :=
  for_each files (fun filename =>
    if String.eqb filename LocalScript.META_FILE_NAME
    then LocalScript.update_meta_file slot re_match regex_mappings filename
    else ret tt).

End Keeps.

(** ** [get_regex_mappings], lines 121-143 of [full_local_script.py] *)

Module Mappings.

(** The dict [regex_mappings]: logical keys to lists of patterns. *)
Definition mappings : Type := list (string * list json).

(** [isinstance(x, dict)] *)
Definition is_dict (x : json) : bool :=
  match x with
  | JObj _ => true
  | _ => false
  end.

(** [regex_mappings.setdefault(key, []).append(value)], line 136. *)
Definition append_pattern (regex_mappings : mappings) (kv : string * json)
  : mappings :=
  PyDict.set (fst kv)
    (match PyDict.lookup (fst kv) regex_mappings with
     | Some l => l ++ [snd kv]
     | None => [snd kv]
     end) regex_mappings.

(** The loop of lines 138-140 over the members of [data], [extract] being
    the recursive call. *)
Definition extract_members (extract : json -> mappings -> result mappings)
  : list (string * json) -> mappings -> result mappings :=
  fix go (ms : list (string * json)) (acc : mappings) : result mappings :=
    match ms with
    | [] => Ok acc
    | (subfolder, subfolder_data) :: ms' =>
        if negb (String.eqb subfolder "files") && is_dict subfolder_data
        then rbind (extract subfolder_data acc) (go ms')
        else go ms' acc
    end.

(** [extract_recursive], lines 131-140, with the dict it fills passed
    through. The argument [path] is built and never read. *)
Fixpoint extract_recursive (data : json) (regex_mappings : mappings)
  {struct data} : result mappings :=
  match data with
  | JObj members =>
      (files <- Py.items (match PyDict.lookup "files" members with
                          | Some v => v
                          | None => JObj []
                          end) ;;
       extract_members (fun d acc => extract_recursive d acc) members
         (fold_left append_pattern files regex_mappings))%res
  | _ => Err AttributeError
  end.

(** [get_regex_mappings], lines 121-143. *)
Definition get_regex_mappings (folder_structure : json) : result mappings :=
  extract_recursive folder_structure [].

(** The patterns below the members of a folder, in document order. *)
Definition member_patterns (patterns : json -> list (string * json))
  : list (string * json) -> list (string * json) :=
  fix go (ms : list (string * json)) : list (string * json) :=
    match ms with
    | [] => []
    | (subfolder, subfolder_data) :: ms' =>
        (if negb (String.eqb subfolder "files") && is_dict subfolder_data
         then patterns subfolder_data
         else []) ++ go ms'
    end.

(** Every entry of every [files] mapping of a folder structure, in document
    order: those of a folder before those of its sub-folders. *)
Fixpoint all_patterns (data : json) : list (string * json) :=
  match data with
  | JObj members =>
      Cover.files_member members
      ++ member_patterns (fun d => all_patterns d) members
  | _ => []
  end.

Definition members_ok (ok : json -> bool) : list (string * json) -> bool :=
  fix go (ms : list (string * json)) : bool :=
    match ms with
    | [] => true
    | (subfolder, subfolder_data) :: ms' =>
        (if negb (String.eqb subfolder "files") && is_dict subfolder_data
         then ok subfolder_data
         else true) && go ms'
    end.

(** A folder structure in which every [files] member, at any depth of
    nested objects, is an object. *)
Fixpoint files_ok (data : json) : bool :=
  match data with
  | JObj members =>
      match PyDict.lookup "files" members with
      | Some v => is_dict v
      | None => true
      end && members_ok (fun d => files_ok d) members
  | _ => false
  end.

(** The patterns recorded under the logical key [k], in order. *)
Definition patterns_for (k : string) (l : list (string * json)) : list json :=
  map snd (filter (fun kv => String.eqb (fst kv) k) l).

(** What [extract_recursive] does on [data], from any state of the dict. *)
Definition extracts (data : json) : Prop :=
  forall acc,
    (files_ok data = true ->
     extract_recursive data acc
     = Ok (fold_left append_pattern (all_patterns data) acc)) /\
    (files_ok data = false ->
     extract_recursive data acc = Err AttributeError).

End Mappings.

(** ** Folder structures *)

Module Folders.

(** A name that is one path component and names an entry of the directory
    it is looked up in. *)
Definition plain (s : string) : bool :=
  PyPath.no_slash s && negb (String.eqb s "") && negb (String.eqb s ".")
  && negb (String.eqb s "..").

(** The folder and sub-folder names of a folder structure are plain. *)
Definition plain_names (folder_structure : list (string * json)) : bool :=
  forallb (fun kv =>
             plain (fst kv) &&
             match snd kv with
             | JObj m => forallb plain (PyDict.keys m)
             | _ => true
             end) folder_structure.

(** The folder and sub-folder names of a folder structure are names the
    file system takes. *)
Definition short_names (folder_structure : list (string * json)) : bool :=
  forallb (fun kv =>
             Fs.name_ok (fst kv) &&
             match snd kv with
             | JObj m => forallb Fs.name_ok (PyDict.keys m)
             | _ => true
             end) folder_structure.

(** Every folder of the folder structure is described by an object. *)
Definition all_dicts (folder_structure : list (string * json)) : bool :=
  forallb (fun kv => Mappings.is_dict (snd kv)) folder_structure.

End Folders.

(** ** The calls of [code_snippet_final_implementation.py]

    Lines 5-12: the entry of one file is posted under [files] in the manifest
    at [target_path], and the full walk of the destination directory
    follows. The directory that holds the target manifest is the one at the
    path [target_dir] of sub-directory names below the destination
    directory. *)

Module Snippet.

Import Fs.

(** A statement acting on the files of the directory at [p]; opening a file
    in a directory that is not there raises [FileNotFoundError]. *)
Fixpoint at_dir {A : Type} (p : list string) (m : M listing A) (t : tree)
  : tree * result A :=
  match p with
  | [] => at_top m t
  | d :: p' =>
      match PyDict.lookup d (dirs_of t) with
      | Some sub =>
          let (sub', r) := at_dir p' m sub in
          (Node (files_of t) (replace_entry d sub' (dirs_of t)), r)
      | None => (t, Err FileNotFoundError)
      end
  end.

Definition post_then_walk (slot : string -> list string -> nat)
  (parse_timestamp : string -> option datetime)
  (isoformat_local : datetime -> string)
  (json_loads : string -> option json) (env : environ)
  (destination_dir : string) (target_dir : list string)
  (target_path meta_key file_name : string) : M tree unit :=
  (at_dir target_dir
     (MetaJsonHandler.update_meta_json slot target_path meta_key file_name
        "files") ;;;
   MetaJsonHandler.create_meta_files_all slot parse_timestamp isoformat_local
     json_loads env destination_dir)%fs.

End Snippet.

(** ** Routing one file *)

Module Routing.

Import Fs.

(** The body of the loop of [move_files] over the listed names, lines
    48-60: one name is tried against every folder. *)
Definition route_file (slot : string -> list string -> nat)
  (re_match : string -> string -> result bool)
  (folder_structure : list (string * json)) (file : string) : M tree unit :=
  for_each folder_structure (LocalScript.move_into_folder slot re_match file).

(** A member of a folder that [move_files] can read as a sub-folder: an
    object with an object as [files]. The member [files] itself is no
    sub-folder. *)
Definition subfolder_ok (kv : string * json) : bool :=
  String.eqb (fst kv) "files" ||
  match snd kv with
  | JObj nm =>
      match PyDict.lookup "files" nm with
      | Some (JObj _) => true
      | _ => false
      end
  | _ => false
  end.

(** A folder that [move_files] can read: an object whose [files] member, if
    there is one, is an object, and whose other members are sub-folders. *)
Definition folder_ok (kv : string * json) : bool :=
  String.eqb (fst kv) "files" ||
  match snd kv with
  | JObj pm =>
      match PyDict.lookup "files" pm with
      | None | Some (JObj _) => true
      | Some _ => false
      end && forallb subfolder_ok pm
  | _ => false
  end.

Definition readable (folder_structure : list (string * json)) : bool :=
  forallb folder_ok folder_structure.

(** Every pattern of [regexes] is a string that compiles and does not match
    [file]. *)
Definition misses (re_match : string -> string -> result bool)
  (file : string) (regexes : list (string * json)) : Prop :=
  forall kv, In kv regexes ->
             LocalScript.re_match_json re_match (snd kv) file = Ok false.

End Routing.

(** ** Conditions on a whole tree *)

Module TreeShape.

Import Fs.

Definition subdirs_all (ok : tree -> bool) : list (string * tree) -> bool :=
  fix go (ds : list (string * tree)) : bool :=
    match ds with
    | [] => true
    | (_, sub) :: ds' => ok sub && go ds'
    end.

(** No directory of the tree has a sub-directory named [meta.json]. *)
Fixpoint no_manifest_dir (t : tree) : bool :=
  match t with
  | Node _ dirs =>
      negb (existsb (String.eqb "meta.json") (map fst dirs))
      && subdirs_all (fun sub => no_manifest_dir sub) dirs
  end.

Definition subdirs_every (P : tree -> Prop) : list (string * tree) -> Prop :=
  fix go (ds : list (string * tree)) : Prop :=
    match ds with
    | [] => True
    | (_, sub) :: ds' => P sub /\ go ds'
    end.

(** What the walk of a sub-directory answers, by the shape of its tree. *)
Definition answers (walk : string -> tree -> tree * result unit)
  (d : string * tree) : Prop :=
  (no_manifest_dir (snd d) = true -> snd (walk (fst d) (snd d)) = Ok tt) /\
  (no_manifest_dir (snd d) = false ->
   snd (walk (fst d) (snd d)) = Err IsADirectoryError).

(** The files of every directory of the tree satisfy [P]. *)
Fixpoint every_dir (P : listing -> Prop) (t : tree) : Prop :=
  match t with
  | Node files dirs => P files /\ subdirs_every (fun sub => every_dir P sub) dirs
  end.

End TreeShape.

(** ** Manifests the key update can rewrite *)

Module CanonPass.

Import Fs.

(** The directory lists each name once, and its manifest, if it lists one,
    is an object whose [files] member, if there is one, is an object on
    whose keys every pattern of the regex mapping gives an answer. *)
Definition manifest_ready (re_match : string -> string -> result bool)
  (regex_mappings : list (string * list json)) (fs : listing) : Prop :=
  NoDup (map fst fs) /\
  match PyDict.lookup "meta.json" fs with
  | None => True
  | Some (Json (JObj d)) =>
      match PyDict.lookup "files" d with
      | None => True
      | Some (JObj old) =>
          forall k, In k (PyDict.keys old) ->
                    CanonSpec.patterns_answer re_match regex_mappings k
      | Some _ => False
      end
  | Some _ => False
  end.

End CanonPass.

(** * Properties *)

(** ** Insertion-ordered dicts *)

Module DictFacts.

Import PyDict.

Section Facts.
Context {V : Type}.
Implicit Types (k : string) (v : V) (d : list (string * V)).

Lemma lookup_set_eq k v d : lookup k (set k v d) = Some v.
Proof.
  induction d as [|[k' v'] d IH]; simpl.
  - now rewrite String.eqb_refl.
  - destruct (String.eqb k' k) eqn:E; simpl.
    + now rewrite String.eqb_refl.
    + now rewrite E.
Qed.

Lemma lookup_set_neq k k0 v d : k <> k0 -> lookup k0 (set k v d) = lookup k0 d.
Proof.
  intros Hne. induction d as [|[k' v'] d IH]; simpl.
  - destruct (String.eqb_spec k k0); [contradiction | reflexivity].
  - destruct (String.eqb_spec k' k) as [->|Hk]; simpl.
    + destruct (String.eqb_spec k k0); [contradiction | reflexivity].
    + destruct (String.eqb k' k0); [reflexivity | exact IH].
Qed.

Lemma set_same k v d : lookup k d = Some v -> set k v d = d.
Proof.
  induction d as [|[k' v'] d IH]; simpl; [discriminate|].
  destruct (String.eqb_spec k' k) as [->|Hk]; intros H.
  - congruence.
  - now rewrite IH.
Qed.

Lemma set_set k v v' d : set k v (set k v' d) = set k v d.
Proof.
  induction d as [|[k' w] d IH]; simpl.
  - now rewrite String.eqb_refl.
  - destruct (String.eqb k' k) eqn:E; simpl.
    + now rewrite String.eqb_refl.
    + now rewrite E, IH.
Qed.

Lemma keys_set_mem k v d : mem k d = true -> keys (set k v d) = keys d.
Proof.
  unfold mem, keys. induction d as [|[k' w] d IH]; simpl; [discriminate|].
  destruct (String.eqb_spec k' k) as [->|Hk]; simpl; intros H.
  - reflexivity.
  - now rewrite IH.
Qed.

Lemma keys_set_new k v d : mem k d = false -> keys (set k v d) = keys d ++ [k].
Proof.
  unfold mem, keys. induction d as [|[k' w] d IH]; simpl; [reflexivity|].
  destruct (String.eqb_spec k' k) as [->|Hk]; simpl; intros H.
  - discriminate.
  - now rewrite IH.
Qed.

Lemma mem_In k d : mem k d = true <-> In k (keys d).
Proof.
  unfold mem, keys. induction d as [|[k' w] d IH]; simpl.
  - split; [discriminate | contradiction].
  - destruct (String.eqb_spec k' k) as [->|Hk].
    + split; auto.
    + rewrite IH. split; [auto | intros [H|H]; [contradiction | exact H]].
Qed.

Lemma mem_false_In k d : mem k d = false <-> ~ In k (keys d).
Proof.
  rewrite <- mem_In. destruct (mem k d); split; congruence.
Qed.

Lemma lookup_app k d1 d2 :
  lookup k (d1 ++ d2) =
  match lookup k d1 with
  | Some v => Some v
  | None => lookup k d2
  end.
Proof.
  induction d1 as [|[k' w] d1 IH]; simpl; [reflexivity|].
  destruct (String.eqb k' k); [reflexivity | exact IH].
Qed.

Lemma lookup_In k v d : lookup k d = Some v -> In (k, v) d.
Proof.
  induction d as [|[k' w] d IH]; simpl; [discriminate|].
  destruct (String.eqb_spec k' k) as [->|Hk]; intros H.
  - left. congruence.
  - right. auto.
Qed.

Lemma NoDup_keys_set k v d : NoDup (keys d) -> NoDup (keys (set k v d)).
Proof.
  intros Hnd. destruct (mem k d) eqn:E.
  - now rewrite keys_set_mem.
  - rewrite keys_set_new by assumption.
    apply NoDup_app; [assumption | repeat constructor; intros [] | ].
    intros x Hx [Hk|[]]. subst x. now apply (proj1 (mem_false_In k d)).
Qed.


End Facts.

End DictFacts.

(** ** Paths *)

Module PathFacts.

Import PyPath.

Lemma split_last_no_slash b : no_slash b = true -> split_last b = (EmptyString, b).
Proof.
  induction b as [|c b IH]; simpl; [reflexivity|].
  intros H. apply andb_prop in H as [Hc Hb].
  rewrite (IH Hb). apply negb_true_iff in Hc. now rewrite Hc.
Qed.

Lemma split_last_app_slash a b :
  no_slash b = true -> split_last (a ++ "/" ++ b) = ((a ++ "/")%string, b).
Proof.
  intros Hb. induction a as [|c a IH].
  - simpl. now rewrite (split_last_no_slash b Hb).
  - change (String c a ++ "/" ++ b)%string with (String c (a ++ "/" ++ b)).
    cbn [split_last]. rewrite IH. destruct a; reflexivity.
Qed.

Lemma ends_with_slash_inv a :
  ends_with_slash a = true -> exists a', a = (a' ++ "/")%string.
Proof.
  induction a as [|c a IH]; simpl; [discriminate|].
  destruct a as [|c' a].
  - intros H. apply Ascii.eqb_eq in H. subst c. now exists EmptyString.
  - intros H. destruct (IH H) as [a' Ha']. exists (String c a').
    simpl. now rewrite Ha'.
Qed.

Lemma append_assoc (a b c : string) : ((a ++ b) ++ c = a ++ b ++ c)%string.
Proof. induction a as [|x a IH]; simpl; [reflexivity | now rewrite IH]. Qed.

(** The last component of [os.path.join(a, b)] is [b] when [b] is a plain
    name. *)
Lemma basename_join a b : no_slash b = true -> basename (join a b) = b.
Proof.
  intros Hb. unfold basename, join.
  assert (Hs : PyStr.startswith "/" b = false).
  { destruct b as [|c b]; [reflexivity|]. cbn [no_slash] in Hb.
    apply andb_prop in Hb as [Hc _]. apply negb_true_iff in Hc.
    unfold PyStr.slash in Hc. rewrite Ascii.eqb_sym in Hc.
    cbn [PyStr.startswith]. now rewrite Hc. }
  rewrite Hs. destruct (String.eqb_spec a "") as [->|Ha]; cbn [orb].
  - cbn [append]. now rewrite (split_last_no_slash b Hb).
  - destruct (ends_with_slash a) eqn:E.
    + destruct (ends_with_slash_inv a E) as [a' ->].
      rewrite append_assoc. now rewrite (split_last_app_slash a' b Hb).
    + now rewrite (split_last_app_slash a b Hb).
Qed.

Lemma basename_join_meta a : basename (join a "meta.json") = "meta.json".
Proof. now apply basename_join. Qed.

Lemma basename_join_build_info a :
  basename (join a "buildInfo.json") = "buildInfo.json".
Proof. now apply basename_join. Qed.

End PathFacts.

(** ** Directory listings *)

Module EntryFacts.

Import PyDict Fs DictFacts.

Section Facts.
Context {V : Type}.
Variable slot : string -> list string -> nat.
Implicit Types (name k : string) (v : V) (l : list (string * V)).

Lemma lookup_firstn_None k n l : lookup k l = None -> lookup k (firstn n l) = None.
Proof.
  revert n. induction l as [|[k' w] l IH]; intros [|n]; simpl; auto.
  destruct (String.eqb k' k); [discriminate | auto].
Qed.

Lemma lookup_insert_at_neq name k n v l :
  name <> k -> lookup k (insert_at n (name, v) l) = lookup k l.
Proof.
  intros Hne. unfold insert_at.
  assert (E : lookup k l = lookup k (firstn n l ++ skipn n l))
    by now rewrite firstn_skipn.
  rewrite E, !lookup_app. simpl.
  now destruct (String.eqb_spec name k); [contradiction|].
Qed.

Lemma lookup_insert_at_new name n v l :
  lookup name l = None -> lookup name (insert_at n (name, v) l) = Some v.
Proof.
  intros H. unfold insert_at. rewrite lookup_app.
  rewrite (lookup_firstn_None name n l H). simpl. now rewrite String.eqb_refl.
Qed.

Lemma lookup_replace_eq name v l :
  mem name l = true -> lookup name (replace_entry name v l) = Some v.
Proof.
  unfold mem. induction l as [|[k' w] l IH]; simpl; [discriminate|].
  destruct (String.eqb k' name) eqn:E; simpl.
  - now rewrite String.eqb_refl.
  - now rewrite E.
Qed.

Lemma lookup_replace_neq name k v l :
  name <> k -> lookup k (replace_entry name v l) = lookup k l.
Proof.
  intros Hne. induction l as [|[k' w] l IH]; simpl; [reflexivity|].
  destruct (String.eqb_spec k' name) as [->|Hk]; simpl.
  - destruct (String.eqb_spec name k); [contradiction | reflexivity].
  - destruct (String.eqb k' k); [reflexivity | exact IH].
Qed.

Lemma replace_same name v l : lookup name l = Some v -> replace_entry name v l = l.
Proof.
  induction l as [|[k' w] l IH]; simpl; [discriminate|].
  destruct (String.eqb_spec k' name) as [->|Hk]; intros H.
  - congruence.
  - now rewrite IH.
Qed.

Lemma names_replace name v l : map fst (replace_entry name v l) = map fst l.
Proof.
  induction l as [|[k' w] l IH]; simpl; [reflexivity|].
  destruct (String.eqb_spec k' name) as [->|Hk]; simpl; [reflexivity|].
  now rewrite IH.
Qed.

Lemma names_insert_at name n v l :
  map fst (insert_at n (name, v) l) =
  firstn n (map fst l) ++ name :: skipn n (map fst l).
Proof.
  unfold insert_at. rewrite map_app. simpl.
  now rewrite firstn_map, skipn_map.
Qed.

Lemma lookup_write_eq name v l : lookup name (write_entry slot name v l) = Some v.
Proof.
  unfold write_entry. destruct (mem name l) eqn:E.
  - now apply lookup_replace_eq.
  - apply lookup_insert_at_new. unfold mem in E. now destruct (lookup name l).
Qed.

Lemma lookup_write_neq name k v l :
  name <> k -> lookup k (write_entry slot name v l) = lookup k l.
Proof.
  intros Hne. unfold write_entry. destruct (mem name l).
  - now apply lookup_replace_neq.
  - now apply lookup_insert_at_neq.
Qed.

Lemma write_same name v l :
  lookup name l = Some v -> write_entry slot name v l = l.
Proof.
  intros H. unfold write_entry, mem. rewrite H. now apply replace_same.
Qed.

Lemma lookup_add_neq name k v l :
  name <> k -> lookup k (add_entry slot name v l) = lookup k l.
Proof. intros Hne. now apply lookup_insert_at_neq. Qed.

Lemma lookup_add_new name v l :
  lookup name l = None -> lookup name (add_entry slot name v l) = Some v.
Proof. intros H. now apply lookup_insert_at_new. Qed.

End Facts.

End EntryFacts.

(** ** Repository names *)

Module RepoNameFacts.

Import MetaJsonHandler.

Lemma split_zero sep s : PyStr.split sep 0 s = [s].
Proof. now destruct s. Qed.

Lemma split_git_info rest :
  PyStr.split PyStr.underscore 2 ("GIT_INFO_" ++ rest) = ["GIT"; "INFO"; rest].
Proof. cbn. now rewrite split_zero. Qed.

Lemma split_not_nil sep n s : PyStr.split sep n s <> [].
Proof.
  revert n. induction s as [|c s IH]; intros n; simpl; [discriminate|].
  destruct n; [discriminate|].
  destruct (Ascii.eqb c sep); [discriminate|].
  now destruct (PyStr.split sep (S n) s).
Qed.

Lemma capitalize_or_underscore_not_empty x :
  exists c t, capitalize_or_underscore x = String c t.
Proof.
  unfold capitalize_or_underscore. destruct x as [|c x]; simpl; eauto.
Qed.

Lemma camel_not_empty l :
  l <> [] -> exists c t, PyStr.join "" (map capitalize_or_underscore l) = String c t.
Proof.
  destruct l as [|x l]; [congruence|]. intros _.
  destruct (capitalize_or_underscore_not_empty x) as (c & t & E).
  unfold PyStr.join. simpl. rewrite E.
  destruct (map capitalize_or_underscore l); simpl; eauto.
Qed.

End RepoNameFacts.

Module RepoNameClaims.

Import MetaJsonHandler RepoNameFacts.

(** C3, as the code has it. For a variable named [GIT_INFO_] followed by
    [rest], [_get_repo_name] never raises, and its result is the whole of
    [rest] in camel case: the underscore-separated words of [rest], each
    capitalised (an empty word gives an underscore), joined, with the first
    character in lower case. No segment is dropped: the variable
    [GIT_INFO_unused_my_repo] gives [unusedMyRepo], and that is the key under
    which [generate_build_info_file] files its value in
    [versionControlSystem.repositories]. *)
Theorem repo_name_is_camel_cased_remainder :
  (forall rest : string,
     exists c tail,
       PyStr.join ""
         (map capitalize_or_underscore
              (PyStr.split_all PyStr.underscore rest)) = String c tail /\
       _get_repo_name ("GIT_INFO_" ++ rest) = Ok (String (PyStr.to_lower c) tail))
  /\ _get_repo_name "GIT_INFO_unused_my_repo" = Ok "unusedMyRepo"
  /\ Worked.sample_repositories = Ok (JObj [("unusedMyRepo", JObj [])]).
Proof.
  split; [|split].
  - intros rest.
    destruct (camel_not_empty (PyStr.split_all PyStr.underscore rest))
      as (c & t & E).
    { apply split_not_nil. }
    exists c, t. split; [exact E|].
    unfold _get_repo_name. rewrite split_git_info. cbn [nth_error].
    now rewrite E.
  - reflexivity.
  - vm_compute. reflexivity.
Qed.

(** C3 as stated fails: the key derived from [GIT_INFO_unused_my_repo] is not
    [myRepo], and the repositories mapping written for an environment with
    that variable has no key [myRepo]. *)
Lemma repo_name_keeps_middle_segment :
  _get_repo_name "GIT_INFO_unused_my_repo" <> Ok "myRepo" /\
  rbind Worked.sample_repositories (Py.contains "myRepo") = Ok false.
Proof.
  split.
  - vm_compute. discriminate.
  - vm_compute. reflexivity.
Qed.

End RepoNameClaims.

(** ** The folder router *)

Module RouterClaims.

Import Fs LocalScript.

(** A top-level folder that exists already is passed over whole: nothing is
    created below it. *)
Lemma create_folder_existing slot folder_structure folder t :
  exists_path [folder] t = true ->
  create_folder slot folder_structure folder t = (t, Ok tt).
Proof.
  intros H. unfold create_folder.
  destruct (String.eqb folder "files"); [reflexivity|].
  cbn [negb]. unfold bind, gets. now rewrite H.
Qed.

(** C2, at the input where the code departs from it. The specification
    names folder [a] with sub-folder [a/b]; the current directory holds [a]
    but not [a/b]. [create_folders] returns without creating [a/b], while on
    an empty current directory it creates both. *)
Theorem create_folders_skips_subfolder_of_existing_folder :
  create_folders Sample.slot_last Worked.nested_spec Worked.only_a
    = (Worked.only_a, Ok tt) /\
  exists_path ["a"; "b"] Worked.only_a = false /\
  exists_path ["a"; "b"]
    (fst (create_folders Sample.slot_last Worked.nested_spec empty_dir)) = true.
Proof. repeat split; vm_compute; reflexivity. Qed.

(** C4, at the input where the code departs from it. The patterns of the
    folders [a] and [b] both match [x1.txt]. [move_files] moves the file into
    [a], goes on to the patterns of [b], renames the file that is no longer
    there and raises [FileNotFoundError]. *)
Theorem move_files_raises_on_second_match :
  move_files Sample.slot_last ReLite.re_match ["a"; "b"; "x1.txt"]
    Worked.overlapping_spec Worked.one_file
  = (Node [] [("a", Node [("x1.txt", Raw "")] []); ("b", empty_dir)],
     Err FileNotFoundError).
Proof. vm_compute. reflexivity. Qed.

(** The router example, where each file matches at most one pattern:
    [x1.txt] goes to [a], [y1.txt] to [b], and [z1.txt] stays. *)
Example move_files_router_example :
  move_files Sample.slot_last ReLite.re_match
    ["a"; "b"; "x1.txt"; "y1.txt"; "z1.txt"]
    Worked.router_spec Worked.three_files
  = (Node [("z1.txt", Raw "")]
          [("a", Node [("x1.txt", Raw "")] []);
           ("b", Node [("y1.txt", Raw "")] [])],
     Ok tt).
Proof. vm_compute. reflexivity. Qed.

End RouterClaims.

(** ** Key canonicalisation *)

Module CanonFacts.

Import PyDict DictFacts LocalScript CanonSpec.

Section Facts.

Variable re_match : string -> string -> result bool.

Lemma any_match_true values old_key :
  any_match re_match values old_key = Ok true ->
  pattern_hits re_match values old_key.
Proof.
  induction values as [|p values IH]; simpl; [discriminate|].
  destruct (re_match_json re_match p old_key) as [[|]|e] eqn:E; simpl;
    try discriminate.
  - intros _. exists p. split; [now left | exact E].
  - intros H. destruct (IH H) as (q & Hq & Hm). exists q.
    split; [now right | exact Hm].
Qed.

Lemma any_match_false values old_key :
  any_match re_match values old_key = Ok false ->
  pattern_misses re_match values old_key.
Proof.
  induction values as [|p values IH]; simpl.
  - intros _ q [].
  - destruct (re_match_json re_match p old_key) as [[|]|e] eqn:E; simpl;
      try discriminate.
    intros H q [<-|Hq]; [exact E | now apply IH].
Qed.

Lemma any_match_answers values old_key :
  (forall p, In p values -> exists b, re_match_json re_match p old_key = Ok b) ->
  exists b, any_match re_match values old_key = Ok b.
Proof.
  induction values as [|p values IH]; simpl; intros H; [eauto|].
  destruct (H p (or_introl eq_refl)) as [[|] ->]; simpl; eauto.
Qed.

Lemma updated_key_sound (rm : list (string * list json)) old_key k :
  updated_key re_match rm old_key = Ok k ->
  canonical_key re_match rm old_key k.
Proof.
  revert k. induction rm as [|[key values] rm IH]; simpl; intros k.
  - intros [= <-]. apply canonical_self. intros kv [].
  - destruct (any_match re_match values old_key) as [[|]|e] eqn:E; simpl;
      try discriminate.
    + intros [= <-]. apply (canonical_first _ _ _ [] key values rm).
      * reflexivity.
      * intros kv [].
      * now apply any_match_true.
    + intros H. apply any_match_false in E.
      destruct (IH k H) as [before key' values' after Hrm Hmiss Hhit | Hmiss].
      * apply (canonical_first _ _ _ ((key, values) :: before) key' values' after).
        -- simpl. now rewrite Hrm.
        -- intros kv [<-|Hkv]; [exact E | now apply Hmiss].
        -- exact Hhit.
      * apply canonical_self. intros kv [<-|Hkv]; [exact E | now apply Hmiss].
Qed.

Lemma updated_key_answers (rm : list (string * list json)) old_key :
  patterns_answer re_match rm old_key ->
  exists k, updated_key re_match rm old_key = Ok k.
Proof.
  unfold patterns_answer.
  induction rm as [|[key values] rm IH]; simpl; intros H; [eauto|].
  assert (Ha : forall p, In p values ->
                 exists b, re_match_json re_match p old_key = Ok b).
  { intros p Hp. apply (H (key, values)); [now left | exact Hp]. }
  destruct (any_match_answers values old_key Ha) as [[|] ->]; simpl; [eauto|].
  apply IH. intros kv p Hkv Hp. apply (H kv p); [now right | exact Hp].
Qed.

(** The loop of [update_files] assigns, in order, each value under the
    updated key of its old key. *)
Lemma update_files_loop (rm : list (string * list json))
  (files acc new : list (string * json)) :
  rfold (fun updated_files kv =>
           rbind (updated_key re_match rm (fst kv)) (fun k =>
           Ok (set k (snd kv) updated_files))) files acc = Ok new ->
  exists ks,
    Forall2 (fun old k => updated_key re_match rm old = Ok k) (keys files) ks /\
    new = assign (combine ks (map snd files)) acc.
Proof.
  revert acc. induction files as [|[old v] files IH]; simpl; intros acc.
  - intros [= <-]. exists []. split; [constructor | reflexivity].
  - destruct (updated_key re_match rm old) as [k|e] eqn:E; simpl;
      [|discriminate].
    intros H. destruct (IH _ H) as (ks & HF & ->).
    exists (k :: ks). split; [now constructor | reflexivity].
Qed.

Lemma update_files_answers (rm : list (string * list json))
  (files acc : list (string * json)) :
  (forall old, In old (keys files) -> patterns_answer re_match rm old) ->
  exists new,
    rfold (fun updated_files kv =>
             rbind (updated_key re_match rm (fst kv)) (fun k =>
             Ok (set k (snd kv) updated_files))) files acc = Ok new.
Proof.
  revert acc. induction files as [|[old v] files IH]; simpl; intros acc H;
    [eauto|].
  destruct (updated_key_answers rm old) as [k ->]; [apply H; now left|].
  simpl. apply IH. intros old' Hold'. apply H. now right.
Qed.

End Facts.

Section Assignments.
Context {V : Type}.
Implicit Types (l : list (string * V)) (acc : list (string * V)).

Lemma assign_nil acc : assign [] acc = acc.
Proof. reflexivity. Qed.

Lemma assign_cons k v l acc : assign ((k, v) :: l) acc = assign l (set k v acc).
Proof. reflexivity. Qed.

Lemma assign_app l1 l2 acc : assign (l1 ++ l2) acc = assign l2 (assign l1 acc).
Proof. apply fold_left_app. Qed.

Lemma assign_fresh l acc :
  NoDup (keys l) ->
  (forall k, In k (keys l) -> ~ In k (keys acc)) ->
  assign l acc = acc ++ l.
Proof.
  revert acc. induction l as [|[k v] l IH]; intros acc Hnd Hfresh.
  - now rewrite app_nil_r.
  - rewrite assign_cons. simpl in Hnd, Hfresh.
    inversion Hnd as [|? ? Hk Hnd']; subst.
    assert (Hs : set k v acc = acc ++ [(k, v)]).
    { clear - Hfresh. specialize (Hfresh k (or_introl eq_refl)).
      induction acc as [|[k' w] acc IH]; simpl; [reflexivity|].
      destruct (String.eqb_spec k' k) as [->|Hne].
      - exfalso. apply Hfresh. now left.
      - rewrite IH; [reflexivity|]. intros Hin. apply Hfresh. now right. }
    rewrite Hs, IH; [now rewrite <- app_assoc | assumption |].
    intros k0 Hk0. unfold keys. rewrite map_app. simpl.
    intros Hin. apply in_app_or in Hin as [Hin|[<-|[]]].
    + apply (Hfresh k0); auto.
    + contradiction.
Qed.

Lemma lookup_assign_other k l acc :
  ~ In k (keys l) -> lookup k (assign l acc) = lookup k acc.
Proof.
  revert acc. induction l as [|[k' v] l IH]; intros acc Hk; [reflexivity|].
  rewrite assign_cons. simpl in Hk.
  rewrite IH by tauto. apply lookup_set_neq. tauto.
Qed.

Lemma lookup_assign_last k v l post acc :
  ~ In k (keys post) -> lookup k (assign (l ++ (k, v) :: post) acc) = Some v.
Proof.
  intros Hk. rewrite assign_app, assign_cons.
  rewrite lookup_assign_other by assumption. apply lookup_set_eq.
Qed.





End Assignments.

End CanonFacts.

Module CanonClaims.

Import PyDict DictFacts LocalScript CanonSpec CanonFacts.


Lemma keys_combine {V : Type} (ks : list string) (vs : list V) :
  List.length ks = List.length vs -> keys (combine ks vs) = ks.
Proof.
  revert vs. induction ks as [|k ks IH]; intros [|v vs]; simpl;
    try discriminate; [reflexivity|].
  intros [= H]. now rewrite IH.
Qed.

(** Whenever [update_files] returns, the new [files] mapping is the one
    obtained by assigning, in the order of the old mapping, each value under
    the canonical key of its old key; when the canonical keys are pairwise
    different the entries keep their places and values and only the keys
    change. *)
Lemma update_files_canonical re_match rm files new :
  update_files re_match rm files = Ok new ->
  exists ks,
    Forall2 (canonical_key re_match rm) (keys files) ks /\
    new = of_pairs (combine ks (map snd files)) /\
    (NoDup ks -> new = combine ks (map snd files)).
Proof.
  intros H.
  destruct (update_files_loop re_match rm files [] new H) as (ks & HF & ->).
  exists ks. split; [|split].
  - clear H. induction HF; constructor; auto using updated_key_sound.
  - reflexivity.
  - intros Hnd. unfold of_pairs.
    assert (Hlen : List.length ks = List.length (map snd files)).
    { apply Forall2_length in HF. unfold keys in HF.
      rewrite length_map in *. congruence. }
    rewrite assign_fresh; [reflexivity | | intros k _ []].
    now rewrite keys_combine.
Qed.



End CanonClaims.

(** ** Build information *)

Module BuildInfoFacts.

Import PyDict DictFacts Fs MetaJsonHandler Aux.

Section Facts.

Variable slot : string -> list string -> nat.
Variable parse_timestamp : string -> option datetime.
Variable isoformat_local : datetime -> string.
Variable json_loads : string -> option json.

(** The loop over the environment changes the repositories mapping and
    nothing else. *)
Lemma rfold_add_repository env d vd repos :
  rfold (add_repository json_loads) env
    (JObj (set "versionControlSystem" (JObj (set "repositories" (JObj repos) vd)) d))
  = rbind (repositories_from json_loads env repos) (fun repos' =>
      Ok (JObj (set "versionControlSystem" (JObj (set "repositories" (JObj repos') vd)) d))).
Proof.
  revert repos. induction env as [|[key value] env IH]; intros repos.
  - reflexivity.
  - unfold repositories_from. cbn [rfold fst snd].
    unfold add_repository at 1.
    destruct (PyStr.startswith "GIT_INFO_" key); cbn [rbind].
    + destruct (_get_repo_name key) as [name|e]; cbn [rbind]; [|reflexivity].
      destruct (json_loads value) as [info|]; cbn [rbind]; [|reflexivity].
      cbn [Py.getitem]. rewrite lookup_set_eq. cbn [rbind Py.getitem].
      rewrite lookup_set_eq. cbn [rbind Py.setitem].
      rewrite !set_set. apply IH.
    + apply IH.
Qed.

(** What [fill_build_info] computes on a JSON object. *)
Lemma fill_normal_form env d0 :
  fill_build_info parse_timestamp isoformat_local json_loads env (JObj d0)
  = match parse_timestamp (environ_get env "BUILD_TIMESTAMP" "") with
    | None => Err ParserError
    | Some ts =>
        let d1 := assign (scalar_fields isoformat_local env ts) d0 in
        match lookup "versionControlSystem" d1 with
        | None => Err (KeyError "versionControlSystem")
        | Some (JObj vd) =>
            rbind (repositories_from json_loads env []) (fun repos =>
              Ok (JObj (set "versionControlSystem" (JObj (set "repositories" (JObj repos) vd)) d1)))
        | Some _ => Err TypeError
        end
    end.
Proof.
  unfold fill_build_info, _get_timestamp_from_env. cbn [Py.setitem rbind].
  destruct (parse_timestamp (environ_get env "BUILD_TIMESTAMP" "")) as [ts|];
    [|reflexivity].
  cbn [rbind Py.setitem Py.getitem].
  unfold assign, scalar_fields. cbn [fold_left fst snd].
  match goal with
  | |- context [lookup "versionControlSystem" ?d] => destruct (lookup "versionControlSystem" d) as [[]|]
  end; cbn [rbind Py.setitem]; try reflexivity.
  apply rfold_add_repository.
Qed.

Lemma fill_needs_object env doc b :
  fill_build_info parse_timestamp isoformat_local json_loads env doc = Ok b ->
  exists d0, doc = JObj d0.
Proof. destruct doc; try discriminate. eauto. Qed.

Lemma scalar_keys_distinct env ts :
  NoDup (keys (scalar_fields isoformat_local env ts)).
Proof.
  unfold scalar_fields, keys. cbn [map fst].
  repeat (constructor;
          [intros H;
           repeat (destruct H as [H|H]; [discriminate H|]); destruct H|]).
  constructor.
Qed.

Lemma scalar_keys_not_vcs env ts k v :
  In (k, v) (scalar_fields isoformat_local env ts) -> k <> "versionControlSystem".
Proof.
  unfold scalar_fields. intros H.
  repeat (destruct H as [H|H]; [injection H as <- _; discriminate|]).
  destruct H.
Qed.

End Facts.

Section Assign.
Context {V : Type}.

Lemma lookup_assign_in k (v : V) l acc :
  NoDup (keys l) -> In (k, v) l -> lookup k (assign l acc) = Some v.
Proof.
  intros Hnd Hin. apply in_split in Hin as (l1 & l2 & ->).
  apply CanonFacts.lookup_assign_last.
  unfold keys in Hnd. rewrite map_app in Hnd. cbn [map fst] in Hnd.
  apply NoDup_remove_2 in Hnd. intros Hin. apply Hnd.
  apply in_or_app. now right.
Qed.

Lemma assign_same (l : list (string * V)) d :
  (forall k v, In (k, v) l -> lookup k d = Some v) -> assign l d = d.
Proof.
  induction l as [|[k v] l IH]; intros H; [reflexivity|].
  rewrite CanonFacts.assign_cons.
  rewrite (set_same k v d) by (apply H; now left).
  apply IH. intros k' v' Hin. apply H. now right.
Qed.

End Assign.

End BuildInfoFacts.

Module BuildInfoClaims.

Import PyDict DictFacts Fs MetaJsonHandler Aux BuildInfoFacts.

Section Unfold.

Variable slot : string -> list string -> nat.
Variable parse_timestamp : string -> option datetime.
Variable isoformat_local : datetime -> string.
Variable json_loads : string -> option json.

Lemma generate_unfold env file_path fs :
  generate_build_info_file slot parse_timestamp isoformat_local json_loads
    env file_path fs
  = let name := PyPath.basename file_path in
    let fs1 := seeded slot name BUILD_INFO_TEMPLATE fs in
    match lookup name fs1 with
    | Some (Json doc) =>
        match fill_build_info parse_timestamp isoformat_local json_loads
                env doc with
        | Ok b => (write_entry slot name (Json b) fs1, Ok tt)
        | Err e => (fs1, Err e)
        end
    | Some (Raw _) => (fs1, Err JSONDecodeError)
    | None => (fs1, Err FileNotFoundError)
    end.
Proof.
  unfold generate_build_info_file, bind, _load_json_file, lift,
    _save_json_file, seeded.
  cbv zeta.
  destruct (lookup (PyPath.basename file_path) _) as [[doc|raw]|];
    reflexivity.
Qed.

End Unfold.

(** C8. [generate_build_info_file] raises when [BUILD_TIMESTAMP] is absent
    (the parser is then given the empty string, on which [dateutil] raises)
    and when its value does not parse. Whenever it returns normally the
    timestamp did parse and the seven timestamp fields of the saved document
    are those of the parsed timestamp: they are never left at the values of
    the template. *)
Theorem build_info_requires_timestamp :
  forall slot parse_timestamp isoformat_local json_loads env file_path fs,
    (((lookup "BUILD_TIMESTAMP" env = None /\ parse_timestamp "" = None) \/
      (exists v, lookup "BUILD_TIMESTAMP" env = Some v /\
                 parse_timestamp v = None)) ->
     exists e,
       snd (generate_build_info_file slot parse_timestamp isoformat_local
              json_loads env file_path fs) = Err e)
    /\
    (snd (generate_build_info_file slot parse_timestamp isoformat_local
            json_loads env file_path fs) = Ok tt ->
     exists ts doc,
       parse_timestamp (environ_get env "BUILD_TIMESTAMP" "") = Some ts /\
       lookup (PyPath.basename file_path)
         (fst (generate_build_info_file slot parse_timestamp isoformat_local
                 json_loads env file_path fs)) = Some (Json doc) /\
       Py.getitem doc "buildTimestamp" = Ok (JStr (isoformat_local ts)) /\
       Py.getitem doc "buildYear" = Ok (JInt (dt_year ts)) /\
       Py.getitem doc "buildMonth" = Ok (JInt (dt_month ts)) /\
       Py.getitem doc "buildDay" = Ok (JInt (dt_day ts)) /\
       Py.getitem doc "buildHour" = Ok (JInt (dt_hour ts)) /\
       Py.getitem doc "buildMinute" = Ok (JInt (dt_minute ts)) /\
       Py.getitem doc "buildSecond" = Ok (JInt (dt_second ts))).
Proof.
  intros slot parse iso loads env file_path fs.
  rewrite generate_unfold. cbv zeta.
  set (name := PyPath.basename file_path).
  set (fs1 := seeded slot name BUILD_INFO_TEMPLATE fs).
  split.
  - intros H.
    assert (Hp : parse (environ_get env "BUILD_TIMESTAMP" "") = None).
    { unfold environ_get. destruct H as [[-> Hp]|(v & -> & Hp)]; exact Hp. }
    destruct (lookup name fs1) as [[doc|raw]|]; cbn [snd]; eauto.
    destruct doc; try (eexists; reflexivity).
    rewrite fill_normal_form, Hp. eexists. reflexivity.
  - destruct (lookup name fs1) as [[doc|raw]|]; cbn [snd]; try discriminate.
    destruct (fill_build_info parse iso loads env doc) as [b|e] eqn:E;
      cbn [snd fst]; [|discriminate].
    intros _. destruct (fill_needs_object _ _ _ _ _ _ E) as [d0 ->].
    rewrite fill_normal_form in E.
    destruct (parse (environ_get env "BUILD_TIMESTAMP" "")) as [ts|];
      [|discriminate].
    cbv zeta in E.
    destruct (lookup "versionControlSystem"
                (assign (scalar_fields iso env ts) d0)) as [[]|];
      try discriminate.
    destruct (repositories_from loads env []) as [repos|]; [|discriminate].
    cbn [rbind] in E. injection E as <-.
    exists ts. eexists. split; [reflexivity|].
    split; [apply EntryFacts.lookup_write_eq|].
    unfold assign, scalar_fields. cbn [fold_left fst snd].
    repeat split; cbn [Py.getitem];
      repeat (rewrite lookup_set_neq by discriminate);
      rewrite lookup_set_eq; reflexivity.
Qed.

Lemma build_info_requires_timestamp_witness :
  (exists e,
     snd (generate_build_info_file Sample.slot_last Sample.parse_timestamp
            Sample.isoformat_local Sample.json_loads
            [("NODE_NAME", "node-1")] "rel/buildInfo.json" []) = Err e)
  /\
  (exists ts doc,
     Sample.parse_timestamp (environ_get Sample.env "BUILD_TIMESTAMP" "")
       = Some ts /\
     lookup (PyPath.basename "rel/buildInfo.json")
       (fst (generate_build_info_file Sample.slot_last Sample.parse_timestamp
               Sample.isoformat_local Sample.json_loads Sample.env
               "rel/buildInfo.json" [])) = Some (Json doc) /\
     Py.getitem doc "buildYear" = Ok (JInt (dt_year ts))).
Proof.
  split.
  - apply (proj1 (build_info_requires_timestamp Sample.slot_last
                    Sample.parse_timestamp Sample.isoformat_local
                    Sample.json_loads [("NODE_NAME", "node-1")]
                    "rel/buildInfo.json" [])).
    left. split; reflexivity.
  - destruct (proj2 (build_info_requires_timestamp Sample.slot_last
                       Sample.parse_timestamp Sample.isoformat_local
                       Sample.json_loads Sample.env
                       "rel/buildInfo.json" []))
      as (ts & doc & H1 & H2 & _ & H3 & _).
    + vm_compute. reflexivity.
    + exists ts, doc. repeat split; assumption.
Defined.

(** On the failing run the file is nevertheless created when it was absent:
    [_load_json_file] seeds it with the template before the timestamp is
    parsed. *)
Remark build_info_seeded_before_failure :
  generate_build_info_file Sample.slot_last Sample.parse_timestamp
    Sample.isoformat_local Sample.json_loads
    [("NODE_NAME", "node-1")] "rel/buildInfo.json" []
  = ([("buildInfo.json", Json BUILD_INFO_TEMPLATE)], Err ParserError).
Proof. vm_compute. reflexivity. Qed.

End BuildInfoClaims.

(** ** The full walk, [create_meta_files_all] *)

Module WalkFacts.

Import PyDict DictFacts EntryFacts CanonFacts Fs MetaJsonHandler Aux.

(** *** The version loop *)

Lemma version_matches_app l1 l2 :
  version_matches (l1 ++ l2) = version_matches l1 ++ version_matches l2.
Proof. apply flat_map_app. Qed.


Lemma version_entries_app l1 l2 :
  version_entries (l1 ++ l2) = version_entries l1 ++ version_entries l2.
Proof. unfold version_entries. now rewrite version_matches_app, map_app. Qed.

Lemma version_entries_keys files kv :
  In kv (version_entries files) -> fst kv = "versionInfo".
Proof.
  unfold version_entries. intros H. apply in_map_iff in H as (g & <- & _).
  reflexivity.
Qed.


(** On a JSON object the loop makes the assignments of [version_entries]. *)
Lemma scan_object files x :
  rfold scan_version files (JObj x) = Ok (JObj (assign (version_entries files) x)).
Proof.
  revert x. induction files as [|f files IH]; intros x; [reflexivity|].
  cbn [rfold]. unfold scan_version at 1.
  change (f :: files) with ([f] ++ files).
  rewrite version_entries_app, assign_app.
  unfold version_entries at 2, version_matches. cbn [flat_map].
  destruct (Version.search f) as [g|]; cbn [rbind Py.setitem]; apply IH.
Qed.

(** Without a match the loop leaves any document as it is. *)
Lemma scan_no_match files doc :
  version_entries files = [] -> rfold scan_version files doc = Ok doc.
Proof.
  revert doc. induction files as [|f files IH]; intros doc H; [reflexivity|].
  change (f :: files) with ([f] ++ files) in H.
  rewrite version_entries_app in H. apply app_eq_nil in H as [H1 H2].
  cbn [rfold]. unfold scan_version at 1.
  unfold version_entries, version_matches in H1. cbn [flat_map] in H1.
  destruct (Version.search f); [discriminate|]. cbn [rbind]. now apply IH.
Qed.

(** With a match the loop needs a JSON object. *)
Lemma scan_match_needs_object files doc doc' :
  version_entries files <> [] ->
  rfold scan_version files doc = Ok doc' ->
  exists x, doc = JObj x.
Proof.
  revert doc. induction files as [|f files IH]; intros doc Hne H.
  - now contradiction Hne.
  - cbn [rfold] in H. unfold scan_version at 1 in H.
    destruct (Version.search f) as [g|] eqn:Eg.
    + destruct doc; try discriminate. eauto.
    + cbn [rbind] in H. apply (IH doc); [|exact H].
      intros Hnil. apply Hne.
      change (f :: files) with ([f] ++ files).
      rewrite version_entries_app, Hnil, app_nil_r.
      unfold version_entries, version_matches. cbn [flat_map]. now rewrite Eg.
Qed.

Section SameKey.
Context {V : Type}.

Lemma last_default_irrelevant {A : Type} (a : A) l d1 d2 :
  last (a :: l) d1 = last (a :: l) d2.
Proof.
  revert a. induction l as [|b l IH]; intros a; [reflexivity|].
  change (last (b :: l) d1 = last (b :: l) d2). apply IH.
Qed.

(** Assignments that all go to the key [k] amount to the last of them. *)
Lemma assign_same_key k (l : list (string * V)) v0 d :
  (forall kv, In kv l -> fst kv = k) ->
  assign l (set k v0 d) = set k (snd (last l (k, v0))) d.
Proof.
  revert v0. induction l as [|[k' v] l IH]; intros v0 H; [reflexivity|].
  rewrite assign_cons.
  assert (k' = k) by (apply (H (k', v)); now left). subst k'.
  rewrite set_set, IH by (intros kv Hkv; apply H; now right).
  destruct l as [|kv l]; [reflexivity|].
  change (last ((k, v) :: kv :: l) (k, v0)) with (last (kv :: l) (k, v0)).
  now rewrite (last_default_irrelevant kv l (k, v) (k, v0)).
Qed.

Lemma assign_twice k (l : list (string * V)) d :
  (forall kv, In kv l -> fst kv = k) ->
  assign l (assign l d) = assign l d.
Proof.
  intros H. destruct l as [|[k' v] l]; [reflexivity|].
  assert (k' = k) by (apply (H (k', v)); now left). subst k'.
  rewrite !assign_cons.
  assert (H' : forall kv, In kv l -> fst kv = k)
    by (intros kv Hkv; apply H; now right).
  rewrite (assign_same_key k l v d H').
  rewrite set_set. now rewrite (assign_same_key k l v _ H').
Qed.

End SameKey.

(** Running the loop again on its own result changes nothing. *)
Lemma scan_twice files files' doc doc' :
  version_entries files' = version_entries files ->
  rfold scan_version files doc = Ok doc' ->
  rfold scan_version files' doc' = Ok doc'.
Proof.
  intros Hsame H.
  destruct (version_entries files) as [|e es] eqn:E.
  - rewrite (scan_no_match files doc E) in H. injection H as <-.
    now apply scan_no_match.
  - destruct (scan_match_needs_object files doc doc') as [x ->];
      [now rewrite E | exact H |].
    rewrite scan_object in H. injection H as <-.
    rewrite scan_object, Hsame.
    rewrite <- E. rewrite assign_twice with (k := "versionInfo"); [reflexivity|].
    apply version_entries_keys.
Qed.

(** *** The other two steps on the manifest *)

Lemma init_listed root dirs files doc :
  existsb (String.eqb "meta.json") files = true ->
  init_manifest root dirs files doc = Ok doc.
Proof. intros H. unfold init_manifest. now rewrite H. Qed.


Lemma link_absent files doc :
  existsb (String.eqb "buildInfo.json") files = false ->
  link_build_info files doc = Ok doc.
Proof. intros H. unfold link_build_info. now rewrite H. Qed.

(** When [buildInfo.json] is listed the step needs an object, and it sets
    the [files] member to its old members (none if there was no such member)
    with [buildInfo] assigned. *)
Lemma link_present_inv files doc doc' :
  existsb (String.eqb "buildInfo.json") files = true ->
  link_build_info files doc = Ok doc' ->
  exists d F,
    doc = JObj d /\
    doc' = JObj (set "files"
                   (JObj (set "buildInfo" (JStr "buildInfo.json") F)) d).
Proof.
  intros H. unfold link_build_info. rewrite H.
  destruct doc as [| | | | s | l | d]; cbn [Py.contains rbind];
    try discriminate.
  - destruct (PyStr.contains "files" s); discriminate.
  - destruct (existsb _ l); discriminate.
  - unfold mem. destruct (lookup "files" d) as [v|] eqn:E;
      cbn [negb rbind Py.setitem Py.getitem].
    + rewrite E. cbn [rbind].
      destruct v as [| | | | | |F]; cbn [Py.setitem rbind]; try discriminate.
      intros [= <-]. eauto.
    + rewrite lookup_set_eq. cbn [rbind Py.setitem]. rewrite set_set.
      intros [= <-]. exists d, []. auto.
Qed.

Lemma link_present_ok files d :
  manifest_shape (JObj d) = true ->
  exists d', link_build_info files (JObj d) = Ok (JObj d').
Proof.
  intros Hs. unfold link_build_info.
  destruct (existsb (String.eqb "buildInfo.json") files); [|eauto].
  cbn [Py.contains rbind]. unfold mem. cbn [manifest_shape] in Hs.
  destruct (lookup "files" d) as [v|] eqn:E;
    cbn [negb rbind Py.setitem Py.getitem].
  - rewrite E. destruct v; try discriminate. cbn [rbind Py.setitem]. eauto.
  - rewrite lookup_set_eq. cbn [rbind Py.setitem]. eauto.
Qed.

(** A manifest that has the entry already is left as it is. *)
Lemma link_fixed files d F :
  lookup "files" d = Some (JObj F) ->
  lookup "buildInfo" F = Some (JStr "buildInfo.json") ->
  link_build_info files (JObj d) = Ok (JObj d).
Proof.
  intros Hd HF. unfold link_build_info.
  destruct (existsb (String.eqb "buildInfo.json") files); [|reflexivity].
  cbn [Py.contains rbind]. unfold mem. rewrite Hd.
  cbn [negb rbind Py.getitem]. rewrite Hd. cbn [rbind Py.setitem].
  now rewrite (set_same _ _ _ HF), (set_same _ _ _ Hd).
Qed.


Lemma version_entries_not_key files k :
  k <> "versionInfo" -> ~ In k (keys (version_entries files)).
Proof.
  intros Hk Hin. unfold keys in Hin.
  apply in_map_iff in Hin as (kv & Hkv & Hin).
  apply version_entries_keys in Hin. congruence.
Qed.

(** *** The loop body on the listing *)

Section Visit.

Variable slot : string -> list string -> nat.

Lemma visit_unfold root dirs files fs :
  visit slot root dirs files fs
  = let fs1 := seeded slot "meta.json" META_TEMPLATE fs in
    match lookup "meta.json" fs1 with
    | Some (Json doc) =>
        match update_manifest root dirs files doc with
        | Ok d => (write_entry slot "meta.json" (Json d) fs1, Ok tt)
        | Err e => (fs1, Err e)
        end
    | Some (Raw _) => (fs1, Err JSONDecodeError)
    | None => (fs1, Err FileNotFoundError)
    end.
Proof.
  unfold visit, bind, _load_json_file, lift, _save_json_file, seeded.
  rewrite PathFacts.basename_join_meta. cbv zeta.
  destruct (lookup "meta.json" _) as [[doc|raw]|]; reflexivity.
Qed.

Lemma seeded_present name template fs c :
  lookup name fs = Some c -> seeded slot name template fs = fs.
Proof. intros H. unfold seeded, mem. now rewrite H. Qed.

Lemma seeded_absent name template fs :
  lookup name fs = None ->
  seeded slot name template fs = add_entry slot name (Json template) fs.
Proof. intros H. unfold seeded, mem. now rewrite H. Qed.


End Visit.

End WalkFacts.

Module VersionClaims.

Import PyDict DictFacts EntryFacts CanonFacts Fs MetaJsonHandler Aux WalkFacts.




End VersionClaims.

(** ** Walking the tree *)

Module TreeFacts.

Import PyDict DictFacts EntryFacts Fs Aux.

(** Induction on a tree with the hypothesis for every sub-directory. *)
Lemma tree_ind_nested (P : tree -> Prop) :
  (forall files dirs, Forall (fun d => P (snd d)) dirs -> P (Node files dirs)) ->
  forall t, P t.
Proof.
  intros H. fix IH 1. intros [files dirs]. apply H.
  induction dirs as [|[d sub] ds IHds]; constructor.
  - exact (IH sub).
  - exact IHds.
Qed.

Lemma os_walk_node body top files dirs :
  os_walk body top (Node files dirs)
  = match body top (map fst dirs) (map fst files) files with
    | (files', Err e) => (Node files' dirs, Err e)
    | (files', Ok _) =>
        let (dirs', r) :=
          walk_dirs (fun d sub => os_walk body (PyPath.join top d) sub) dirs in
        (Node files' dirs', r)
    end.
Proof. reflexivity. Qed.

Lemma walk_dirs_cons walk d sub ds :
  walk_dirs walk ((d, sub) :: ds)
  = match walk d sub with
    | (sub', Err e) => ((d, sub') :: ds, Err e)
    | (sub', Ok _) =>
        let (ds', r) := walk_dirs walk ds in ((d, sub') :: ds', r)
    end.
Proof. reflexivity. Qed.

(** After the descent a sub-directory is as it was or as its walk left it. *)
Lemma walk_dirs_lookup walk ds d sub :
  lookup d ds = Some sub ->
  lookup d (fst (walk_dirs walk ds)) = Some sub \/
  lookup d (fst (walk_dirs walk ds)) = Some (fst (walk d sub)).
Proof.
  induction ds as [|[d' sub'] ds IH]; [discriminate|].
  rewrite walk_dirs_cons. cbn [lookup].
  destruct (String.eqb_spec d' d) as [->|Hne].
  - intros [= ->]. right.
    destruct (walk d sub) as [sub1 [u|e]]; [destruct (walk_dirs walk ds)|];
      cbn [fst lookup]; now rewrite String.eqb_refl.
  - intros H. specialize (IH H).
    destruct (walk d' sub') as [sub1 [u|e]].
    + destruct (walk_dirs walk ds) as [ds' r]. cbn [fst lookup] in *.
      destruct (String.eqb_spec d' d); [contradiction | exact IH].
    + cbn [fst lookup]. destruct (String.eqb_spec d' d); [contradiction|].
      now left.
Qed.

Lemma lookup_listed {V : Type} k (l : list (string * V)) c :
  lookup k l = Some c -> existsb (String.eqb k) (map fst l) = true.
Proof.
  intros H. apply existsb_exists. exists k. split; [|apply String.eqb_refl].
  apply (proj1 (mem_In k l)). unfold mem. now rewrite H.
Qed.


End TreeFacts.

(** ** The full rebuild, [create_meta_json] *)

Module RebuildClaims.

Import PyDict DictFacts Fs LocalScript Aux TreeShape.

Lemma hex_version_info_skip file rest :
  PyStr.endswith ".hex" file = false ->
  hex_version_info (file :: rest) = hex_version_info rest.
Proof.
  intros E. unfold hex_version_info, first_hex. cbn [find]. now rewrite E.
Qed.

Lemma hex_version_info_here file rest :
  PyStr.endswith ".hex" file = true ->
  hex_version_info (file :: rest) =
  match Version.search file with
  | Some m => Version.version_info m
  | None => JObj []
  end.
Proof.
  intros E. unfold hex_version_info, first_hex. cbn [find]. now rewrite E.
Qed.

(** The version loop on the fresh document. *)
Lemma scan_hex_fresh (a b c d : json) files :
  scan_hex files
    (JObj [ ("self", a); ("selfDirName", b); ("metaTargets", c);
            ("files", d); ("versionInfo", JObj []) ])
  = Ok (JObj [ ("self", a); ("selfDirName", b); ("metaTargets", c);
               ("files", d); ("versionInfo", hex_version_info files) ]).
Proof.
  induction files as [|file rest IH]; [reflexivity|].
  cbn [scan_hex]. destruct (PyStr.endswith ".hex" file) eqn:E.
  - rewrite (hex_version_info_here file rest E).
    now destruct (Version.search file).
  - now rewrite (hex_version_info_skip file rest E).
Qed.

(** The loop over the directories appends one target per directory. *)
Lemma append_targets dirs d l :
  lookup "metaTargets" d = Some (JArr l) ->
  rfold append_target dirs (JObj d)
  = Ok (JObj (set "metaTargets"
                (JArr (l ++ map (fun x =>
                         JObj [ ("targetName", JStr x);
                                ("metaInformationFile", JStr (x ++ "/meta.json")) ])
                       dirs)) d)).
Proof.
  revert d l. induction dirs as [|x dirs IH]; intros d l H.
  - simpl. rewrite app_nil_r. now rewrite (set_same _ _ _ H).
  - cbn [rfold]. unfold append_target at 1. cbn [Py.getitem rbind].
    rewrite H. cbn [Py.setitem rbind].
    rewrite (IH _ (l ++ [JObj [ ("targetName", JStr x);
                               ("metaInformationFile", JStr (x ++ "/meta.json")) ]])).
    + rewrite set_set. cbn [map]. now rewrite <- app_assoc.
    + apply lookup_set_eq.
Qed.

(** The loop over the files assigns every name other than [meta.json]. *)
Lemma record_files files d fd :
  lookup "files" d = Some (JObj fd) ->
  rfold record_file files (JObj d)
  = Ok (JObj (set "files"
                (JObj (assign
                         (map (fun f => (f, JStr f))
                              (filter (fun f => negb (String.eqb f "meta.json"))
                                      files)) fd)) d)).
Proof.
  revert d fd. induction files as [|f files IH]; intros d fd H.
  - simpl. now rewrite (set_same _ _ _ H).
  - cbn [rfold filter]. unfold record_file at 1. unfold META_FILE_NAME.
    destruct (String.eqb f "meta.json"); cbn [negb rbind].
    + now apply IH.
    + cbn [Py.getitem]. rewrite H. cbn [rbind Py.setitem].
      rewrite (IH _ (set f (JStr f) fd)) by apply lookup_set_eq.
      now rewrite set_set.
Qed.

Lemma build_meta_rebuilt root dirs files :
  build_meta root dirs files = Ok (rebuilt_meta root dirs files).
Proof.
  unfold build_meta. rewrite scan_hex_fresh. cbn [rbind].
  rewrite (append_targets dirs _ []) by reflexivity. cbn [rbind].
  rewrite (record_files files _ []) by reflexivity.
  reflexivity.
Qed.

Section RebuildWalk.

Variable slot : string -> list string -> nat.

Lemma rebuild_dir_unfold root dirs files fs :
  existsb (String.eqb "meta.json") dirs = false ->
  rebuild_dir slot root dirs files fs
  = (write_entry slot "meta.json" (Json (rebuilt_meta root dirs files)) fs,
     Ok tt).
Proof.
  intros H. unfold rebuild_dir, bind, lift. rewrite build_meta_rebuilt.
  unfold META_FILE_NAME. rewrite H. now rewrite PathFacts.basename_join_meta.
Qed.

Lemma rebuild_dir_blocked root dirs files fs :
  existsb (String.eqb "meta.json") dirs = true ->
  rebuild_dir slot root dirs files fs = (fs, Err IsADirectoryError).
Proof.
  intros H. unfold rebuild_dir, bind, lift. rewrite build_meta_rebuilt.
  unfold META_FILE_NAME. now rewrite H.
Qed.

Lemma no_manifest_dir_node files dirs :
  no_manifest_dir (Node files dirs)
  = negb (existsb (String.eqb "meta.json") (map fst dirs))
    && subdirs_all no_manifest_dir dirs.
Proof. reflexivity. Qed.

Lemma subdirs_all_cons ok d sub ds :
  subdirs_all ok ((d, sub) :: ds) = ok sub && subdirs_all ok ds.
Proof. reflexivity. Qed.

(** A descent whose walks all return normally reaches every sub-directory. *)
Lemma walk_dirs_all walk ds :
  Forall (fun d => snd (walk (fst d) (snd d)) = Ok tt) ds ->
  snd (walk_dirs walk ds) = Ok tt /\
  forall d sub, lookup d ds = Some sub ->
                lookup d (fst (walk_dirs walk ds)) = Some (fst (walk d sub)).
Proof.
  induction 1 as [|[d0 sub0] ds Hok _ [IHr IHl]].
  - split; [reflexivity | discriminate].
  - rewrite TreeFacts.walk_dirs_cons. cbn [fst snd] in Hok.
    destruct (walk d0 sub0) as [sub1 [[]|e]] eqn:Ew; [|discriminate].
    destruct (walk_dirs walk ds) as [ds' r]. cbn [fst snd] in *.
    split; [exact IHr|]. intros d sub. cbn [lookup].
    destruct (String.eqb_spec d0 d) as [->|Hne].
    + intros [= <-]. now rewrite Ew.
    + apply IHl.
Qed.

Lemma walk_dirs_clear walk ds :
  Forall (answers walk) ds ->
  subdirs_all no_manifest_dir ds = true ->
  Forall (fun d => snd (walk (fst d) (snd d)) = Ok tt) ds.
Proof.
  induction 1 as [|[d sub] ds [Hok _] _ IH]; [constructor|].
  rewrite subdirs_all_cons. intros H. apply andb_prop in H as [H1 H2].
  constructor; [now apply Hok | now apply IH].
Qed.

Lemma walk_dirs_blocked walk ds :
  Forall (answers walk) ds ->
  subdirs_all no_manifest_dir ds = false ->
  snd (walk_dirs walk ds) = Err IsADirectoryError.
Proof.
  induction 1 as [|[d sub] ds [Hok Hbad] _ IH]; [discriminate|].
  rewrite subdirs_all_cons, TreeFacts.walk_dirs_cons. cbn [fst snd] in *.
  destruct (no_manifest_dir sub).
  - cbn [andb]. intros H. specialize (Hok eq_refl).
    destruct (walk d sub) as [sub1 [[]|e]]; [|discriminate].
    specialize (IH H). now destruct (walk_dirs walk ds).
  - intros _. specialize (Hbad eq_refl).
    destruct (walk d sub) as [sub1 [u|e]]; [discriminate|].
    cbn [snd] in *. exact Hbad.
Qed.

Lemma create_meta_json_walk t :
  forall root,
    (no_manifest_dir t = true ->
     snd (create_meta_json slot root t) = Ok tt /\
     forall p sub,
       subtree p t = Some sub ->
       manifest_at p (fst (create_meta_json slot root t))
       = Some (Json (rebuilt_meta (walked_path root p)
                       (map fst (dirs_of sub)) (map fst (files_of sub))))) /\
    (no_manifest_dir t = false ->
     snd (create_meta_json slot root t) = Err IsADirectoryError).
Proof.
  unfold create_meta_json.
  induction t as [files dirs IH] using TreeFacts.tree_ind_nested.
  intros root. rewrite TreeFacts.os_walk_node, no_manifest_dir_node.
  assert (Hans : Forall (answers (fun d sub =>
                           os_walk (rebuild_dir slot) (PyPath.join root d) sub))
                   dirs).
  { apply Forall_forall. intros [d sub] Hin. rewrite Forall_forall in IH.
    destruct (IH (d, sub) Hin (PyPath.join root d)) as [H1 H2].
    split; cbn [fst snd]; intros H; [now apply H1 | now apply H2]. }
  destruct (existsb (String.eqb "meta.json") (map fst dirs)) eqn:Eb;
    cbn [negb andb].
  - split; [discriminate|]. intros _.
    now rewrite (rebuild_dir_blocked _ _ _ _ Eb).
  - rewrite (rebuild_dir_unfold _ _ _ _ Eb). split.
    + intros Hall.
      destruct (walk_dirs_all _ dirs (walk_dirs_clear _ dirs Hans Hall))
        as [Hr Hl].
      destruct (walk_dirs _ dirs) as [dirs' r]. cbn [fst snd] in *.
      split; [exact Hr|]. intros [|d p] sub.
      * intros [= <-]. unfold manifest_at. cbn [subtree files_of dirs_of].
        apply EntryFacts.lookup_write_eq.
      * unfold manifest_at. cbn [subtree dirs_of].
        destruct (lookup d dirs) as [sub0|] eqn:Ed; [|discriminate].
        intros Hsub. rewrite (Hl d sub0 Ed).
        assert (Hsub0 : no_manifest_dir sub0 = true).
        { apply lookup_In in Ed. clear - Ed Hall.
          induction dirs as [|[d' s'] ds IHds]; [contradiction|].
          rewrite subdirs_all_cons in Hall. apply andb_prop in Hall as [H1 H2].
          destruct Ed as [[= _ ->]|Ed]; [exact H1 | now apply IHds]. }
        apply lookup_In in Ed. rewrite Forall_forall in IH.
        exact (proj2 (proj1 (IH (d, sub0) Ed (PyPath.join root d)) Hsub0)
                 p sub Hsub).
    + intros Hall.
      pose proof (walk_dirs_blocked _ dirs Hans Hall) as Hb.
      now destruct (walk_dirs _ dirs).
Qed.

End RebuildWalk.

(** C7, as the code has it. On a tree none of whose directories has a
    sub-directory named [meta.json], [create_meta_json] returns normally,
    and at every directory of the tree it writes a manifest that depends on
    the path of the directory, its sub-directory names and its file names
    only, never on a manifest already there: [selfDirName] is the base name,
    [metaTargets] has one entry per sub-directory, [files] maps every file
    name other than [meta.json] to itself, and [versionInfo] comes from the
    first file whose name ends in [.hex], that file alone being looked at:
    the files before it that are no [.hex] files are passed over, and the
    scan stops at it whether or not its name matches the version pattern.
    On every other tree the call raises [IsADirectoryError], at the first
    directory that has a sub-directory named [meta.json]. *)
Theorem create_meta_json_rebuilds_from_listing :
  forall slot,
    (forall root dirs files fs,
       existsb (String.eqb "meta.json") dirs = false ->
       rebuild_dir slot root dirs files fs
       = (write_entry slot "meta.json" (Json (rebuilt_meta root dirs files)) fs,
          Ok tt))
    /\
    (forall root t,
       no_manifest_dir t = true ->
       snd (create_meta_json slot root t) = Ok tt /\
       forall p sub,
         subtree p t = Some sub ->
         manifest_at p (fst (create_meta_json slot root t))
         = Some (Json (rebuilt_meta (walked_path root p)
                         (map fst (dirs_of sub)) (map fst (files_of sub)))))
    /\
    (forall root t,
       no_manifest_dir t = false ->
       snd (create_meta_json slot root t) = Err IsADirectoryError).
Proof.
  intros slot. split; [|split].
  - apply rebuild_dir_unfold.
  - intros root t. apply create_meta_json_walk.
  - intros root t. apply create_meta_json_walk.
Qed.

Lemma create_meta_json_rebuilds_from_listing_witness :
  manifest_at ["sub"]
    (fst (create_meta_json Sample.slot_last "rel" Worked.named_tree))
  = Some (Json (rebuilt_meta (walked_path "rel" ["sub"]) [] ["meta.json"])).
Proof.
  apply (proj2 (proj1 (proj2 (create_meta_json_rebuilds_from_listing
                                Sample.slot_last))
                  "rel" Worked.named_tree eq_refl)
           ["sub"] (Node Worked.named_listing [])).
  reflexivity.
Defined.

(** C7 as stated fails: with a text file listed before a versioned [.hex]
    file, the version is taken from the [.hex] file, although the first file
    of the listing is no [.hex] file. *)
Lemma create_meta_json_reads_past_first_file :
  rbind (build_meta "rel" [] ["readme.txt"; "fw-1.2.3.4.hex"])
        (fun doc => Py.getitem doc "versionInfo")
  = Ok (Version.version_info (Version.mkGroups "1" "2" "3" "4")) /\
  Version.version_info (Version.mkGroups "1" "2" "3" "4")
  <> first_file_version_info ["readme.txt"; "fw-1.2.3.4.hex"].
Proof.
  split.
  - vm_compute. reflexivity.
  - vm_compute. discriminate.
Qed.

End RebuildClaims.

Module SelfDirNameClaims.

Import PyDict DictFacts EntryFacts CanonFacts Fs MetaJsonHandler Aux.
Import WalkFacts TreeFacts.

Section Preserved.

Variable slot : string -> list string -> nat.
Variable parse_timestamp : string -> option datetime.
Variable isoformat_local : datetime -> string.
Variable json_loads : string -> option json.





Lemma lookup_not_listed {V : Type} k (l : list (string * V)) :
  lookup k l = None -> existsb (String.eqb k) (map fst l) = false.
Proof.
  induction l as [|[k' v] l IH]; [reflexivity|]. cbn [lookup map fst existsb].
  destruct (String.eqb_spec k' k) as [->|Hne]; [intros [=]|].
  destruct (String.eqb_spec k k'); [congruence | exact IH].
Qed.




Lemma generate_keeps_manifest env root fs :
  lookup "meta.json"
    (fst (generate_build_info_file slot parse_timestamp isoformat_local
            json_loads env (PyPath.join root "buildInfo.json") fs))
  = lookup "meta.json" fs.
Proof.
  rewrite BuildInfoClaims.generate_unfold. cbv zeta.
  rewrite PathFacts.basename_join_build_info.
  assert (Hs : lookup "meta.json"
                 (seeded slot "buildInfo.json" BUILD_INFO_TEMPLATE fs)
               = lookup "meta.json" fs).
  { unfold seeded. destruct (mem "buildInfo.json" fs); cbn [negb];
      [reflexivity | now apply lookup_add_neq]. }
  destruct (lookup "buildInfo.json" _) as [[doc|raw]|]; cbn [fst];
    try exact Hs.
  destruct (fill_build_info _ _ _ env doc); cbn [fst]; [|exact Hs].
  now rewrite lookup_write_neq.
Qed.


End Preserved.



End SelfDirNameClaims.

(** ** Running the full walk twice *)

Module IdempotenceClaims.

Import PyDict DictFacts EntryFacts CanonFacts Fs MetaJsonHandler Aux.
Import WalkFacts TreeFacts BuildInfoFacts.

Section Twice.

Variable slot : string -> list string -> nat.
Variable parse_timestamp : string -> option datetime.
Variable isoformat_local : datetime -> string.
Variable json_loads : string -> option json.

(** Filling a document that was filled from the same environment changes
    nothing. *)
Lemma fill_twice env doc b : fill_build_info parse_timestamp isoformat_local json_loads env doc = Ok b -> fill_build_info parse_timestamp isoformat_local json_loads env b = Ok b.
Proof.
  intros H. destruct (fill_needs_object _ _ _ _ _ _ H) as [d0 ->].
  rewrite fill_normal_form in H.
  destruct (parse_timestamp (environ_get env "BUILD_TIMESTAMP" "")) as [ts|] eqn:Ep;
    [|discriminate].
  cbv zeta in H.
  set (d1 := assign (scalar_fields isoformat_local env ts) d0) in *.
  destruct (lookup "versionControlSystem" d1) as [[| | | | | |vd]|];
    try discriminate.
  destruct (repositories_from json_loads env []) as [repos|] eqn:Er;
    [|discriminate].
  cbn [rbind] in H. injection H as <-.
  rewrite fill_normal_form, Ep. cbv zeta.
  rewrite assign_same.
  - rewrite lookup_set_eq, Er. cbn [rbind]. now rewrite !set_set.
  - intros k v Hin.
    rewrite lookup_set_neq
      by (intros E; symmetry in E; revert E;
          now apply (scalar_keys_not_vcs isoformat_local env ts k v)).
    apply lookup_assign_in; [apply scalar_keys_distinct | exact Hin].
Qed.

Lemma generate_post env root fs fs' :
  generate_build_info_file slot parse_timestamp isoformat_local
    json_loads env (PyPath.join root "buildInfo.json") fs = (fs', Ok tt) ->
  exists b, lookup "buildInfo.json" fs' = Some (Json b) /\ fill_build_info parse_timestamp isoformat_local json_loads env b = Ok b.
Proof.
  rewrite BuildInfoClaims.generate_unfold. cbv zeta.
  rewrite PathFacts.basename_join_build_info.
  destruct (lookup "buildInfo.json" _) as [[doc|raw]|]; try discriminate.
  destruct (fill_build_info parse_timestamp isoformat_local json_loads env doc) as [b|e] eqn:E; [|discriminate].
  intros [= <-]. exists b. split; [apply lookup_write_eq|].
  now apply (fill_twice env doc).
Qed.

Lemma generate_fixed env root fs b :
  lookup "buildInfo.json" fs = Some (Json b) ->
  fill_build_info parse_timestamp isoformat_local json_loads env b = Ok b ->
  generate_build_info_file slot parse_timestamp isoformat_local
    json_loads env (PyPath.join root "buildInfo.json") fs = (fs, Ok tt).
Proof.
  intros Hfs Hb. rewrite BuildInfoClaims.generate_unfold. cbv zeta.
  rewrite PathFacts.basename_join_build_info.
  rewrite (seeded_present slot _ _ _ _ Hfs), Hfs, Hb.
  now rewrite (write_same slot _ _ _ Hfs).
Qed.

(** The loop body of the walk touches [meta.json] only. *)
Lemma visit_other root dirs files fs k :
  k <> "meta.json" ->
  lookup k (fst (visit slot root dirs files fs)) = lookup k fs.
Proof.
  intros Hk. rewrite visit_unfold. cbv zeta.
  assert (Hs : lookup k (seeded slot "meta.json" META_TEMPLATE fs) = lookup k fs).
  { unfold seeded. destruct (mem "meta.json" fs); cbn [negb];
      [reflexivity | apply lookup_add_neq; congruence]. }
  destruct (lookup "meta.json" _) as [[doc|raw]|]; cbn [fst]; try exact Hs.
  destruct (update_manifest root dirs files doc); cbn [fst]; [|exact Hs].
  rewrite lookup_write_neq by congruence. exact Hs.
Qed.

(** The names listed after the body has run: the names listed before, with
    [meta.json] put in somewhere if it was not among them. *)
Lemma names_after_visit fs c :
  let fs1 := write_entry slot "meta.json" c
               (seeded slot "meta.json" META_TEMPLATE fs) in
  map fst fs1 = map fst fs \/
  exists n, map fst fs1
            = firstn n (map fst fs) ++ "meta.json" :: skipn n (map fst fs).
Proof.
  cbv zeta. destruct (lookup "meta.json" fs) as [c0|] eqn:E.
  - rewrite (seeded_present slot _ _ _ _ E). unfold write_entry, mem.
    rewrite E. left. apply names_replace.
  - rewrite (seeded_absent slot _ _ _ E). unfold write_entry, mem.
    rewrite (lookup_add_new slot _ _ _ E).
    right. eexists. rewrite names_replace. unfold add_entry.
    apply names_insert_at.
Qed.

Lemma existsb_put_in k name n (l : list string) :
  k <> name ->
  existsb (String.eqb k) (firstn n l ++ name :: skipn n l)
  = existsb (String.eqb k) l.
Proof.
  intros Hk. rewrite existsb_app. cbn [existsb].
  destruct (String.eqb_spec k name); [contradiction|]. cbn [orb].
  now rewrite <- existsb_app, firstn_skipn.
Qed.

Lemma version_entries_put_in_meta n (l : list string) :
  version_entries (firstn n l ++ "meta.json" :: skipn n l) = version_entries l.
Proof.
  change ("meta.json" :: skipn n l) with (["meta.json"] ++ skipn n l).
  rewrite !version_entries_app.
  change (version_entries ["meta.json"]) with (@nil (string * json)).
  cbn [app]. now rewrite <- version_entries_app, firstn_skipn.
Qed.

(** The manifest the body has produced is a fixed point of the body. *)
Lemma update_manifest_twice root dirs dirs' files files' doc doc' :
  update_manifest root dirs files doc = Ok doc' ->
  existsb (String.eqb "meta.json") files' = true ->
  existsb (String.eqb "buildInfo.json") files'
    = existsb (String.eqb "buildInfo.json") files ->
  version_entries files' = version_entries files ->
  update_manifest root dirs' files' doc' = Ok doc'.
Proof.
  unfold update_manifest. intros H Hmeta Hbi Hver.
  destruct (init_manifest root dirs files doc) as [m0|] eqn:E0;
    [|discriminate].
  cbn [rbind] in H.
  destruct (link_build_info files m0) as [m1|] eqn:E1; [|discriminate].
  cbn [rbind] in H.
  rewrite (init_listed root dirs' files' doc' Hmeta). cbn [rbind].
  assert (Hlink : link_build_info files' doc' = Ok doc').
  { destruct (existsb (String.eqb "buildInfo.json") files) eqn:Eb.
    - destruct (link_present_inv _ _ _ Eb E1) as (d & F & -> & ->).
      rewrite scan_object in H. injection H as <-.
      apply link_fixed
        with (F := set "buildInfo" (JStr "buildInfo.json") F).
      + rewrite lookup_assign_other; [apply lookup_set_eq|].
        intros Hin. unfold keys in Hin.
        apply in_map_iff in Hin as (kv & Hk & Hkv).
        apply version_entries_keys in Hkv. congruence.
      + apply lookup_set_eq.
    - apply link_absent. congruence. }
  rewrite Hlink. cbn [rbind].
  now apply (scan_twice files files' m1 doc').
Qed.

(** The body leaves alone a directory that holds a manifest the body has
    produced for a listing with the same versioned names and the same answer
    on [buildInfo.json]. *)
Lemma visit_stable root dirs dirs' files doc doc' fs' :
  update_manifest root dirs files doc = Ok doc' ->
  lookup "meta.json" fs' = Some (Json doc') ->
  existsb (String.eqb "buildInfo.json") (map fst fs')
    = existsb (String.eqb "buildInfo.json") files ->
  version_entries (map fst fs') = version_entries files ->
  visit slot root dirs' (map fst fs') fs' = (fs', Ok tt).
Proof.
  intros Hu Hfs Hbi Hver. rewrite visit_unfold. cbv zeta.
  rewrite (seeded_present slot _ _ _ _ Hfs), Hfs.
  rewrite (update_manifest_twice root dirs dirs' files _ doc doc' Hu
             (lookup_listed _ _ _ Hfs) Hbi Hver).
  now rewrite (write_same slot _ _ _ Hfs).
Qed.

(** What a normal return of the body says about the listing it leaves. *)
Lemma visit_post root dirs fs fs1 :
  visit slot root dirs (map fst fs) fs = (fs1, Ok tt) ->
  exists doc doc',
    update_manifest root dirs (map fst fs) doc = Ok doc' /\
    lookup "meta.json" fs1 = Some (Json doc') /\
    existsb (String.eqb "buildInfo.json") (map fst fs1)
      = existsb (String.eqb "buildInfo.json") (map fst fs) /\
    version_entries (map fst fs1) = version_entries (map fst fs).
Proof.
  rewrite visit_unfold. cbv zeta.
  destruct (lookup "meta.json" (seeded slot "meta.json" META_TEMPLATE fs))
    as [[doc|raw]|] eqn:El; try discriminate.
  destruct (update_manifest root dirs (map fst fs) doc) as [doc'|] eqn:Eu;
    [|discriminate].
  intros [= <-]. exists doc, doc'. split; [exact Eu|].
  split; [apply lookup_write_eq|].
  destruct (names_after_visit fs (Json doc')) as [->|[n ->]].
  - split; reflexivity.
  - split; [now apply existsb_put_in | apply version_entries_put_in_meta].
Qed.

Lemma visit_twice root dirs dirs' fs fs1 :
  visit slot root dirs (map fst fs) fs = (fs1, Ok tt) ->
  visit slot root dirs' (map fst fs1) fs1 = (fs1, Ok tt).
Proof.
  intros H.
  destruct (visit_post root dirs fs fs1 H) as (doc & doc' & Hu & Hl & Hb & Hv).
  exact (visit_stable root dirs dirs' (map fst fs) doc doc' fs1 Hu Hl Hb Hv).
Qed.

(** Generating the build information again keeps the names listed. *)
Lemma generate_names env root fs c :
  lookup "buildInfo.json" fs = Some c ->
  map fst (fst (generate_build_info_file slot parse_timestamp isoformat_local
                  json_loads env (PyPath.join root "buildInfo.json") fs))
  = map fst fs.
Proof.
  intros Hfs. rewrite BuildInfoClaims.generate_unfold. cbv zeta.
  rewrite PathFacts.basename_join_build_info.
  rewrite (seeded_present slot _ _ _ _ Hfs), Hfs.
  destruct c as [doc|raw]; [|reflexivity].
  destruct (fill_build_info _ _ _ env doc); [|reflexivity].
  cbn [fst]. unfold write_entry, mem. rewrite Hfs. apply names_replace.
Qed.

Lemma walk_dirs_twice walk ds :
  Forall (fun d => forall sub',
            walk (fst d) (snd d) = (sub', Ok tt) ->
            walk (fst d) sub' = (sub', Ok tt)) ds ->
  forall ds', walk_dirs walk ds = (ds', Ok tt) ->
              walk_dirs walk ds' = (ds', Ok tt).
Proof.
  induction 1 as [|[d sub] ds Hd _ IH]; intros ds'.
  - cbn. now intros [= <-].
  - rewrite walk_dirs_cons. cbn [fst snd] in Hd.
    destruct (walk d sub) as [sub1 [[]|e]] eqn:Ew; [|discriminate].
    destruct (walk_dirs walk ds) as [ds1 r] eqn:Eds.
    intros [= <- ->]. rewrite walk_dirs_cons, (Hd sub1 eq_refl).
    now rewrite (IH ds1 eq_refl).
Qed.

Lemma os_walk_twice t :
  forall top t1,
    os_walk (visit slot) top t = (t1, Ok tt) ->
    os_walk (visit slot) top t1 = (t1, Ok tt).
Proof.
  induction t as [files dirs IH] using tree_ind_nested.
  intros top t1. rewrite os_walk_node.
  destruct (visit slot top (map fst dirs) (map fst files) files)
    as [files' [[]|e]] eqn:Ev; [|discriminate].
  destruct (walk_dirs _ dirs) as [dirs' r] eqn:Ew.
  intros [= <- ->]. rewrite os_walk_node.
  rewrite (visit_twice top (map fst dirs) (map fst dirs') files files' Ev).
  rewrite (walk_dirs_twice _ dirs) with (ds' := dirs'); [reflexivity | | exact Ew].
  apply Forall_forall. intros [d sub] Hin sub'. cbn [fst snd].
  rewrite Forall_forall in IH. exact (IH (d, sub) Hin (PyPath.join top d) sub').
Qed.

Lemma descent_twice top dirs dirs1 :
  walk_dirs (fun d sub => os_walk (visit slot) (PyPath.join top d) sub) dirs
    = (dirs1, Ok tt) ->
  walk_dirs (fun d sub => os_walk (visit slot) (PyPath.join top d) sub) dirs1
    = (dirs1, Ok tt).
Proof.
  apply walk_dirs_twice. apply Forall_forall. intros [d sub] _ sub'.
  cbn [fst snd]. apply os_walk_twice.
Qed.

End Twice.

(** C5. If the full walk returns normally on a tree, then run again on the
    tree it has left, with the same environment, it returns normally and
    leaves every file of the tree as the first run wrote it; and with any
    environment, if it returns normally, the manifest of every directory is
    the manifest the first run wrote. The listing order is the one the file
    system gives; where it lists the manifests created by the first run does
    not matter. *)
Theorem full_walk_twice :
  forall slot parse_timestamp isoformat_local json_loads env root t t1,
    create_meta_files_all slot parse_timestamp isoformat_local json_loads
      env root t = (t1, Ok tt) ->
    create_meta_files_all slot parse_timestamp isoformat_local json_loads
      env root t1 = (t1, Ok tt)
    /\
    (forall env2 t2,
       create_meta_files_all slot parse_timestamp isoformat_local json_loads
         env2 root t1 = (t2, Ok tt) ->
       forall p, manifest_at p t2 = manifest_at p t1).
Proof.
  intros slot parse iso loads env root [files dirs] t1.
  unfold create_meta_files_all, bind, at_top.
  destruct (generate_build_info_file slot parse iso loads env _ files)
    as [filesg [[]|e]] eqn:Eg; [|discriminate].
  intros Hw.
  destruct (generate_post slot parse iso loads env root files filesg Eg)
    as (b & Hb & Hfill).
  pose proof (os_walk_twice slot _ root t1 Hw) as Hw2.
  rewrite os_walk_node in Hw.
  pose proof (visit_other slot root (map fst dirs) (map fst filesg) filesg
                "buildInfo.json" ltac:(discriminate)) as Hk.
  destruct (visit slot root (map fst dirs) (map fst filesg) filesg)
    as [files1 [[]|e]] eqn:Ev; [|discriminate].
  cbn [fst] in Hk. rewrite Hb in Hk.
  destruct (walk_dirs _ dirs) as [dirs1 r] eqn:Ew. injection Hw as <- ->.
  split.
  - now rewrite (generate_fixed slot parse iso loads env root files1 b Hk Hfill).
  - intros env2 t2.
    pose proof (SelfDirNameClaims.generate_keeps_manifest slot parse iso loads
                  env2 root files1) as Hm.
    pose proof (generate_names slot parse iso loads env2 root files1 _ Hk) as Hn.
    destruct (generate_build_info_file slot parse iso loads env2 _ files1)
      as [files2 [[]|e]]; [|discriminate].
    cbn [fst] in Hm, Hn.
    destruct (visit_post slot root (map fst dirs) filesg files1 Ev)
      as (doc & doc' & Hu & Hl & Hbi & Hver).
    rewrite os_walk_node.
    rewrite (visit_stable slot root (map fst dirs) (map fst dirs1)
               (map fst filesg) doc doc' files2 Hu);
      [| now rewrite Hm | now rewrite Hn | now rewrite Hn].
    rewrite (descent_twice slot root dirs dirs1 Ew).
    intros [= <-] p. destruct p as [|d p]; [|reflexivity].
    unfold manifest_at. cbn [subtree files_of]. exact Hm.
Qed.

Lemma full_walk_twice_witness :
  Worked.run_mode_b (fst (Worked.run_mode_b Worked.two_versions))
  = (fst (Worked.run_mode_b Worked.two_versions), Ok tt).
Proof.
  apply (proj1 (full_walk_twice Sample.slot_last Sample.parse_timestamp
                  Sample.isoformat_local Sample.json_loads Sample.env "rel"
                  Worked.two_versions
                  (fst (Worked.run_mode_b Worked.two_versions))
                  ltac:(vm_compute; reflexivity))).
Defined.

End IdempotenceClaims.

(** * Further properties of the code *)

(** ** The manifest store, [_load_json_file] and [_save_json_file] *)

Module StoreExtras.

Import PyDict DictFacts EntryFacts Fs MetaJsonHandler Aux Cover.



End StoreExtras.

(** ** [update_meta_json] *)

Module UpdateExtras.

Import PyDict DictFacts EntryFacts Fs MetaJsonHandler Aux Cover WalkFacts.

Section Unfold.

Variable slot : string -> list string -> nat.

Lemma update_meta_json_unfold file_path key value json_path fs :
  update_meta_json slot file_path key value json_path fs
  = let name := PyPath.basename file_path in
    let fs1 := seeded slot name META_TEMPLATE fs in
    match lookup name fs1 with
    | Some (Json doc) =>
        match updated_manifest file_path key value json_path doc with
        | Ok d => (write_entry slot name (Json d) fs1, Ok tt)
        | Err e => (fs1, Err e)
        end
    | Some (Raw _) => (fs1, Err JSONDecodeError)
    | None => (fs1, Err FileNotFoundError)
    end.
Proof.
  unfold update_meta_json, bind, _load_json_file, lift, ret, _save_json_file,
    seeded, updated_manifest.
  cbv zeta.
  destruct (lookup (PyPath.basename file_path) _) as [[doc|raw]|];
    try reflexivity.
  destruct (Py.getitem doc "selfDirName") as [sdn|]; cbn [rbind];
    [|reflexivity].
  destruct (negb (Py.truthy sdn)).
  - destruct (Py.setitem doc "selfDirName" _) as [m|]; cbn [rbind];
      [|reflexivity].
    destruct (Py.getitem m json_path) as [t|]; cbn [rbind]; [|reflexivity].
    destruct (Py.setitem t key (JStr value)) as [t'|]; cbn [rbind];
      [|reflexivity].
    now destruct (Py.setitem m json_path t').
  - cbn [rbind].
    destruct (Py.getitem doc json_path) as [t|]; cbn [rbind]; [|reflexivity].
    destruct (Py.setitem t key (JStr value)) as [t'|]; cbn [rbind];
      [|reflexivity].
    now destruct (Py.setitem doc json_path t').
Qed.

(** The assignments on a manifest with a [selfDirName] and an object as
    [files]. *)
Lemma updated_manifest_files file_path key value d sdn F :
  lookup "selfDirName" d = Some sdn ->
  lookup "files" d = Some (JObj F) ->
  exists d',
    updated_manifest file_path key value "files" (JObj d) = Ok (JObj d') /\
    lookup "files" d' = Some (JObj (set key (JStr value) F)) /\
    forall k, k <> "files" -> k <> "selfDirName" -> lookup k d' = lookup k d.
Proof.
  intros Hs HF. unfold updated_manifest. cbn [Py.getitem]. rewrite Hs.
  cbn [rbind]. destruct (negb (Py.truthy sdn)); cbn [Py.setitem rbind Py.getitem].
  - rewrite lookup_set_neq by discriminate. rewrite HF. cbn [rbind Py.setitem].
    eexists. split; [reflexivity|]. split; [apply lookup_set_eq|].
    intros k Hk1 Hk2. rewrite !lookup_set_neq by congruence. reflexivity.
  - rewrite HF. cbn [rbind Py.setitem].
    eexists. split; [reflexivity|]. split; [apply lookup_set_eq|].
    intros k Hk1 Hk2. rewrite !lookup_set_neq by congruence. reflexivity.
Qed.

End Unfold.



(** X3. When [update_meta_json] raises, nothing has been saved: the
    directory is as [_load_json_file] left it, so a manifest that was there
    is unchanged (one that was absent has been created from the template).
    It raises [KeyError] on a manifest object that has a [selfDirName] but no
    member [json_path], and [TypeError] when the member [json_path] is no
    object. *)
Theorem update_meta_json_raises_before_saving :
  forall slot file_path key value json_path fs,
    (forall e,
       snd (update_meta_json slot file_path key value json_path fs) = Err e ->
       fst (update_meta_json slot file_path key value json_path fs)
       = seeded slot (PyPath.basename file_path) META_TEMPLATE fs)
    /\
    (forall d sdn,
       lookup (PyPath.basename file_path) fs = Some (Json (JObj d)) ->
       lookup "selfDirName" d = Some sdn ->
       (lookup json_path d = None ->
        update_meta_json slot file_path key value json_path fs
        = (fs, Err (KeyError json_path))) /\
       (forall t, lookup json_path d = Some t ->
                  (forall F, t <> JObj F) ->
                  update_meta_json slot file_path key value json_path fs
                  = (fs, Err TypeError))).
Proof.
  intros slot file_path key value json_path fs.
  rewrite update_meta_json_unfold. cbv zeta.
  set (name := PyPath.basename file_path).
  split.
  - intros e.
    destruct (lookup name (seeded slot name META_TEMPLATE fs)) as [[doc|raw]|];
      cbn [fst snd]; try reflexivity.
    destruct (updated_manifest file_path key value json_path doc);
      cbn [fst snd]; [discriminate | reflexivity].
  - intros d sdn Hfs Hs. rewrite (seeded_present slot _ _ _ _ Hfs), Hfs.
    unfold updated_manifest. cbn [Py.getitem]. rewrite Hs. cbn [rbind].
    split.
    + intros Hnone.
      assert (Hjp : json_path <> "selfDirName") by congruence.
      destruct (negb (Py.truthy sdn)); cbn [Py.setitem rbind Py.getitem].
      * rewrite lookup_set_neq by congruence. now rewrite Hnone.
      * now rewrite Hnone.
    + intros t Ht Hno.
      destruct (negb (Py.truthy sdn)); cbn [Py.setitem rbind Py.getitem].
      * destruct (String.eqb_spec json_path "selfDirName") as [->|Hjp].
        -- now rewrite lookup_set_eq.
        -- rewrite lookup_set_neq by congruence. rewrite Ht. cbn [rbind].
           destruct t; try reflexivity. now contradiction (Hno members).
      * rewrite Ht. cbn [rbind].
        destruct t; try reflexivity. now contradiction (Hno members).
Qed.

Lemma update_meta_json_raises_before_saving_witness :
  update_meta_json Sample.slot_last "rel/sub/meta.json" "firmware"
    "fw-1.2.3.4.hex" "artifacts" Worked.named_listing
  = (Worked.named_listing, Err (KeyError "artifacts")).
Proof.
  apply (proj1 (proj2 (update_meta_json_raises_before_saving
                         Sample.slot_last "rel/sub/meta.json" "firmware"
                         "fw-1.2.3.4.hex" "artifacts" Worked.named_listing)
                  _ (JStr "old") eq_refl eq_refl)).
  reflexivity.
Defined.

End UpdateExtras.

(** ** More on build information *)

Module BuildInfoExtras.

Import PyDict DictFacts EntryFacts Fs MetaJsonHandler Aux Cover.
Import RepoNameFacts BuildInfoFacts.

Lemma length_split sep n s :
  List.length (PyStr.split sep n s) = S (Nat.min n (count_char sep s)).
Proof.
  revert n. induction s as [|c s IH]; intros n.
  - cbn. now rewrite Nat.min_0_r.
  - destruct n as [|n]; [reflexivity|]. cbn [PyStr.split count_char].
    destruct (Ascii.eqb c sep).
    + cbn [List.length]. rewrite IH. cbn [Nat.add]. now rewrite <- Nat.succ_min_distr.
    + pose proof (IH (S n)) as Hl. cbn [Nat.add].
      destruct (PyStr.split sep (S n) s); [discriminate | exact Hl].
Qed.

(** X4. [_get_repo_name] raises [IndexError] exactly on the names with fewer
    than two underscores; on every other name it returns a non-empty
    string. *)
Theorem get_repo_name_needs_two_underscores :
  forall env_var_name,
    ((count_char PyStr.underscore env_var_name < 2)%nat ->
     _get_repo_name env_var_name = Err IndexError)
    /\
    ((2 <= count_char PyStr.underscore env_var_name)%nat ->
     exists c tail, _get_repo_name env_var_name = Ok (String c tail)).
Proof.
  intros name. unfold _get_repo_name.
  pose proof (length_split PyStr.underscore 2 name) as Hlen.
  split; intros Hc.
  - destruct (nth_error (PyStr.split PyStr.underscore 2 name) 2) eqn:E;
      [|reflexivity].
    assert (2 < List.length (PyStr.split PyStr.underscore 2 name))%nat
      by (apply nth_error_Some; congruence).
    lia.
  - destruct (nth_error (PyStr.split PyStr.underscore 2 name) 2) as [third|] eqn:E.
    + destruct (camel_not_empty (PyStr.split_all PyStr.underscore third))
        as (c & t & ->); [apply split_not_nil|]. eauto.
    + apply nth_error_None in E. lia.
Qed.

Lemma get_repo_name_needs_two_underscores_witness :
  _get_repo_name "GITINFO_repo" = Err IndexError /\
  exists c tail, _get_repo_name "GIT_INFO_repo" = Ok (String c tail).
Proof.
  split.
  - apply (proj1 (get_repo_name_needs_two_underscores "GITINFO_repo")).
    cbn. lia.
  - apply (proj2 (get_repo_name_needs_two_underscores "GIT_INFO_repo")).
    cbn. lia.
Defined.

Section Generate.

Variable slot : string -> list string -> nat.
Variable parse_timestamp : string -> option datetime.
Variable isoformat_local : datetime -> string.
Variable json_loads : string -> option json.

Lemma repositories_none env repos :
  (forall kv, In kv env -> PyStr.startswith "GIT_INFO_" (fst kv) = false) ->
  repositories_from json_loads env repos = Ok repos.
Proof.
  unfold repositories_from. revert repos.
  induction env as [|kv env IH]; intros repos H; [reflexivity|].
  cbn [rfold]. rewrite (H kv (or_introl eq_refl)). cbn [rbind].
  apply IH. intros kv' Hin. apply H. now right.
Qed.

Lemma repositories_bad env repos :
  (exists kv, In kv env /\ bad_repository json_loads kv) ->
  exists e, repositories_from json_loads env repos = Err e.
Proof.
  unfold repositories_from, bad_repository. revert repos.
  induction env as [|kv env IH]; intros repos (bad & Hin & Hp & Hl).
  - destruct Hin.
  - cbn [rfold]. destruct Hin as [->|Hin].
    + rewrite Hp, Hl. destruct (_get_repo_name (fst bad)); cbn [rbind]; eauto.
    + assert (Hex : exists kv0, In kv0 env /\
                      PyStr.startswith "GIT_INFO_" (fst kv0) = true /\
                      json_loads (snd kv0) = None) by eauto.
      destruct (PyStr.startswith "GIT_INFO_" (fst kv)); cbn [rbind];
        [|now apply IH].
      destruct (_get_repo_name (fst kv)); cbn [rbind]; [|eauto].
      destruct (json_loads (snd kv)); cbn [rbind]; [now apply IH | eauto].
Qed.

Lemma fill_bad env doc :
  (exists kv, In kv env /\ bad_repository json_loads kv) ->
  exists e,
    fill_build_info parse_timestamp isoformat_local json_loads env doc = Err e.
Proof.
  intros Hbad. destruct doc; try (eexists; reflexivity).
  rewrite fill_normal_form.
  destruct (parse_timestamp _); [|eauto]. cbv zeta.
  destruct (lookup "versionControlSystem" _) as [[]|]; eauto.
  destruct (repositories_bad env [] Hbad) as [e ->]. cbn [rbind]. eauto.
Qed.

End Generate.

(** X5. When [generate_build_info_file] returns normally, the repositories
    mapping of the document it has saved is the one built from the
    [GIT_INFO_] variables of the environment starting from an empty mapping,
    whatever repositories the file held before; with no such variable it is
    empty. *)
Theorem build_info_repositories_rebuilt :
  forall slot parse_timestamp isoformat_local json_loads env file_path fs,
    snd (generate_build_info_file slot parse_timestamp isoformat_local
           json_loads env file_path fs) = Ok tt ->
    exists doc vcs repos,
      lookup (PyPath.basename file_path)
        (fst (generate_build_info_file slot parse_timestamp isoformat_local
                json_loads env file_path fs)) = Some (Json doc) /\
      Py.getitem doc "versionControlSystem" = Ok vcs /\
      Py.getitem vcs "repositories" = Ok (JObj repos) /\
      repositories_from json_loads env [] = Ok repos /\
      ((forall kv, In kv env -> PyStr.startswith "GIT_INFO_" (fst kv) = false) ->
       repos = []).
Proof.
  intros slot parse iso loads env file_path fs.
  rewrite BuildInfoClaims.generate_unfold. cbv zeta.
  destruct (lookup _ (seeded slot _ BUILD_INFO_TEMPLATE fs)) as [[doc|raw]|];
    cbn [snd]; try discriminate.
  destruct (fill_build_info parse iso loads env doc) as [b|e] eqn:E;
    cbn [snd fst]; [|discriminate].
  intros _. destruct (fill_needs_object _ _ _ _ _ _ E) as [d0 ->].
  rewrite fill_normal_form in E.
  destruct (parse (environ_get env "BUILD_TIMESTAMP" "")) as [ts|];
    [|discriminate].
  cbv zeta in E.
  destruct (lookup "versionControlSystem" _) as [[| | | | | |vd]|];
    try discriminate.
  destruct (repositories_from loads env []) as [repos|] eqn:Er; [|discriminate].
  cbn [rbind] in E. injection E as <-.
  eexists. eexists. exists repos.
  split; [apply lookup_write_eq|].
  split; [cbn [Py.getitem]; now rewrite lookup_set_eq|].
  split; [cbn [Py.getitem]; now rewrite lookup_set_eq|].
  split; [reflexivity|].
  intros Hnone. rewrite (repositories_none loads env [] Hnone) in Er.
  congruence.
Qed.

Lemma build_info_repositories_rebuilt_witness :
  exists doc vcs repos,
    lookup (PyPath.basename "rel/buildInfo.json")
      (fst (generate_build_info_file Sample.slot_last Sample.parse_timestamp
              Sample.isoformat_local Sample.json_loads Sample.env
              "rel/buildInfo.json" [])) = Some (Json doc) /\
    Py.getitem doc "versionControlSystem" = Ok vcs /\
    Py.getitem vcs "repositories" = Ok (JObj repos) /\
    repositories_from Sample.json_loads Sample.env [] = Ok repos /\
    ((forall kv, In kv Sample.env ->
        PyStr.startswith "GIT_INFO_" (fst kv) = false) -> repos = []).
Proof.
  apply (build_info_repositories_rebuilt Sample.slot_last
           Sample.parse_timestamp Sample.isoformat_local Sample.json_loads
           Sample.env "rel/buildInfo.json" []).
  vm_compute. reflexivity.
Defined.

(** X6. When [generate_build_info_file] raises, nothing has been saved: the
    directory is as [_load_json_file] left it, so a [buildInfo.json] that was
    there is unchanged. It does raise when the value of some [GIT_INFO_]
    variable is no JSON. *)
Theorem build_info_raises_before_saving :
  forall slot parse_timestamp isoformat_local json_loads env file_path fs,
    (forall e,
       snd (generate_build_info_file slot parse_timestamp isoformat_local
              json_loads env file_path fs) = Err e ->
       fst (generate_build_info_file slot parse_timestamp isoformat_local
              json_loads env file_path fs)
       = seeded slot (PyPath.basename file_path) BUILD_INFO_TEMPLATE fs)
    /\
    ((exists kv, In kv env /\ bad_repository json_loads kv) ->
     exists e,
       snd (generate_build_info_file slot parse_timestamp isoformat_local
              json_loads env file_path fs) = Err e).
Proof.
  intros slot parse iso loads env file_path fs.
  rewrite BuildInfoClaims.generate_unfold. cbv zeta.
  destruct (lookup _ (seeded slot _ BUILD_INFO_TEMPLATE fs)) as [[doc|raw]|];
    cbn [fst snd].
  - split.
    + intros e. destruct (fill_build_info parse iso loads env doc);
        cbn [fst snd]; [discriminate | reflexivity].
    + intros Hbad. destruct (fill_bad parse iso loads env doc Hbad) as [e ->].
      cbn [snd]. eauto.
  - split; [reflexivity | eauto].
  - split; [reflexivity | eauto].
Qed.

Lemma build_info_raises_before_saving_witness :
  exists e,
    snd (generate_build_info_file Sample.slot_last Sample.parse_timestamp
           Sample.isoformat_local Sample.json_loads
           [("BUILD_TIMESTAMP", "2024-05-06 07:08:09");
            ("GIT_INFO_a_b", "not json")]
           "rel/buildInfo.json" []) = Err e.
Proof.
  apply (proj2 (build_info_raises_before_saving Sample.slot_last
                  Sample.parse_timestamp Sample.isoformat_local
                  Sample.json_loads
                  [("BUILD_TIMESTAMP", "2024-05-06 07:08:09");
                   ("GIT_INFO_a_b", "not json")]
                  "rel/buildInfo.json" [])).
  exists ("GIT_INFO_a_b", "not json"). split.
  - right. now left.
  - split; reflexivity.
Defined.

End BuildInfoExtras.

(** ** Walks whose body writes the manifest only *)

Module WalkGeneric.

Import PyDict DictFacts EntryFacts Fs Aux TreeFacts.

Lemma walk_dirs_names walk ds :
  map fst (fst (walk_dirs walk ds)) = map fst ds.
Proof.
  induction ds as [|[d sub] ds IH]; [reflexivity|].
  rewrite walk_dirs_cons.
  destruct (walk d sub) as [sub' [u|e]]; [|reflexivity].
  destruct (walk_dirs walk ds) as [ds' r]. cbn [fst map] in *. now rewrite IH.
Qed.

(** A descent that returns normally has walked every sub-directory, and
    each of these walks has returned normally. *)
Lemma walk_dirs_ok walk ds ds' :
  walk_dirs walk ds = (ds', Ok tt) ->
  forall d sub, lookup d ds = Some sub ->
    exists sub', walk d sub = (sub', Ok tt) /\ lookup d ds' = Some sub'.
Proof.
  revert ds'. induction ds as [|[d0 sub0] ds IH]; intros ds'.
  - intros _ d sub. discriminate.
  - rewrite walk_dirs_cons.
    destruct (walk d0 sub0) as [sub1 [[]|e]] eqn:Ew; [|discriminate].
    destruct (walk_dirs walk ds) as [ds1 r] eqn:Eds.
    intros [= <- ->] d sub. cbn [lookup].
    destruct (String.eqb_spec d0 d) as [->|Hne].
    + intros [= <-]. eauto.
    + intros H. exact (IH ds1 eq_refl d sub H).
Qed.

Section OnlyManifest.

Variable body : string -> list string -> list string -> M listing unit.

Hypothesis body_other :
  forall root dirs files fs name,
    name <> "meta.json" -> lookup name (fst (body root dirs files fs)) = lookup name fs.

(** Such a walk keeps the shape of the tree and every file that is no
    manifest, whether it returns normally or raises. *)
Lemma os_walk_only_manifests t :
  forall top p sub,
    subtree p t = Some sub ->
    exists sub',
      subtree p (fst (os_walk body top t)) = Some sub' /\
      map fst (dirs_of sub') = map fst (dirs_of sub) /\
      forall name, name <> "meta.json" ->
        lookup name (files_of sub') = lookup name (files_of sub).
Proof.
  induction t as [files dirs IH] using tree_ind_nested.
  intros top p sub Hsub. rewrite os_walk_node.
  pose proof (body_other top (map fst dirs) (map fst files) files) as Hb.
  destruct (body top (map fst dirs) (map fst files) files) as [files' [u|e]];
    cbn [fst] in Hb.
  - pose proof (walk_dirs_names
                  (fun d sub => os_walk body (PyPath.join top d) sub) dirs) as Hn.
    pose proof (walk_dirs_lookup
                  (fun d sub => os_walk body (PyPath.join top d) sub) dirs) as Hl.
    destruct (walk_dirs _ dirs) as [dirs' r]. cbn [fst] in *.
    destruct p as [|d p].
    + injection Hsub as <-. eexists. split; [reflexivity|].
      cbn [dirs_of files_of]. split; [exact Hn | exact Hb].
    + cbn [subtree dirs_of] in *.
      destruct (lookup d dirs) as [sub0|] eqn:Ed; [|discriminate].
      destruct (Hl d sub0 Ed) as [-> | ->].
      * exists sub. repeat split; auto.
      * apply lookup_In in Ed. rewrite Forall_forall in IH.
        exact (IH (d, sub0) Ed (PyPath.join top d) p sub Hsub).
  - cbn [fst]. destruct p as [|d p].
    + injection Hsub as <-. eexists. split; [reflexivity|].
      cbn [dirs_of files_of]. split; [reflexivity | exact Hb].
    + exists sub. repeat split; auto.
Qed.

End OnlyManifest.

Section Related.

Variable body : string -> list string -> list string -> M listing unit.
Variable R : listing -> listing -> Prop.

Hypothesis R_refl : forall fs, R fs fs.

Hypothesis body_R :
  forall root dirs files fs, R fs (fst (body root dirs files fs)).

(** What the body does to the files of one directory, the walk does to the
    files of every directory, whether it returns normally or raises. *)
Lemma os_walk_related t :
  forall top p sub,
    subtree p t = Some sub ->
    exists sub',
      subtree p (fst (os_walk body top t)) = Some sub' /\
      map fst (dirs_of sub') = map fst (dirs_of sub) /\
      R (files_of sub) (files_of sub').
Proof.
  induction t as [files dirs IH] using tree_ind_nested.
  intros top p sub Hsub. rewrite os_walk_node.
  pose proof (body_R top (map fst dirs) (map fst files) files) as Hb.
  destruct (body top (map fst dirs) (map fst files) files) as [files' [u|e]];
    cbn [fst] in Hb.
  - pose proof (walk_dirs_names
                  (fun d sub => os_walk body (PyPath.join top d) sub) dirs) as Hn.
    pose proof (walk_dirs_lookup
                  (fun d sub => os_walk body (PyPath.join top d) sub) dirs) as Hl.
    destruct (walk_dirs _ dirs) as [dirs' r]. cbn [fst] in *.
    destruct p as [|d p].
    + injection Hsub as <-. eexists. split; [reflexivity|].
      cbn [dirs_of files_of]. split; [exact Hn | exact Hb].
    + cbn [subtree dirs_of] in *.
      destruct (lookup d dirs) as [sub0|] eqn:Ed; [|discriminate].
      destruct (Hl d sub0 Ed) as [-> | ->].
      * exists sub. repeat split; auto.
      * apply lookup_In in Ed. rewrite Forall_forall in IH.
        exact (IH (d, sub0) Ed (PyPath.join top d) p sub Hsub).
  - cbn [fst]. destruct p as [|d p].
    + injection Hsub as <-. eexists. split; [reflexivity|].
      cbn [dirs_of files_of]. split; [reflexivity | exact Hb].
    + exists sub. repeat split; auto.
Qed.

End Related.

Section Fixed.

Variable body : string -> list string -> list string -> M listing unit.

Hypothesis body_twice :
  forall root dirs fs fs1,
    body root dirs (map fst fs) fs = (fs1, Ok tt) ->
    body root dirs (map fst fs1) fs1 = (fs1, Ok tt).

Lemma walk_dirs_fixed walk ds :
  Forall (fun d => forall sub',
            walk (fst d) (snd d) = (sub', Ok tt) ->
            walk (fst d) sub' = (sub', Ok tt)) ds ->
  forall ds', walk_dirs walk ds = (ds', Ok tt) ->
              walk_dirs walk ds' = (ds', Ok tt).
Proof.
  induction 1 as [|[d sub] ds Hd _ IH]; intros ds'.
  - cbn. now intros [= <-].
  - rewrite walk_dirs_cons. cbn [fst snd] in Hd.
    destruct (walk d sub) as [sub1 [[]|e]] eqn:Ew; [|discriminate].
    destruct (walk_dirs walk ds) as [ds1 r] eqn:Eds.
    intros [= <- ->]. rewrite walk_dirs_cons, (Hd sub1 eq_refl).
    now rewrite (IH ds1 eq_refl).
Qed.

(** The tree a walk leaves on a normal return is left as it is by the same
    walk, when that holds of the body in each directory. *)
Lemma os_walk_fixed t :
  forall top t1,
    os_walk body top t = (t1, Ok tt) ->
    os_walk body top t1 = (t1, Ok tt).
Proof.
  induction t as [files dirs IH] using tree_ind_nested.
  intros top t1. rewrite os_walk_node.
  destruct (body top (map fst dirs) (map fst files) files)
    as [files' [[]|e]] eqn:Ev; [|discriminate].
  pose proof (walk_dirs_names
                (fun d sub => os_walk body (PyPath.join top d) sub) dirs) as Hn.
  destruct (walk_dirs _ dirs) as [dirs' r] eqn:Ew. cbn [fst] in Hn.
  intros [= <- ->]. rewrite os_walk_node, Hn.
  rewrite (body_twice top (map fst dirs) files files' Ev).
  rewrite (walk_dirs_fixed _ dirs) with (ds' := dirs'); [reflexivity | | exact Ew].
  apply Forall_forall. intros [d sub] Hin sub'. cbn [fst snd].
  rewrite Forall_forall in IH. exact (IH (d, sub) Hin (PyPath.join top d) sub').
Qed.

End Fixed.

(** A walk that returns normally has run the body once in every directory
    of the tree, on the files it found there and with the path joined from
    the names on the way down. *)
Lemma os_walk_visits body t :
  forall top t1,
    os_walk body top t = (t1, Ok tt) ->
    forall p sub,
      subtree p t = Some sub ->
      exists sub1,
        subtree p t1 = Some sub1 /\
        body (walked_path top p) (map fst (dirs_of sub))
          (map fst (files_of sub)) (files_of sub)
        = (files_of sub1, Ok tt).
Proof.
  induction t as [files dirs IH] using tree_ind_nested.
  intros top t1. rewrite os_walk_node.
  destruct (body top (map fst dirs) (map fst files) files)
    as [files' [[]|e]] eqn:Eb; [|discriminate].
  destruct (walk_dirs _ dirs) as [dirs' r] eqn:Ew.
  intros [= <- ->] p sub Hsub. destruct p as [|d p].
  - injection Hsub as <-. eexists. split; [reflexivity|]. exact Eb.
  - cbn [subtree dirs_of] in *.
    destruct (lookup d dirs) as [sub0|] eqn:Ed; [|discriminate].
    destruct (walk_dirs_ok _ _ _ Ew d sub0 Ed) as (sub0' & Hw & ->).
    apply lookup_In in Ed. rewrite Forall_forall in IH.
    exact (IH (d, sub0) Ed (PyPath.join top d) sub0' Hw p sub Hsub).
Qed.

End WalkGeneric.

(** ** More on the full walk *)

Module WalkExtras.

Import PyDict DictFacts EntryFacts CanonFacts Fs MetaJsonHandler Aux Cover.
Import WalkFacts TreeFacts WalkGeneric.

Lemma last_map_pairs {A B : Type} (k : string) (f : A -> B) (l : list A) d :
  snd (last (map (fun g => (k, f g)) l) (k, d)) = last (map f l) d.
Proof.
  induction l as [|a l IH]; [reflexivity|].
  destruct l as [|b l]; [reflexivity|]. exact IH.
Qed.

(** The step for a listed [buildInfo.json], with the old members of [files]
    spelled out. *)
Lemma link_present_files files d m :
  existsb (String.eqb "buildInfo.json") files = true ->
  link_build_info files (JObj d) = Ok m ->
  m = JObj (set "files"
              (JObj (set "buildInfo" (JStr "buildInfo.json") (files_member d))) d).
Proof.
  intros H. unfold link_build_info, files_member. rewrite H.
  cbn [Py.contains rbind]. unfold mem.
  destruct (lookup "files" d) as [v|] eqn:E;
    cbn [negb rbind Py.setitem Py.getitem].
  - rewrite E. cbn [rbind].
    destruct v as [| | | | | |F]; cbn [Py.setitem rbind]; try discriminate.
    now intros [= <-].
  - rewrite lookup_set_eq. cbn [rbind Py.setitem]. rewrite set_set.
    now intros [= <-].
Qed.

Section Body.

Variable slot : string -> list string -> nat.

Lemma update_manifest_fresh root dirs files :
  existsb (String.eqb "meta.json") files = false ->
  update_manifest root dirs files META_TEMPLATE
  = Ok (fresh_manifest root dirs files).
Proof.
  intros Hm. unfold update_manifest, init_manifest, link_build_info.
  rewrite Hm. cbn [negb META_TEMPLATE Py.setitem rbind].
  unfold fresh_manifest.
  destruct (existsb (String.eqb "buildInfo.json") files);
    cbn [rbind Py.contains Py.getitem Py.setitem mem lookup set String.eqb
         Ascii.eqb Bool.eqb negb];
    rewrite scan_object; do 2 f_equal;
    match goal with
    | |- assign _ ?d = _ =>
        change d with (set "versionInfo" (JObj []) d)
    end;
    rewrite (assign_same_key "versionInfo" _ _ _ (version_entries_keys files));
    unfold version_entries; rewrite last_map_pairs; reflexivity.
Qed.

(** What the body does to an object manifest that is there already. *)
Lemma update_manifest_existing root dirs files d m :
  existsb (String.eqb "meta.json") files = true ->
  update_manifest root dirs files (JObj d) = Ok m ->
  exists d',
    m = JObj d' /\
    (forall k, k <> "files" -> k <> "versionInfo" -> lookup k d' = lookup k d) /\
    (forall k, k <> "buildInfo" ->
               lookup k (files_member d') = lookup k (files_member d)) /\
    (existsb (String.eqb "buildInfo.json") files = true ->
     lookup "buildInfo" (files_member d') = Some (JStr "buildInfo.json")) /\
    (version_matches files = [] ->
     lookup "versionInfo" d' = lookup "versionInfo" d).
Proof.
  intros Hm. unfold update_manifest. rewrite (init_listed _ _ _ _ Hm).
  cbn [rbind].
  destruct (link_build_info files (JObj d)) as [m1|] eqn:El; [|discriminate].
  cbn [rbind].
  assert (H1 : exists d1,
             m1 = JObj d1 /\
             (forall k, k <> "files" -> lookup k d1 = lookup k d) /\
             (forall k, k <> "buildInfo" ->
                        lookup k (files_member d1) = lookup k (files_member d)) /\
             (existsb (String.eqb "buildInfo.json") files = true ->
              lookup "buildInfo" (files_member d1)
              = Some (JStr "buildInfo.json"))).
  { destruct (existsb (String.eqb "buildInfo.json") files) eqn:Eb.
    - rewrite (link_present_files files d m1 Eb El). eexists.
      split; [reflexivity|]. split; [|split].
      + intros k Hk. apply lookup_set_neq. congruence.
      + intros k Hk. unfold files_member at 1. rewrite lookup_set_eq.
        apply lookup_set_neq. congruence.
      + intros _. unfold files_member at 1. rewrite lookup_set_eq.
        apply lookup_set_eq.
    - rewrite (link_absent _ _ Eb) in El. injection El as <-.
      exists d. repeat split; auto. discriminate. }
  destruct H1 as (d1 & -> & Hk1 & Hf1 & Hb1).
  rewrite scan_object. intros [= <-]. eexists. split; [reflexivity|].
  assert (Hfm : files_member (assign (version_entries files) d1)
                = files_member d1).
  { unfold files_member. rewrite lookup_assign_other; [reflexivity|].
    apply version_entries_not_key. discriminate. }
  split; [|split; [|split]].
  - intros k Hk Hv. rewrite lookup_assign_other
      by (apply version_entries_not_key; congruence). now apply Hk1.
  - intros k Hk. rewrite Hfm. now apply Hf1.
  - intros Hb. rewrite Hfm. now apply Hb1.
  - intros Hnone. unfold version_entries. rewrite Hnone. cbn [map].
    rewrite assign_nil. apply Hk1. discriminate.
Qed.

End Body.



(** X8. In a directory whose manifest is an object, the loop body of the
    full walk, when it returns normally, saves an object that agrees with
    the old one on every member other than [files] and [versionInfo]
    (so [metaTargets] is not brought up to date with the sub-directories);
    its [files] mapping keeps every entry other than [buildInfo], and
    [versionInfo] is kept when no listed name matches the version pattern.
    When the body raises, the directory is left as it was. *)
Theorem visit_existing_manifest :
  forall slot root dirs fs d,
    lookup "meta.json" fs = Some (Json (JObj d)) ->
    (snd (visit slot root dirs (map fst fs) fs) = Ok tt ->
     exists d',
       lookup "meta.json" (fst (visit slot root dirs (map fst fs) fs))
       = Some (Json (JObj d')) /\
       (forall k, k <> "files" -> k <> "versionInfo" ->
                  lookup k d' = lookup k d) /\
       (forall k, k <> "buildInfo" ->
                  lookup k (files_member d') = lookup k (files_member d)) /\
       (version_matches (map fst fs) = [] ->
        lookup "versionInfo" d' = lookup "versionInfo" d))
    /\
    (forall e, snd (visit slot root dirs (map fst fs) fs) = Err e ->
               fst (visit slot root dirs (map fst fs) fs) = fs).
Proof.
  intros slot root dirs fs d H. rewrite visit_unfold. cbv zeta.
  rewrite (seeded_present slot _ _ _ _ H), H.
  destruct (update_manifest root dirs (map fst fs) (JObj d)) as [m|e0] eqn:Eu;
    cbn [fst snd].
  - split; [|discriminate]. intros _.
    destruct (update_manifest_existing root dirs (map fst fs) d m
                (lookup_listed _ _ _ H) Eu) as (d' & -> & Hk & Hf & _ & Hv).
    exists d'. split; [apply lookup_write_eq|]. auto.
  - split; [discriminate|]. reflexivity.
Qed.

Lemma visit_existing_manifest_witness :
  exists d',
    lookup "meta.json"
      (fst (visit Sample.slot_last "rel/sub" ["new"]
              (map fst Worked.named_listing) Worked.named_listing))
    = Some (Json (JObj d')) /\
    lookup "metaTargets" d' = Some (JArr []).
Proof.
  destruct (proj1 (visit_existing_manifest Sample.slot_last "rel/sub" ["new"]
                     Worked.named_listing _ eq_refl) eq_refl)
    as (d' & Hl & Hk & _).
  exists d'. split; [exact Hl|].
  rewrite Hk by discriminate. reflexivity.
Defined.

End WalkExtras.

(** ** The full walk over a whole tree *)

Module FullWalkExtras.

Import PyDict DictFacts EntryFacts CanonFacts Fs MetaJsonHandler Aux Cover.
Import WalkFacts TreeFacts WalkGeneric.

Section Whole.

Variable slot : string -> list string -> nat.
Variable parse_timestamp : string -> option datetime.
Variable isoformat_local : datetime -> string.
Variable json_loads : string -> option json.

(** Generating the build information touches [buildInfo.json] only. *)
Lemma generate_other env root fs k :
  k <> "buildInfo.json" ->
  lookup k
    (fst (generate_build_info_file slot parse_timestamp isoformat_local
            json_loads env (PyPath.join root "buildInfo.json") fs))
  = lookup k fs.
Proof.
  intros Hk. rewrite BuildInfoClaims.generate_unfold. cbv zeta.
  rewrite PathFacts.basename_join_build_info.
  assert (Hs : lookup k (seeded slot "buildInfo.json" BUILD_INFO_TEMPLATE fs)
               = lookup k fs).
  { unfold seeded. destruct (mem "buildInfo.json" fs); cbn [negb];
      [reflexivity | apply lookup_add_neq; congruence]. }
  destruct (lookup "buildInfo.json" _) as [[doc|raw]|]; cbn [fst];
    try exact Hs.
  destruct (fill_build_info _ _ _ env doc); cbn [fst]; [|exact Hs].
  rewrite lookup_write_neq by congruence. exact Hs.
Qed.

(** A normal return of the body leaves a manifest that is JSON. *)
Lemma visit_leaves_json root dirs files fs fs1 :
  visit slot root dirs files fs = (fs1, Ok tt) ->
  exists doc, lookup "meta.json" fs1 = Some (Json doc).
Proof.
  rewrite visit_unfold. cbv zeta.
  destruct (lookup "meta.json" _) as [[doc|raw]|]; try discriminate.
  destruct (update_manifest root dirs files doc) as [doc'|]; [|discriminate].
  intros [= <-]. exists doc'. apply lookup_write_eq.
Qed.

End Whole.

(** X9. When the full walk returns normally, every directory of the tree
    holds a manifest that is JSON, and a directory below the top that had no
    manifest holds the manifest of a fresh directory: named after the last
    component of its path, with one target per sub-directory, with the entry
    [buildInfo] under [files] exactly when it lists [buildInfo.json], and
    with the version of the last of its file names that matches the version
    pattern. *)
Theorem full_walk_covers_tree :
  forall slot parse_timestamp isoformat_local json_loads env root t t1,
    create_meta_files_all slot parse_timestamp isoformat_local json_loads
      env root t = (t1, Ok tt) ->
    forall p sub,
      subtree p t = Some sub ->
      (exists doc, manifest_at p t1 = Some (Json doc)) /\
      (p <> [] ->
       lookup "meta.json" (files_of sub) = None ->
       manifest_at p t1
       = Some (Json (fresh_manifest (walked_path root p)
                       (map fst (dirs_of sub)) (map fst (files_of sub))))).
Proof.
  intros slot parse iso loads env root [files dirs] t1.
  unfold create_meta_files_all, bind, at_top.
  destruct (generate_build_info_file slot parse iso loads env _ files)
    as [filesg [[]|e]] eqn:Eg; [|discriminate].
  intros Hw p sub Hsub.
  assert (Hsubg : exists subg,
             subtree p (Node filesg dirs) = Some subg /\
             (p <> [] -> subg = sub)).
  { destruct p as [|d p].
    - eexists. split; [reflexivity|]. congruence.
    - exists sub. split; [exact Hsub | reflexivity]. }
  destruct Hsubg as (subg & Hsubg & Heq).
  destruct (os_walk_visits _ _ _ _ Hw p subg Hsubg) as (sub1 & Hs1 & Hv).
  unfold manifest_at. rewrite Hs1. split.
  - exact (visit_leaves_json slot _ _ _ _ _ Hv).
  - intros Hp Hnone. rewrite (Heq Hp) in Hv.
    pose proof (WalkExtras.update_manifest_fresh (walked_path root p)
                  (map fst (dirs_of sub)) (map fst (files_of sub))
                  (SelfDirNameClaims.lookup_not_listed _ _ Hnone)) as Hu.
    rewrite visit_unfold in Hv. cbv zeta in Hv.
    rewrite (seeded_absent slot _ _ _ Hnone),
      (lookup_add_new slot _ _ _ Hnone), Hu in Hv.
    injection Hv as <-. apply lookup_write_eq.
Qed.

Lemma full_walk_covers_tree_witness :
  manifest_at ["sub"] (fst (Worked.run_mode_b Worked.two_versions))
  = Some (Json (fresh_manifest "rel/sub" [] [])).
Proof.
  apply (proj2 (full_walk_covers_tree Sample.slot_last Sample.parse_timestamp
                  Sample.isoformat_local Sample.json_loads Sample.env "rel"
                  Worked.two_versions
                  (fst (Worked.run_mode_b Worked.two_versions))
                  ltac:(vm_compute; reflexivity) ["sub"] empty_dir eq_refl)).
  - discriminate.
  - reflexivity.
Defined.

(** X10. When the full walk returns normally, the top directory holds a
    [buildInfo.json] that is JSON, and its manifest is an object whose
    [files] mapping has the entry [buildInfo] with the value
    [buildInfo.json]. *)
Theorem full_walk_links_build_info :
  forall slot parse_timestamp isoformat_local json_loads env root t t1,
    create_meta_files_all slot parse_timestamp isoformat_local json_loads
      env root t = (t1, Ok tt) ->
    (exists b, lookup "buildInfo.json" (files_of t1) = Some (Json b)) /\
    lookup "buildInfo" (manifest_files "meta.json" (files_of t1))
    = Some (JStr "buildInfo.json").
Proof.
  intros slot parse iso loads env root [files dirs] t1.
  unfold create_meta_files_all, bind, at_top.
  destruct (generate_build_info_file slot parse iso loads env _ files)
    as [filesg [[]|e]] eqn:Eg; [|discriminate].
  destruct (IdempotenceClaims.generate_post slot parse iso loads env root
              files filesg Eg) as (b & Hb & _).
  rewrite os_walk_node.
  pose proof (IdempotenceClaims.visit_other slot root (map fst dirs)
                (map fst filesg) filesg "buildInfo.json" ltac:(discriminate))
    as Hk.
  destruct (visit slot root (map fst dirs) (map fst filesg) filesg)
    as [files1 [[]|e]] eqn:Ev; [|discriminate].
  cbn [fst] in Hk.
  destruct (walk_dirs _ dirs) as [dirs1 r]. intros [= <- ->].
  cbn [files_of]. split; [exists b; now rewrite Hk|].
  pose proof (lookup_listed _ _ _ Hb) as Hlisted.
  rewrite visit_unfold in Ev. cbv zeta in Ev.
  destruct (lookup "meta.json" (seeded slot "meta.json" META_TEMPLATE filesg))
    as [[doc|raw]|] eqn:El; try discriminate.
  destruct (update_manifest root (map fst dirs) (map fst filesg) doc)
    as [doc'|] eqn:Eu; [|discriminate].
  injection Ev as <-.
  unfold manifest_files. rewrite lookup_write_eq.
  unfold update_manifest in Eu.
  destruct (init_manifest root (map fst dirs) (map fst filesg) doc)
    as [m0|] eqn:E0; [|discriminate].
  cbn [rbind] in Eu.
  destruct (link_build_info (map fst filesg) m0) as [m1|] eqn:E1;
    [|discriminate].
  cbn [rbind] in Eu.
  destruct (link_present_inv _ _ _ Hlisted E1) as (d & F & -> & ->).
  rewrite scan_object in Eu. injection Eu as <-.
  rewrite lookup_assign_other
    by (apply version_entries_not_key; discriminate).
  rewrite lookup_set_eq. apply lookup_set_eq.
Qed.

Lemma full_walk_links_build_info_witness :
  lookup "buildInfo"
    (manifest_files "meta.json"
       (files_of (fst (Worked.run_mode_b Worked.two_versions))))
  = Some (JStr "buildInfo.json").
Proof.
  apply (proj2 (full_walk_links_build_info Sample.slot_last
                  Sample.parse_timestamp Sample.isoformat_local
                  Sample.json_loads Sample.env "rel" Worked.two_versions
                  (fst (Worked.run_mode_b Worked.two_versions))
                  ltac:(vm_compute; reflexivity))).
Defined.

(** X11. Whether it returns normally or raises, the full walk creates and
    removes no directory, and the only files it creates or changes are the
    manifests and the [buildInfo.json] of the top directory: every other
    file of every directory is left as it was. *)
Theorem full_walk_touches_only_its_files :
  forall slot parse_timestamp isoformat_local json_loads env root t p sub,
    subtree p t = Some sub ->
    exists sub',
      subtree p
        (fst (create_meta_files_all slot parse_timestamp isoformat_local
                json_loads env root t)) = Some sub' /\
      map fst (dirs_of sub') = map fst (dirs_of sub) /\
      forall name,
        name <> "meta.json" ->
        (p = [] -> name <> "buildInfo.json") ->
        lookup name (files_of sub') = lookup name (files_of sub).
Proof.
  intros slot parse iso loads env root [files dirs] p sub Hsub.
  unfold create_meta_files_all, bind, at_top.
  pose proof (generate_other slot parse iso loads env root files) as Hg.
  destruct (generate_build_info_file slot parse iso loads env _ files)
    as [filesg [[]|e]]; cbn [fst] in Hg.
  - destruct p as [|d p].
    + injection Hsub as <-.
      destruct (os_walk_only_manifests (visit slot)
                  (IdempotenceClaims.visit_other slot)
                  (Node filesg dirs) root [] _ eq_refl)
        as (sub' & Hs & Hd & Hf).
      exists sub'. split; [exact Hs|]. split; [exact Hd|].
      intros name Hn Hb. rewrite (Hf name Hn). cbn [files_of].
      apply Hg. now apply Hb.
    + destruct (os_walk_only_manifests (visit slot)
                  (IdempotenceClaims.visit_other slot)
                  (Node filesg dirs) root (d :: p) sub Hsub)
        as (sub' & Hs & Hd & Hf).
      exists sub'. split; [exact Hs|]. split; [exact Hd|].
      intros name Hn _. now apply Hf.
  - cbn [fst]. destruct p as [|d p].
    + injection Hsub as <-. eexists. split; [reflexivity|].
      split; [reflexivity|]. intros name _ Hb. cbn [files_of].
      apply Hg. now apply Hb.
    + exists sub. split; [exact Hsub|]. split; reflexivity.
Qed.

Lemma full_walk_touches_only_its_files_witness :
  exists sub',
    subtree [] (fst (Worked.run_mode_b Worked.two_versions)) = Some sub' /\
    map fst (dirs_of sub') = map fst (dirs_of Worked.two_versions) /\
    forall name,
      name <> "meta.json" ->
      (@nil string = [] -> name <> "buildInfo.json") ->
      lookup name (files_of sub') = lookup name (files_of Worked.two_versions).
Proof.
  exact (full_walk_touches_only_its_files Sample.slot_last
           Sample.parse_timestamp Sample.isoformat_local Sample.json_loads
           Sample.env "rel" Worked.two_versions [] Worked.two_versions eq_refl).
Defined.

End FullWalkExtras.

(** ** The version pattern *)

Module VersionExtras.

Import Version VersionSpec.

Lemma take_digits_sound s :
  s = (fst (take_digits s) ++ snd (take_digits s))%string /\
  all_digits (fst (take_digits s)) = true /\
  starts_with_digit (snd (take_digits s)) = false.
Proof.
  induction s as [|c s (IH1 & IH2 & IH3)]; [now repeat split|].
  cbn [take_digits]. destruct (PyStr.is_digit c) eqn:E.
  - destruct (take_digits s) as [d r]. cbn [fst snd append all_digits] in *.
    rewrite E, IH2. repeat split; [now rewrite <- IH1 | exact IH3].
  - cbn [fst snd append all_digits starts_with_digit]. now repeat split.
Qed.

Lemma take_digits_app d r :
  all_digits d = true ->
  take_digits (d ++ r)
  = ((d ++ fst (take_digits r))%string, snd (take_digits r)).
Proof.
  induction d as [|c d IH]; cbn [all_digits append]; intros H.
  - now destruct (take_digits r).
  - apply andb_prop in H as [Hc Hd]. cbn [take_digits]. rewrite Hc.
    now rewrite (IH Hd).
Qed.

Lemma take_digits_stop r :
  starts_with_digit r = false -> take_digits r = (EmptyString, r).
Proof.
  destruct r as [|c r]; [reflexivity|]. cbn [starts_with_digit take_digits].
  now intros ->.
Qed.

Lemma digits1_sound s d r :
  digits1 s = Some (d, r) ->
  s = (d ++ r)%string /\ number d = true /\ starts_with_digit r = false.
Proof.
  unfold digits1. destruct (take_digits_sound s) as (H1 & H2 & H3).
  destruct (take_digits s) as [[|c d0] r0]; [discriminate|].
  intros [= <- <-]. cbn [fst snd] in *. unfold number. now repeat split.
Qed.

Lemma digits1_app d r :
  number d = true ->
  digits1 (d ++ r)
  = Some ((d ++ fst (take_digits r))%string, snd (take_digits r)).
Proof.
  unfold number. intros H. apply andb_prop in H as [Hne Hd].
  unfold digits1. rewrite (take_digits_app d r Hd).
  destruct d as [|c d]; [discriminate | reflexivity].
Qed.

Lemma digits1_then_dot d r :
  number d = true ->
  digits1 (d ++ String PyStr.dot r) = Some (d, String PyStr.dot r).
Proof.
  intros H. rewrite (digits1_app d _ H).
  rewrite (take_digits_stop (String PyStr.dot r)) by reflexivity.
  cbn [fst snd]. f_equal. f_equal.
  clear H. induction d as [|c d IH]; [reflexivity|].
  cbn [append]. now rewrite IH.
Qed.

Lemma dot1_sound s r : dot1 s = Some r -> s = ("." ++ r)%string.
Proof.
  destruct s as [|c s]; [discriminate|]. cbn [dot1].
  destruct (Ascii.eqb_spec c PyStr.dot) as [->|]; [|discriminate].
  now intros [= ->].
Qed.

Lemma group0_dotted g :
  group0 g = dotted (family g) (major g) (minor g) (patch g).
Proof. reflexivity. Qed.

Lemma match_here_sound s g :
  match_here s = Some g ->
  exists post,
    s = (group0 g ++ post)%string /\
    Forall (fun x => number x = true) (group_list g) /\
    starts_with_digit post = false.
Proof.
  unfold match_here.
  destruct (digits1 s) as [[a r1]|] eqn:E1; [|discriminate].
  destruct (dot1 r1) as [r1'|] eqn:D1; [|discriminate].
  destruct (digits1 r1') as [[b r2]|] eqn:E2; [|discriminate].
  destruct (dot1 r2) as [r2'|] eqn:D2; [|discriminate].
  destruct (digits1 r2') as [[c r3]|] eqn:E3; [|discriminate].
  destruct (dot1 r3) as [r3'|] eqn:D3; [|discriminate].
  destruct (digits1 r3') as [[d post]|] eqn:E4; [|discriminate].
  intros [= <-].
  apply digits1_sound in E1 as (-> & Ha & _).
  apply digits1_sound in E2 as (-> & Hb & _).
  apply digits1_sound in E3 as (-> & Hc & _).
  apply digits1_sound in E4 as (-> & Hd & Hpost).
  apply dot1_sound in D1 as ->. apply dot1_sound in D2 as ->.
  apply dot1_sound in D3 as ->.
  exists post. split; [|split].
  - rewrite group0_dotted. unfold dotted. cbn [family major minor patch].
    now rewrite !PathFacts.append_assoc.
  - cbn [group_list family major minor patch]. now repeat constructor.
  - exact Hpost.
Qed.

Lemma match_here_dotted a b c d post :
  number a = true -> number b = true -> number c = true -> number d = true ->
  match_here (dotted a b c d ++ post)
  = Some (mkGroups a b c (d ++ fst (take_digits post))).
Proof.
  intros Ha Hb Hc Hd. unfold dotted, match_here.
  rewrite !PathFacts.append_assoc. cbn [append].
  change "."%char with PyStr.dot.
  rewrite (digits1_then_dot a _ Ha). cbn [dot1]. rewrite Ascii.eqb_refl.
  rewrite (digits1_then_dot b _ Hb). cbn [dot1]. rewrite Ascii.eqb_refl.
  rewrite (digits1_then_dot c _ Hc). cbn [dot1]. rewrite Ascii.eqb_refl.
  now rewrite (digits1_app d _ Hd).
Qed.

Lemma search_unfold s :
  search s = match match_here s with
             | Some g => Some g
             | None => match s with
                       | EmptyString => None
                       | String _ s' => search s'
                       end
             end.
Proof. destruct s; reflexivity. Qed.

(** What a match of the version pattern is made of. *)
Lemma search_sound file g :
  search file = Some g ->
  exists pre post,
    file = (pre ++ group0 g ++ post)%string /\
    group0 g = dotted (family g) (major g) (minor g) (patch g) /\
    Forall (fun x => number x = true) (group_list g) /\
    starts_with_digit post = false.
Proof.
  induction file as [|c file IH]; rewrite search_unfold.
  - discriminate.
  - destruct (match_here (String c file)) as [g0|] eqn:E.
    + intros [= <-]. destruct (match_here_sound _ _ E) as (post & Hs & Hn & Hp).
      exists EmptyString, post. now repeat split.
    + intros H. destruct (IH H) as (pre & post & Hs & Hg & Hn & Hp).
      exists (String c pre), post. cbn [append]. rewrite <- Hs.
      now repeat split.
Qed.

(** A name that holds four numbers joined by dots has a match. *)
Lemma search_complete pre a b c d post :
  number a = true -> number b = true -> number c = true -> number d = true ->
  search (pre ++ dotted a b c d ++ post) <> None.
Proof.
  intros Ha Hb Hc Hd.
  induction pre as [|x pre IH]; rewrite search_unfold.
  - cbn [append]. now rewrite (match_here_dotted a b c d post Ha Hb Hc Hd).
  - cbn [append]. destruct (match_here _); [discriminate | exact IH].
Qed.

Lemma in_version_matches g files :
  In g (Aux.version_matches files) ->
  exists name, In name files /\ search name = Some g.
Proof.
  unfold Aux.version_matches. intros H.
  apply in_flat_map in H as (name & Hin & Hg). exists name. split; [exact Hin|].
  destruct (search name) as [g0|]; [|contradiction].
  destruct Hg as [->|[]]. reflexivity.
Qed.

Lemma last_in {A : Type} (a : A) l : In (last l a) (a :: l).
Proof.
  revert a. induction l as [|b l IH]; intros a; [now left|].
  right. change (last (b :: l) a) with (last (b :: l) a).
  destruct l as [|c l]; [now left|].
  change (last (b :: c :: l) a) with (last (c :: l) a).
  rewrite (WalkFacts.last_default_irrelevant c l a b). apply IH.
Qed.

Lemma last_map_default {A B : Type} (f : A -> B) l a :
  last (map f l) (f a) = f (last l a).
Proof.
  induction l as [|b l IH]; [reflexivity|].
  destruct l as [|c l]; [reflexivity|]. exact IH.
Qed.

(** X12. The version recorded for a file name made of ASCII characters is
    read off the name: when the version pattern is found in the name, the
    loop body of the walk records the [versionInfo] of the match, and so
    does the scan of the rebuild when the name is the first to end in
    [.hex]; the [versionFull] recorded is a part of the name made of four
    non-empty strings of digits joined by dots, and no digit follows it in
    the name. *)
Theorem recorded_version_is_in_the_name :
  forall file before rest d g,
    is_ascii file = true ->
    search file = Some g ->
    MetaJsonHandler.scan_version (JObj d) file
    = Ok (JObj (PyDict.set "versionInfo" (version_info g) d)) /\
    ((forall f, In f before -> PyStr.endswith ".hex" f = false) ->
     PyStr.endswith ".hex" file = true ->
     LocalScript.scan_hex (before ++ file :: rest) (JObj d)
     = Ok (JObj (PyDict.set "versionInfo" (version_info g) d))) /\
    version_full (version_info g) = Some (group0 g) /\
    exists pre post,
      file = (pre ++ group0 g ++ post)%string /\
      group0 g = dotted (family g) (major g) (minor g) (patch g) /\
      Forall (fun x => number x = true) (group_list g) /\
      starts_with_digit post = false.
Proof.
  intros file before rest d g _ Hg. split; [|split; [|split]].
  - unfold MetaJsonHandler.scan_version. now rewrite Hg.
  - intros Hbefore Hhex. induction before as [|f before IH].
    + cbn [app LocalScript.scan_hex]. now rewrite Hhex, Hg.
    + cbn [app LocalScript.scan_hex].
      rewrite (Hbefore f (or_introl eq_refl)).
      apply IH. intros f' Hf'. apply Hbefore. now right.
  - reflexivity.
  - now apply search_sound.
Qed.

Lemma recorded_version_is_in_the_name_witness :
  MetaJsonHandler.scan_version (JObj []) "fw-4.10.2.0.hex"
  = Ok (JObj (PyDict.set "versionInfo"
                (version_info (mkGroups "4" "10" "2" "0")) [])) /\
  exists pre post,
    "fw-4.10.2.0.hex"%string
    = (pre ++ group0 (mkGroups "4" "10" "2" "0") ++ post)%string /\
    starts_with_digit post = false.
Proof.
  destruct (recorded_version_is_in_the_name "fw-4.10.2.0.hex" [] [] []
              (mkGroups "4" "10" "2" "0") eq_refl eq_refl)
    as (Hscan & _ & _ & pre & post & Hs & _ & _ & Hp).
  split; [exact Hscan|]. exists pre, post. split; [exact Hs | exact Hp].
Defined.

(** X13. In the walk, a directory that lists a name holding four non-empty
    strings of digits joined by dots gets a version: the loop over the file
    names, all made of ASCII characters, leaves in [versionInfo] the record
    of a match of the version pattern in one of the listed names. *)
Theorem scan_records_a_version :
  forall files d pre a b c e post,
    Forall (fun f => is_ascii f = true) files ->
    In (pre ++ dotted a b c e ++ post)%string files ->
    number a = true -> number b = true -> number c = true -> number e = true ->
    exists name g,
      In name files /\
      search name = Some g /\
      rfold MetaJsonHandler.scan_version files (JObj d)
      = Ok (JObj (PyDict.set "versionInfo" (version_info g) d)).
Proof.
  intros files d pre a b c e post _ Hin Ha Hb Hc He.
  rewrite WalkFacts.scan_object. unfold Aux.version_entries.
  assert (Hne : Aux.version_matches files <> []).
  { pose proof (search_complete pre a b c e post Ha Hb Hc He) as Hs.
    destruct (search (pre ++ dotted a b c e ++ post)) as [g0|] eqn:Eg;
      [|contradiction].
    intros Hnil.
    assert (Hg0 : In g0 (Aux.version_matches files)).
    { unfold Aux.version_matches. apply in_flat_map.
      eexists. split; [exact Hin|]. rewrite Eg. now left. }
    now rewrite Hnil in Hg0. }
  destruct (Aux.version_matches files) as [|g1 M] eqn:EM; [contradiction|].
  destruct (in_version_matches (last M g1) files) as (name & Hname & Hg).
  { rewrite EM. apply last_in. }
  exists name, (last M g1). split; [exact Hname|]. split; [exact Hg|].
  cbn [map]. rewrite CanonFacts.assign_cons.
  rewrite (WalkFacts.assign_same_key "versionInfo").
  - rewrite WalkExtras.last_map_pairs, last_map_default. reflexivity.
  - intros kv Hkv. apply in_map_iff in Hkv as (g & <- & _). reflexivity.
Qed.

Lemma scan_records_a_version_witness :
  exists name g,
    In name ["readme.txt"; "fw-4.10.2.0.hex"] /\
    search name = Some g /\
    rfold MetaJsonHandler.scan_version ["readme.txt"; "fw-4.10.2.0.hex"]
      (JObj [])
    = Ok (JObj (PyDict.set "versionInfo" (version_info g) [])).
Proof.
  apply (scan_records_a_version ["readme.txt"; "fw-4.10.2.0.hex"] []
           "fw-" "4" "10" "2" "0" ".hex").
  - repeat constructor.
  - right. now left.
  - reflexivity.
  - reflexivity.
  - reflexivity.
  - reflexivity.
Defined.

End VersionExtras.

(** ** The full rebuild, run again *)

Module RebuildExtras.

Import PyDict DictFacts EntryFacts Fs LocalScript Aux TreeFacts WalkGeneric.

Lemma find_put_in {A : Type} (f : A -> bool) x n (l : list A) :
  f x = false -> find f (firstn n l ++ x :: skipn n l) = find f l.
Proof.
  intros Hx. revert n. induction l as [|a l IH]; intros [|n]; cbn [firstn skipn app find];
    rewrite ?Hx; try reflexivity.
  destruct (f a); [reflexivity | apply IH].
Qed.

Lemma filter_put_in {A : Type} (f : A -> bool) x n (l : list A) :
  f x = false -> filter f (firstn n l ++ x :: skipn n l) = filter f l.
Proof.
  intros Hx. rewrite filter_app. cbn [filter]. rewrite Hx.
  now rewrite <- filter_app, firstn_skipn.
Qed.

(** The manifest written does not depend on whether [meta.json] is listed. *)
Lemma rebuilt_meta_put_in root dirs n (l : list string) :
  rebuilt_meta root dirs (firstn n l ++ "meta.json" :: skipn n l)
  = rebuilt_meta root dirs l.
Proof.
  unfold rebuilt_meta, hex_version_info, first_hex.
  rewrite find_put_in by reflexivity.
  now rewrite filter_put_in by reflexivity.
Qed.

Section Walk.

Variable slot : string -> list string -> nat.

Lemma names_write name (c : content) fs :
  map fst (write_entry slot name c fs) = map fst fs \/
  exists n, map fst (write_entry slot name c fs)
            = firstn n (map fst fs) ++ name :: skipn n (map fst fs).
Proof.
  unfold write_entry. destruct (mem name fs).
  - left. apply names_replace.
  - right. eexists. unfold add_entry. apply names_insert_at.
Qed.

Lemma rebuild_dir_twice root dirs fs fs1 :
  rebuild_dir slot root dirs (map fst fs) fs = (fs1, Ok tt) ->
  rebuild_dir slot root dirs (map fst fs1) fs1 = (fs1, Ok tt).
Proof.
  destruct (existsb (String.eqb "meta.json") dirs) eqn:Eb;
    [now rewrite (RebuildClaims.rebuild_dir_blocked slot _ _ _ _ Eb)|].
  rewrite !(RebuildClaims.rebuild_dir_unfold slot _ _ _ _ Eb). intros [= <-].
  destruct (names_write "meta.json"
              (Json (rebuilt_meta root dirs (map fst fs))) fs) as [->|[n ->]].
  - rewrite (write_same slot); [reflexivity | apply lookup_write_eq].
  - rewrite rebuilt_meta_put_in.
    rewrite (write_same slot); [reflexivity | apply lookup_write_eq].
Qed.

Lemma rebuild_dir_other root dirs files fs name :
  name <> "meta.json" ->
  lookup name (fst (rebuild_dir slot root dirs files fs)) = lookup name fs.
Proof.
  intros H. destruct (existsb (String.eqb "meta.json") dirs) eqn:Eb.
  - now rewrite (RebuildClaims.rebuild_dir_blocked slot _ _ _ _ Eb).
  - rewrite (RebuildClaims.rebuild_dir_unfold slot _ _ _ _ Eb). cbn [fst].
    apply lookup_write_neq. congruence.
Qed.

End Walk.

(** X14. On a tree none of whose directories has a sub-directory named
    [meta.json], [create_meta_json] run again on the tree it has left
    returns normally and changes nothing: the manifests it wrote are the
    manifests it writes, although the second run finds a [meta.json] listed
    in every directory. *)
Theorem create_meta_json_twice :
  forall slot root t,
    TreeShape.no_manifest_dir t = true ->
    create_meta_json slot root (fst (create_meta_json slot root t))
    = (fst (create_meta_json slot root t), Ok tt).
Proof.
  intros slot root t Hshape.
  pose proof (proj1 (proj1 (RebuildClaims.create_meta_json_walk slot t root)
                       Hshape)) as Hok.
  unfold create_meta_json in *.
  destruct (os_walk (rebuild_dir slot) root t) as [t1 r] eqn:E.
  cbn [fst snd] in *. subst r.
  exact (os_walk_fixed (rebuild_dir slot) (rebuild_dir_twice slot) t root t1 E).
Qed.

Lemma create_meta_json_twice_witness :
  create_meta_json Sample.slot_last "rel"
    (fst (create_meta_json Sample.slot_last "rel" Worked.two_versions))
  = (fst (create_meta_json Sample.slot_last "rel" Worked.two_versions), Ok tt).
Proof.
  apply (create_meta_json_twice Sample.slot_last "rel" Worked.two_versions).
  reflexivity.
Defined.

(** X15. [create_meta_json] creates and removes no directory, and the only
    files it creates or changes are the manifests: every other file of every
    directory is left as it was. *)
Theorem create_meta_json_touches_only_manifests :
  forall slot root t p sub,
    subtree p t = Some sub ->
    exists sub',
      subtree p (fst (create_meta_json slot root t)) = Some sub' /\
      map fst (dirs_of sub') = map fst (dirs_of sub) /\
      forall name,
        name <> "meta.json" ->
        lookup name (files_of sub') = lookup name (files_of sub).
Proof.
  intros slot root t p sub H. unfold create_meta_json.
  exact (os_walk_only_manifests (rebuild_dir slot) (rebuild_dir_other slot)
           t root p sub H).
Qed.

Lemma create_meta_json_touches_only_manifests_witness :
  exists sub',
    subtree [] (fst (create_meta_json Sample.slot_last "rel" Worked.two_versions))
    = Some sub' /\
    map fst (dirs_of sub') = map fst (dirs_of Worked.two_versions) /\
    forall name,
      name <> "meta.json" ->
      lookup name (files_of sub') = lookup name (files_of Worked.two_versions).
Proof.
  exact (create_meta_json_touches_only_manifests Sample.slot_last "rel"
           Worked.two_versions [] Worked.two_versions eq_refl).
Defined.

End RebuildExtras.

(** ** The key update over a whole tree *)

Module KeyUpdateExtras.

Import PyDict DictFacts EntryFacts Fs LocalScript Aux Keeps TreeFacts WalkGeneric.

Lemma same_but_files_refl c : same_but_files c c.
Proof. now left. Qed.

Lemma same_but_files_trans c1 c2 c3 :
  same_but_files c1 c2 -> same_but_files c2 c3 -> same_but_files c1 c3.
Proof.
  intros [->|(d & d' & -> & -> & H12)]; [auto|].
  intros [->|(d0 & d'' & E & -> & H23)].
  - right. exists d, d'. auto.
  - injection E as <-. right. exists d, d''. repeat split.
    intros k Hk. now rewrite H23, H12.
Qed.

Lemma rewritten_refl fs : rewritten fs fs.
Proof. split; [reflexivity | apply same_but_files_refl]. Qed.

Lemma rewritten_trans fs1 fs2 fs3 :
  rewritten fs1 fs2 -> rewritten fs2 fs3 -> rewritten fs1 fs3.
Proof.
  intros [H12 M12] [H23 M23]. split.
  - intros name Hn. now rewrite H23, H12.
  - exact (same_but_files_trans _ _ _ M12 M23).
Qed.

Section Body.

Variable slot : string -> list string -> nat.
Variable re_match : string -> string -> result bool.
Variable regex_mappings : list (string * list json).

(** What one manifest goes through, lines 156-178. *)
Lemma update_meta_file_cases fs :
  update_meta_file slot re_match regex_mappings "meta.json" fs
  = match lookup "meta.json" fs with
    | None => (fs, Err FileNotFoundError)
    | Some (Raw _) => (fs, Err JSONDecodeError)
    | Some (Json meta_data) =>
        match
          (has_files <- Py.contains "files" meta_data ;;
           if (has_files : bool) then
             (old <- Py.getitem meta_data "files" ;;
              old <- Py.items old ;;
              updated_files <- update_files re_match regex_mappings old ;;
              m <- Py.setitem meta_data "files" (JObj updated_files) ;;
              Ok (Some m))
           else Ok None)%res
        with
        | Err e => (fs, Err e)
        | Ok None => (fs, Ok tt)
        | Ok (Some m) => (write_entry slot "meta.json" (Json m) fs, Ok tt)
        end
    end.
Proof. reflexivity. Qed.

Lemma update_meta_file_rewrites fs :
  rewritten fs
    (fst (update_meta_file slot re_match regex_mappings "meta.json" fs)).
Proof.
  rewrite update_meta_file_cases.
  destruct (lookup "meta.json" fs) as [[meta_data|raw]|] eqn:El;
    try apply rewritten_refl.
  destruct (Py.contains "files" meta_data) as [[|]|e]; cbn [rbind fst];
    try apply rewritten_refl.
  destruct (Py.getitem meta_data "files") as [old|e]; cbn [rbind fst];
    try apply rewritten_refl.
  destruct (Py.items old) as [old'|e]; cbn [rbind fst];
    try apply rewritten_refl.
  destruct (update_files re_match regex_mappings old') as [new|e];
    cbn [rbind fst]; try apply rewritten_refl.
  destruct meta_data as [| | | | | |d]; cbn [Py.setitem rbind fst];
    try apply rewritten_refl.
  split.
  - intros name Hn. apply lookup_write_neq. congruence.
  - right. exists d, (set "files" (JObj new) d).
    split; [exact El|]. split; [apply lookup_write_eq|].
    intros k Hk. apply lookup_set_neq. congruence.
Qed.

Lemma keys_body_rewrites files fs :
  rewritten fs (fst (keys_body slot re_match regex_mappings files fs)).
Proof.
  unfold keys_body. revert fs.
  induction files as [|n files IH]; intros fs; [apply rewritten_refl|].
  cbn [for_each]. unfold bind at 1.
  destruct (String.eqb_spec n META_FILE_NAME) as [->|Hn].
  - pose proof (update_meta_file_rewrites fs) as H.
    unfold META_FILE_NAME.
    destruct (update_meta_file slot re_match regex_mappings "meta.json" fs)
      as [fs1 [u|e]]; cbn [fst] in *; [|exact H].
    exact (rewritten_trans _ _ _ H (IH fs1)).
  - unfold ret at 1. apply IH.
Qed.

Lemma keys_body_absent files fs :
  ~ In "meta.json" files ->
  keys_body slot re_match regex_mappings files fs = (fs, Ok tt).
Proof.
  unfold keys_body.
  induction files as [|n files IH]; intros Hn; [reflexivity|].
  cbn [for_each]. unfold bind at 1.
  destruct (String.eqb_spec n META_FILE_NAME) as [->|Hne].
  - exfalso. apply Hn. now left.
  - unfold ret at 1. apply IH. intros H. apply Hn. now right.
Qed.

(** With [meta.json] listed once, the loop is one run on that manifest. *)
Lemma keys_body_once files fs :
  NoDup files -> In "meta.json" files ->
  keys_body slot re_match regex_mappings files fs
  = update_meta_file slot re_match regex_mappings "meta.json" fs.
Proof.
  induction files as [|n files IH]; intros Hnd Hin; [contradiction|].
  inversion Hnd as [|? ? Hn Hnd']; subst.
  unfold keys_body. cbn [for_each]. unfold bind at 1.
  destruct (String.eqb_spec n META_FILE_NAME) as [->|Hne].
  - unfold META_FILE_NAME in *.
    destruct (update_meta_file slot re_match regex_mappings "meta.json" fs)
      as [fs1 [[]|e]]; [|reflexivity].
    exact (keys_body_absent files fs1 Hn).
  - unfold ret at 1. destruct Hin as [->|Hin]; [contradiction|].
    exact (IH Hnd' Hin).
Qed.

End Body.

(** X16. Whether it returns normally or raises, [update_meta_file_keys]
    creates and removes no directory, leaves every file that is no manifest
    as it was, and leaves every manifest as it was or as an object with the
    same members apart from [files]. *)
Theorem update_meta_file_keys_rewrites_files_only :
  forall slot re_match root regex_mappings t p sub,
    subtree p t = Some sub ->
    exists sub',
      subtree p
        (fst (update_meta_file_keys slot re_match root regex_mappings t))
      = Some sub' /\
      map fst (dirs_of sub') = map fst (dirs_of sub) /\
      rewritten (files_of sub) (files_of sub').
Proof.
  intros slot re_match root rm t p sub H. unfold update_meta_file_keys.
  exact (os_walk_related
           (fun _ _ files => keys_body slot re_match rm files)
           rewritten rewritten_refl
           (fun _ _ files fs => keys_body_rewrites slot re_match rm files fs)
           t root p sub H).
Qed.

Lemma update_meta_file_keys_rewrites_files_only_witness :
  exists sub',
    subtree ["sub"]
      (fst (update_meta_file_keys Sample.slot_last ReLite.re_match "rel"
              [("k1", [JStr "^x.*"])] Worked.named_tree))
    = Some sub' /\
    map fst (dirs_of sub') = map fst (dirs_of (Node Worked.named_listing [])) /\
    rewritten (files_of (Node Worked.named_listing [])) (files_of sub').
Proof.
  exact (update_meta_file_keys_rewrites_files_only Sample.slot_last
           ReLite.re_match "rel" [("k1", [JStr "^x.*"])] Worked.named_tree
           ["sub"] (Node Worked.named_listing []) eq_refl).
Defined.

(** X17. When [update_meta_file_keys] returns normally, then in every
    directory of the tree that lists each name once and whose manifest is an
    object with an object as [files], the manifest is the old one with
    [files] replaced by the mapping the key update computes from the old
    mapping. *)
Theorem update_meta_file_keys_updates_each_manifest :
  forall slot re_match root regex_mappings t t1,
    update_meta_file_keys slot re_match root regex_mappings t = (t1, Ok tt) ->
    forall p sub d old,
      subtree p t = Some sub ->
      NoDup (map fst (files_of sub)) ->
      lookup "meta.json" (files_of sub) = Some (Json (JObj d)) ->
      lookup "files" d = Some (JObj old) ->
      exists new,
        update_files re_match regex_mappings old = Ok new /\
        manifest_at p t1 = Some (Json (JObj (set "files" (JObj new) d))).
Proof.
  intros slot re_match root rm t t1 Hw p sub d old Hsub Hnd Hl Hf.
  unfold update_meta_file_keys in Hw.
  destruct (os_walk_visits _ _ _ _ Hw p sub Hsub) as (sub1 & Hs1 & Hb).
  change (keys_body slot re_match rm (map fst (files_of sub)) (files_of sub)
          = (files_of sub1, Ok tt)) in Hb.
  rewrite keys_body_once in Hb;
    [| exact Hnd | apply (proj1 (mem_In _ _)); unfold mem; now rewrite Hl].
  rewrite update_meta_file_cases, Hl in Hb.
  cbn [Py.contains rbind] in Hb. unfold mem in Hb. rewrite Hf in Hb.
  cbn [Py.getitem] in Hb. rewrite Hf in Hb. cbn [rbind Py.items] in Hb.
  destruct (update_files re_match rm old) as [new|e]; cbn [rbind Py.setitem] in Hb;
    [|discriminate].
  injection Hb as Hb. exists new. split; [reflexivity|].
  unfold manifest_at. rewrite Hs1, <- Hb. apply lookup_write_eq.
Qed.

Lemma update_meta_file_keys_updates_each_manifest_witness :
  exists new,
    update_files ReLite.re_match [("k1", [JStr "^x.*"])]
      [("x1.txt", JStr "x1.txt")] = Ok new /\
    manifest_at []
      (fst (update_meta_file_keys Sample.slot_last ReLite.re_match "rel"
              [("k1", [JStr "^x.*"])]
              (Node [("meta.json",
                       Json (JObj [("files", JObj [("x1.txt", JStr "x1.txt")])]))]
                    [])))
    = Some (Json (JObj (set "files" (JObj new)
                          [("files", JObj [("x1.txt", JStr "x1.txt")])]))).
Proof.
  apply (update_meta_file_keys_updates_each_manifest Sample.slot_last
           ReLite.re_match "rel" [("k1", [JStr "^x.*"])]
           (Node [("meta.json",
                    Json (JObj [("files", JObj [("x1.txt", JStr "x1.txt")])]))]
                 [])
           _ ltac:(vm_compute; reflexivity) []
           (Node [("meta.json",
                    Json (JObj [("files", JObj [("x1.txt", JStr "x1.txt")])]))]
                 [])
           [("files", JObj [("x1.txt", JStr "x1.txt")])]
           [("x1.txt", JStr "x1.txt")]).
  - reflexivity.
  - repeat constructor. intros [].
  - reflexivity.
  - reflexivity.
Defined.

End KeyUpdateExtras.

(** ** Key canonicalisation over a whole tree *)

Module CanonPassClaims.

Import PyDict DictFacts EntryFacts Fs LocalScript Aux Keeps TreeFacts.
Import WalkGeneric CanonSpec CanonFacts CanonPass TreeShape KeyUpdateExtras.

(** The manifest of a directory after a normal return of the pass. *)
Lemma keys_updated_at slot re_match root rm t t1 :
  update_meta_file_keys slot re_match root rm t = (t1, Ok tt) ->
  forall p sub d old,
    subtree p t = Some sub ->
    NoDup (map fst (files_of sub)) ->
    lookup "meta.json" (files_of sub) = Some (Json (JObj d)) ->
    lookup "files" d = Some (JObj old) ->
    exists new,
      update_files re_match rm old = Ok new /\
      manifest_at p t1 = Some (Json (JObj (set "files" (JObj new) d))).
Proof.
  intros Hw p sub d old Hsub Hnd Hl Hf.
  unfold update_meta_file_keys in Hw.
  destruct (os_walk_visits _ _ _ _ Hw p sub Hsub) as (sub1 & Hs1 & Hb).
  change (keys_body slot re_match rm (map fst (files_of sub)) (files_of sub)
          = (files_of sub1, Ok tt)) in Hb.
  rewrite keys_body_once in Hb;
    [| exact Hnd | apply (proj1 (mem_In _ _)); unfold mem; now rewrite Hl].
  rewrite update_meta_file_cases, Hl in Hb.
  cbn [Py.contains rbind] in Hb. unfold mem in Hb. rewrite Hf in Hb.
  cbn [Py.getitem] in Hb. rewrite Hf in Hb. cbn [rbind Py.items] in Hb.
  destruct (update_files re_match rm old) as [new|e]; cbn [rbind Py.setitem] in Hb;
    [|discriminate].
  injection Hb as Hb. exists new. split; [reflexivity|].
  unfold manifest_at. rewrite Hs1, <- Hb. apply lookup_write_eq.
Qed.

Lemma every_dir_node P files dirs :
  every_dir P (Node files dirs)
  = (P files /\ subdirs_every (every_dir P) dirs).
Proof. reflexivity. Qed.

Lemma subdirs_every_cons P d sub ds :
  subdirs_every P ((d, sub) :: ds) = (P sub /\ subdirs_every P ds).
Proof. reflexivity. Qed.

Section Returns.

Variable slot : string -> list string -> nat.
Variable re_match : string -> string -> result bool.
Variable regex_mappings : list (string * list json).

(** The loop over the names of a directory that is ready returns. *)
Lemma keys_body_ready fs :
  manifest_ready re_match regex_mappings fs ->
  snd (keys_body slot re_match regex_mappings (map fst fs) fs) = Ok tt.
Proof.
  intros [Hnd Hm].
  destruct (lookup "meta.json" fs) as [c|] eqn:El.
  - rewrite keys_body_once;
      [| exact Hnd | apply (proj1 (mem_In _ _)); unfold mem; now rewrite El].
    rewrite update_meta_file_cases, El.
    destruct c as [[| | | | | |d]|raw]; try contradiction.
    cbn [Py.contains rbind]. unfold mem.
    destruct (lookup "files" d) as [[| | | | | |old]|] eqn:Ef;
      try contradiction; [|reflexivity].
    cbn [Py.getitem]. rewrite Ef. cbn [rbind Py.items].
    destruct (update_files_answers re_match regex_mappings old [] Hm)
      as [new Hnew].
    unfold update_files. rewrite Hnew. reflexivity.
  - rewrite keys_body_absent; [reflexivity|].
    apply mem_false_In. unfold mem. now rewrite El.
Qed.

Lemma pass_returns t :
  every_dir (manifest_ready re_match regex_mappings) t ->
  forall root,
    snd (update_meta_file_keys slot re_match root regex_mappings t) = Ok tt.
Proof.
  unfold update_meta_file_keys.
  induction t as [files dirs IH] using tree_ind_nested.
  rewrite every_dir_node. intros [Hfiles Hdirs] root. rewrite os_walk_node.
  pose proof (keys_body_ready files Hfiles) as Hb.
  unfold keys_body in Hb.
  match goal with
  | |- context [for_each (map fst files) ?b files] =>
      destruct (for_each (map fst files) b files) as [files' [[]|e]]
  end; [|discriminate].
  match goal with
  | |- context [walk_dirs ?w dirs] =>
      assert (Hall : Forall (fun d => snd (w (fst d) (snd d)) = Ok tt) dirs)
  end.
  { clear - IH Hdirs. induction dirs as [|[d sub] ds IHds]; [constructor|].
    rewrite subdirs_every_cons in Hdirs. destruct Hdirs as [Hsub Hds].
    inversion IH as [|? ? Hd Hrest]; subst. constructor.
    - cbn [fst snd] in *. now apply Hd.
    - now apply IHds. }
  pose proof (proj1 (RebuildClaims.walk_dirs_all _ dirs Hall)) as Hr.
  match goal with
  | |- context [walk_dirs ?w dirs] =>
      destruct (walk_dirs w dirs) as [dirs' r]
  end.
  cbn [snd] in *. exact Hr.
Qed.

End Returns.

(** C9. When the pass [update_meta_file_keys] returns normally, then in
    every directory of the tree that lists each name once and whose manifest
    is an object with an object as [files], the manifest is the old one with
    [files] replaced by the mapping obtained by assigning, in the order of
    the old mapping, each value under the canonical key of its old key: the
    first logical key of the regex mapping with a pattern matching the old
    key from its start, or the old key itself when no pattern matches. When
    the canonical keys are pairwise different the entries keep their places
    and values and only the keys change. The pass does return normally when
    every directory lists each name once and every manifest is such an
    object, or an object without [files], with every pattern giving an
    answer on every old key. Run on a directory whose manifest has the entry
    of key "x1.txt" and value "x1.txt", under the mapping of "k1" to the one
    pattern "^x.*", the pass leaves the entry of key "k1" and value
    "x1.txt". *)
Theorem update_meta_file_keys_canonicalises :
  (forall slot re_match root rm t t1,
     update_meta_file_keys slot re_match root rm t = (t1, Ok tt) ->
     forall p sub d old,
       subtree p t = Some sub ->
       NoDup (map fst (files_of sub)) ->
       lookup "meta.json" (files_of sub) = Some (Json (JObj d)) ->
       lookup "files" d = Some (JObj old) ->
       exists ks,
         Forall2 (canonical_key re_match rm) (keys old) ks /\
         manifest_at p t1
         = Some (Json (JObj (set "files"
                               (JObj (of_pairs (combine ks (map snd old))))
                               d))) /\
         (NoDup ks ->
          of_pairs (combine ks (map snd old)) = combine ks (map snd old)))
  /\ (forall slot re_match root rm t,
        every_dir (manifest_ready re_match rm) t ->
        snd (update_meta_file_keys slot re_match root rm t) = Ok tt)
  /\ update_meta_file_keys Sample.slot_last ReLite.re_match "rel"
       [("k1", [JStr "^x.*"])]
       (Node [("meta.json",
                Json (JObj [("files", JObj [("x1.txt", JStr "x1.txt")])]))]
             [])
     = (Node [("meta.json",
                Json (JObj [("files", JObj [("k1", JStr "x1.txt")])]))]
             [],
        Ok tt).
Proof.
  split; [|split].
  - intros slot re_match root rm t t1 Hw p sub d old Hsub Hnd Hl Hf.
    destruct (keys_updated_at slot re_match root rm t t1 Hw p sub d old
                Hsub Hnd Hl Hf) as (new & Hnew & Hm).
    destruct (CanonClaims.update_files_canonical re_match rm old new Hnew)
      as (ks & HF & -> & Hnodup).
    exists ks. split; [exact HF|]. split; [exact Hm | exact Hnodup].
  - intros slot re_match root rm t H. now apply pass_returns.
  - vm_compute. reflexivity.
Qed.

Lemma update_meta_file_keys_canonicalises_witness :
  exists ks,
    Forall2 (canonical_key ReLite.re_match [("k1", [JStr "^x.*"])])
      (keys [("x1.txt", JStr "x1.txt"); ("q", JStr "q")]) ks /\
    manifest_at []
      (fst (update_meta_file_keys Sample.slot_last ReLite.re_match "rel"
              [("k1", [JStr "^x.*"])]
              (Node [("meta.json",
                       Json (JObj [("files",
                                     JObj [("x1.txt", JStr "x1.txt");
                                           ("q", JStr "q")])]))]
                    [])))
    = Some (Json (JObj (set "files"
                          (JObj (of_pairs
                                   (combine ks [JStr "x1.txt"; JStr "q"])))
                          [("files",
                             JObj [("x1.txt", JStr "x1.txt");
                                   ("q", JStr "q")])]))).
Proof.
  destruct (proj1 update_meta_file_keys_canonicalises Sample.slot_last
              ReLite.re_match "rel" [("k1", [JStr "^x.*"])]
              (Node [("meta.json",
                       Json (JObj [("files",
                                     JObj [("x1.txt", JStr "x1.txt");
                                           ("q", JStr "q")])]))]
                    [])
              _ ltac:(vm_compute; reflexivity) []
              (Node [("meta.json",
                       Json (JObj [("files",
                                     JObj [("x1.txt", JStr "x1.txt");
                                           ("q", JStr "q")])]))]
                    [])
              [("files", JObj [("x1.txt", JStr "x1.txt"); ("q", JStr "q")])]
              [("x1.txt", JStr "x1.txt"); ("q", JStr "q")]
              eq_refl ltac:(repeat constructor; intros [])
              eq_refl eq_refl)
    as (ks & HF & Hm & _).
  exists ks. split; [exact HF | exact Hm].
Defined.

End CanonPassClaims.

(** ** The regex mappings of a folder structure *)

Module MappingsFacts.

Import PyDict DictFacts Mappings Cover.

(** Induction on a JSON value with the hypothesis for every member of an
    object. *)
Lemma json_obj_ind (P : json -> Prop) :
  (forall x, (forall d, x <> JObj d) -> P x) ->
  (forall d, Forall (fun kv => P (snd kv)) d -> P (JObj d)) ->
  forall x, P x.
Proof.
  intros Hleaf Hobj. fix IH 1. intros x.
  destruct x as [| b | n | f | s | items | members];
    try (apply Hleaf; discriminate).
  apply Hobj. induction members as [|[k v] ms IHms]; constructor.
  - exact (IH v).
  - exact IHms.
Qed.

Lemma extract_recursive_obj members acc :
  extract_recursive (JObj members) acc
  = rbind (Py.items (match lookup "files" members with
                     | Some v => v
                     | None => JObj []
                     end))
          (fun files =>
             extract_members extract_recursive members
               (fold_left append_pattern files acc)).
Proof. reflexivity. Qed.

Lemma extract_members_cons extract k v ms acc :
  extract_members extract ((k, v) :: ms) acc
  = if negb (String.eqb k "files") && is_dict v
    then rbind (extract v acc) (extract_members extract ms)
    else extract_members extract ms acc.
Proof. reflexivity. Qed.

Lemma member_patterns_cons patterns k v ms :
  member_patterns patterns ((k, v) :: ms)
  = (if negb (String.eqb k "files") && is_dict v then patterns v else [])
    ++ member_patterns patterns ms.
Proof. reflexivity. Qed.

Lemma members_ok_cons ok k v ms :
  members_ok ok ((k, v) :: ms)
  = (if negb (String.eqb k "files") && is_dict v then ok v else true)
    && members_ok ok ms.
Proof. reflexivity. Qed.

Lemma all_patterns_obj members :
  all_patterns (JObj members)
  = files_member members ++ member_patterns all_patterns members.
Proof. reflexivity. Qed.

Lemma files_ok_obj members :
  files_ok (JObj members)
  = match lookup "files" members with
    | Some v => is_dict v
    | None => true
    end && members_ok files_ok members.
Proof. reflexivity. Qed.

Lemma extract_members_spec ms :
  Forall (fun kv => extracts (snd kv)) ms ->
  forall acc,
    (members_ok files_ok ms = true ->
     extract_members extract_recursive ms acc
     = Ok (fold_left append_pattern (member_patterns all_patterns ms) acc)) /\
    (members_ok files_ok ms = false ->
     extract_members extract_recursive ms acc = Err AttributeError).
Proof.
  induction 1 as [|[k v] ms Hv _ IH]; intros acc.
  - split; [reflexivity | discriminate].
  - rewrite extract_members_cons, member_patterns_cons, members_ok_cons.
    cbn [snd] in Hv.
    destruct (negb (String.eqb k "files") && is_dict v).
    + destruct (Hv acc) as [Hok Hbad].
      destruct (files_ok v).
      * rewrite (Hok eq_refl). cbn [rbind andb]. rewrite fold_left_app.
        apply IH.
      * rewrite (Hbad eq_refl). split; [discriminate | reflexivity].
    + cbn [andb app]. apply IH.
Qed.

Lemma extract_recursive_spec data : extracts data.
Proof.
  induction data as [x Hx | members IH] using json_obj_ind; intros acc.
  - destruct x; try (split; [discriminate | reflexivity]).
    exfalso. now apply (Hx members).
  - rewrite extract_recursive_obj, all_patterns_obj, files_ok_obj.
    unfold files_member.
    destruct (lookup "files" members) as [v|].
    + destruct v as [| | | | | |F];
        try (split; [discriminate | reflexivity]).
      cbn [Py.items rbind is_dict andb]. rewrite fold_left_app.
      now apply extract_members_spec.
    + cbn [Py.items rbind andb fold_left app].
      now apply extract_members_spec.
Qed.

(** The dict filled from a list of entries: each key has the values
    recorded under it, in order. *)
Lemma lookup_grouped k l acc :
  lookup k (fold_left append_pattern l acc)
  = match lookup k acc with
    | Some l0 => Some (l0 ++ patterns_for k l)
    | None =>
        match patterns_for k l with
        | [] => None
        | ps => Some ps
        end
    end.
Proof.
  revert acc. induction l as [|[k' v] l IH]; intros acc.
  - cbn [fold_left patterns_for filter map]. destruct (lookup k acc) as [l0|];
      [now rewrite app_nil_r | reflexivity].
  - cbn [fold_left]. rewrite IH. unfold append_pattern, patterns_for.
    cbn [fst snd filter]. destruct (String.eqb_spec k' k) as [->|Hne].
    + rewrite lookup_set_eq. cbn [map].
      destruct (lookup k acc) as [l0|]; [now rewrite <- app_assoc | reflexivity].
    + now rewrite lookup_set_neq.
Qed.

Lemma NoDup_grouped l acc :
  NoDup (keys acc) -> NoDup (keys (fold_left append_pattern l acc)).
Proof.
  revert acc. induction l as [|kv l IH]; intros acc H; [exact H|].
  cbn [fold_left]. apply IH. unfold append_pattern. now apply NoDup_keys_set.
Qed.

Lemma files_member_patterns members :
  incl (files_member members) (all_patterns (JObj members)).
Proof. rewrite all_patterns_obj. apply incl_appl, incl_refl. Qed.

Lemma member_patterns_incl patterns k v ms :
  In (k, v) ms -> k <> "files" -> is_dict v = true ->
  incl (patterns v) (member_patterns patterns ms).
Proof.
  intros Hin Hk Hv. induction ms as [|[k' v'] ms IH]; [contradiction|].
  rewrite member_patterns_cons. destruct Hin as [[= -> ->]|Hin].
  - rewrite Hv. destruct (String.eqb_spec k "files"); [contradiction|].
    cbn [negb andb]. apply incl_appl, incl_refl.
  - apply incl_appr. now apply IH.
Qed.

(** The patterns of a sub-folder are among those of the folder. *)
Lemma subfolder_patterns k m members :
  In (k, JObj m) members -> k <> "files" ->
  incl (all_patterns (JObj m)) (all_patterns (JObj members)).
Proof.
  intros Hin Hk. rewrite (all_patterns_obj members). apply incl_appr.
  now apply (member_patterns_incl all_patterns k (JObj m) members).
Qed.

End MappingsFacts.

Module MappingsExtras.

Import PyDict DictFacts Mappings Cover MappingsFacts.

(** X18. On a folder structure in which every [files] member is an object,
    [get_regex_mappings] returns a dict with one entry for each logical key
    that occurs in a [files] mapping at any depth of nested objects, and the
    entry is the list of all the patterns recorded under that key, in
    document order, a folder before its sub-folders. *)
Theorem get_regex_mappings_collects :
  forall folder_structure,
    files_ok folder_structure = true ->
    exists m,
      get_regex_mappings folder_structure = Ok m /\
      NoDup (keys m) /\
      forall k,
        lookup k m
        = match patterns_for k (all_patterns folder_structure) with
          | [] => None
          | ps => Some ps
          end.
Proof.
  intros data Hok. unfold get_regex_mappings.
  rewrite (proj1 (extract_recursive_spec data []) Hok).
  eexists. split; [reflexivity|]. split.
  - apply NoDup_grouped. constructor.
  - intros k. now rewrite lookup_grouped.
Qed.

Lemma get_regex_mappings_collects_witness :
  exists m,
    get_regex_mappings (JObj Worked.nested_spec) = Ok m /\
    NoDup (keys m) /\
    forall k,
      lookup k m
      = match patterns_for k (all_patterns (JObj Worked.nested_spec)) with
        | [] => None
        | ps => Some ps
        end.
Proof.
  apply (get_regex_mappings_collects (JObj Worked.nested_spec)). reflexivity.
Defined.

(** X19. [get_regex_mappings] raises [AttributeError] exactly when the
    folder structure is no object or has, at some depth of nested objects, a
    [files] member that is no object; on every other input it returns. *)
Theorem get_regex_mappings_raises :
  forall folder_structure,
    (files_ok folder_structure = false ->
     get_regex_mappings folder_structure = Err AttributeError) /\
    (forall e, get_regex_mappings folder_structure = Err e ->
               files_ok folder_structure = false /\ e = AttributeError).
Proof.
  intros data. split.
  - apply (proj2 (extract_recursive_spec data [])).
  - intros e. unfold get_regex_mappings.
    destruct (extract_recursive_spec data []) as [Hok Hbad].
    destruct (files_ok data).
    + rewrite (Hok eq_refl). discriminate.
    + rewrite (Hbad eq_refl). now intros [= <-].
Qed.

Lemma get_regex_mappings_raises_witness :
  get_regex_mappings
    (JObj [("a", JObj [("b", JObj [("files", JArr [JStr "^x.*"])])])])
  = Err AttributeError.
Proof.
  apply (proj1 (get_regex_mappings_raises
                  (JObj [("a", JObj [("b", JObj [("files",
                                                    JArr [JStr "^x.*"])])])]))).
  reflexivity.
Defined.

End MappingsExtras.

(** ** Routing the files *)

Module RouterExtras.

Import PyDict DictFacts Fs LocalScript Mappings Cover MappingsFacts.

Lemma for_each_keeps {S A : Type} (l : list A) (body : A -> M S unit) s :
  (forall x, In x l -> fst (body x s) = s) ->
  fst (for_each l body s) = s.
Proof.
  induction l as [|x l IH]; intros H; [reflexivity|].
  cbn [for_each]. unfold bind.
  pose proof (H x (or_introl eq_refl)) as Hx.
  destruct (body x s) as [s' [u|e]]; cbn [fst] in Hx; subst s'.
  - apply IH. intros y Hy. apply H. now right.
  - reflexivity.
Qed.

Section Moves.

Variable slot : string -> list string -> nat.
Variable re_match : string -> string -> result bool.

(** The pattern loop renames nothing when no pattern matches. *)
Lemma move_by_patterns_no_hit file dest regexes t :
  (forall kv, In kv regexes ->
              re_match_json re_match (snd kv) file <> Ok true) ->
  fst (move_by_patterns slot re_match file dest regexes t) = t.
Proof.
  intros H. unfold move_by_patterns. apply for_each_keeps.
  intros kv Hkv. unfold bind, lift.
  destruct (re_match_json re_match (snd kv) file) as [[|]|e] eqn:E;
    [|reflexivity|reflexivity].
  exfalso. now apply (H kv Hkv).
Qed.

(** It renames nothing either when the destination is no path. *)
Lemma move_by_patterns_no_dest file e regexes t :
  fst (move_by_patterns slot re_match file (Err e) regexes t) = t.
Proof.
  unfold move_by_patterns. apply for_each_keeps.
  intros kv _. unfold bind, lift.
  now destruct (re_match_json re_match (snd kv) file) as [[|]|e0].
Qed.

Lemma move_into_subfolder_no_hit file folder patterns subfolder t :
  (forall pm kv, patterns = JObj pm -> In kv (all_patterns (JObj pm)) ->
                 re_match_json re_match (snd kv) file <> Ok true) ->
  fst (move_into_subfolder slot re_match file folder patterns subfolder t) = t.
Proof.
  intros H. unfold move_into_subfolder.
  destruct (negb (Py.eq_str subfolder "files")) eqn:Es; [|reflexivity].
  unfold bind at 1. unfold lift at 1.
  destruct (Py.subscript patterns subfolder) as [node|e] eqn:E1;
    cbn [rbind]; [|reflexivity].
  destruct (Py.getitem node "files") as [fsv|e] eqn:E2; cbn [rbind];
    [|reflexivity].
  destruct (Py.items fsv) as [regexes|e] eqn:E3; [|reflexivity].
  destruct subfolder as [| | | | s | |];
    try (cbn [as_str rbind]; apply move_by_patterns_no_dest).
  destruct patterns as [| | | | | |pm]; try discriminate.
  cbn [Py.subscript Py.getitem] in E1.
  destruct (lookup s pm) as [v|] eqn:El; [|discriminate].
  injection E1 as ->.
  destruct node as [| | | | | |nm]; try discriminate.
  cbn [Py.getitem] in E2.
  destruct (lookup "files" nm) as [v|] eqn:Ef; [|discriminate].
  injection E2 as ->.
  destruct fsv as [| | | | | |F]; try discriminate.
  injection E3 as ->.
  apply move_by_patterns_no_hit. intros kv Hkv.
  apply (H pm kv eq_refl).
  apply (subfolder_patterns s nm pm).
  - now apply lookup_In.
  - intros ->. cbn in Es. discriminate.
  - apply files_member_patterns. unfold files_member. now rewrite Ef.
Qed.

Lemma move_into_folder_no_hit file folder patterns t :
  (forall pm kv, patterns = JObj pm -> In kv (all_patterns (JObj pm)) ->
                 re_match_json re_match (snd kv) file <> Ok true) ->
  fst (move_into_folder slot re_match file (folder, patterns) t) = t.
Proof.
  intros H. unfold move_into_folder.
  destruct (negb (String.eqb folder "files")); [|reflexivity].
  unfold bind at 1. unfold lift at 1.
  destruct (Py.contains "files" patterns) as [has_files|e]; [|reflexivity].
  unfold bind at 1.
  lazymatch goal with
  | |- context [(if has_files then ?a else ?b) t] =>
      set (step := if has_files then a else b)
  end.
  assert (H1 : fst (step t) = t).
  { subst step. destruct has_files; [|reflexivity]. unfold bind, lift.
    destruct (Py.getitem patterns "files") as [fsv|e] eqn:E2; cbn [rbind];
      [|reflexivity].
    destruct (Py.items fsv) as [regexes|e] eqn:E3; [|reflexivity].
    destruct patterns as [| | | | | |pm]; try discriminate.
    cbn [Py.getitem] in E2.
    destruct (lookup "files" pm) as [v|] eqn:Ef; [|discriminate].
    injection E2 as ->.
    destruct fsv as [| | | | | |F]; try discriminate.
    injection E3 as ->.
    apply move_by_patterns_no_hit. intros kv Hkv.
    apply (H pm kv eq_refl), files_member_patterns.
    unfold files_member. now rewrite Ef. }
  destruct (step t) as [t1 [u|e]]; cbn [fst] in H1; subst t1; [|reflexivity].
  unfold bind, lift.
  destruct (Py.iter patterns) as [subfolders|e]; [|reflexivity].
  apply for_each_keeps. intros subfolder _.
  now apply move_into_subfolder_no_hit.
Qed.

End Moves.

(** X20. [move_files] renames a file only on a match: when none of the
    listed names is matched by any pattern of the [files] mappings of the
    folder structure, the current directory is left as it was, whether the
    call returns normally or raises. *)
Theorem move_files_moves_only_on_match :
  forall slot re_match listed folder_structure t,
    (forall file kv,
       In file listed ->
       In kv (all_patterns (JObj folder_structure)) ->
       re_match_json re_match (snd kv) file <> Ok true) ->
    fst (move_files slot re_match listed folder_structure t) = t.
Proof.
  intros slot re_match listed spec t H. unfold move_files.
  apply for_each_keeps. intros file Hfile.
  apply for_each_keeps. intros [folder patterns] Hin.
  destruct (String.eqb_spec folder "files") as [->|Hne].
  - unfold move_into_folder. reflexivity.
  - apply move_into_folder_no_hit. intros pm kv -> Hkv.
    apply (H file kv Hfile).
    exact (subfolder_patterns folder pm spec Hin Hne kv Hkv).
Qed.

Lemma move_files_moves_only_on_match_witness :
  fst (move_files Sample.slot_last ReLite.re_match ["z1.txt"]
         Worked.router_spec
         (Node [("z1.txt", Raw "")] [("a", empty_dir); ("b", empty_dir)]))
  = Node [("z1.txt", Raw "")] [("a", empty_dir); ("b", empty_dir)].
Proof.
  apply (move_files_moves_only_on_match Sample.slot_last ReLite.re_match
           ["z1.txt"] Worked.router_spec).
  intros file kv [<-|[]] [<-|[<-|[]]]; vm_compute; discriminate.
Defined.

Lemma for_each_raises {S A : Type} (l : list A) (body : A -> M S unit) x :
  In x l ->
  (forall s, exists e, snd (body x s) = Err e) ->
  forall s, exists e, snd (for_each l body s) = Err e.
Proof.
  intros Hin Hx. induction l as [|y l IH]; intros s; [contradiction|].
  cbn [for_each]. unfold bind.
  destruct (body y s) as [s' [u|e]] eqn:E; [|cbn [snd]; eauto].
  destruct Hin as [->|Hin].
  - destruct (Hx s) as [e He]. rewrite E in He. discriminate.
  - now apply IH.
Qed.

(** X24. [move_files] reads the [files] member of every sub-folder: when
    some folder of the structure has a sub-folder described by an object
    without a [files] member, the call raises on any directory that lists at
    least one name. *)
Theorem move_files_needs_files_in_subfolders :
  forall slot re_match listed folder_structure t folder pm subfolder nm,
    listed <> [] ->
    In (folder, JObj pm) folder_structure ->
    folder <> "files" ->
    subfolder <> "files" ->
    lookup subfolder pm = Some (JObj nm) ->
    lookup "files" nm = None ->
    exists e,
      snd (move_files slot re_match listed folder_structure t) = Err e.
Proof.
  intros slot re_match listed spec t folder pm s nm Hl Hin Hf Hs Hpm Hnm.
  destruct listed as [|file rest]; [contradiction|].
  unfold move_files.
  apply (for_each_raises (file :: rest) _ file (or_introl eq_refl)).
  apply (for_each_raises spec _ (folder, JObj pm) Hin).
  intros t0. unfold move_into_folder.
  destruct (String.eqb_spec folder "files"); [contradiction|]. cbn [negb].
  unfold bind at 1. unfold lift at 1. cbn [Py.contains].
  unfold bind at 1.
  lazymatch goal with
  | |- context [(if mem "files" pm then ?a else ?b) t0] =>
      destruct ((if mem "files" pm then a else b) t0) as [t1 [u|e]]
  end; [|cbn [snd]; eauto].
  unfold bind at 1. unfold lift at 1. cbn [Py.iter].
  apply (for_each_raises _ _ (JStr s)).
  - apply in_map. apply mem_In. unfold mem. now rewrite Hpm.
  - intros t2. unfold move_into_subfolder. cbn [Py.eq_str].
    destruct (String.eqb_spec s "files"); [contradiction|]. cbn [negb].
    unfold bind, lift. cbn [Py.subscript Py.getitem]. rewrite Hpm.
    cbn [rbind Py.getitem]. rewrite Hnm. cbn [rbind snd]. eauto.
Qed.

Lemma move_files_needs_files_in_subfolders_witness :
  exists e,
    snd (move_files Sample.slot_last ReLite.re_match ["z1.txt"]
           [("a", JObj [("b", JObj [])])]
           (Node [("z1.txt", Raw "")] [])) = Err e.
Proof.
  apply (move_files_needs_files_in_subfolders Sample.slot_last
           ReLite.re_match ["z1.txt"] [("a", JObj [("b", JObj [])])]
           (Node [("z1.txt", Raw "")] []) "a" [("b", JObj [])] "b" []).
  - discriminate.
  - now left.
  - discriminate.
  - discriminate.
  - reflexivity.
  - reflexivity.
Defined.

Lemma for_each_noop {S A : Type} (l : list A) (body : A -> M S unit) s :
  (forall x, In x l -> body x s = (s, Ok tt)) ->
  for_each l body s = (s, Ok tt).
Proof.
  induction l as [|x l IH]; intros H; [reflexivity|].
  cbn [for_each]. unfold bind. rewrite (H x (or_introl eq_refl)).
  apply IH. intros y Hy. apply H. now right.
Qed.

Lemma for_each_app {S A : Type} (l1 l2 : list A) (body : A -> M S unit) s :
  for_each (l1 ++ l2) body s
  = match for_each l1 body s with
    | (s', Ok _) => for_each l2 body s'
    | (s', Err e) => (s', Err e)
    end.
Proof.
  revert s. induction l1 as [|x l1 IH]; intros s; [reflexivity|].
  cbn [app for_each]. unfold bind.
  destruct (body x s) as [s' [u|e]]; [apply IH | reflexivity].
Qed.

Section Routes.

Import Routing.

Variable slot : string -> list string -> nat.
Variable re_match : string -> string -> result bool.

Lemma misses_app file l1 l2 :
  misses re_match file (l1 ++ l2) <->
  misses re_match file l1 /\ misses re_match file l2.
Proof.
  unfold misses. split.
  - intros H. split; intros kv Hkv; apply H, in_or_app; auto.
  - intros [H1 H2] kv Hkv. apply in_app_or in Hkv as [Hkv|Hkv]; auto.
Qed.

Lemma misses_incl file l1 l2 :
  incl l1 l2 -> misses re_match file l2 -> misses re_match file l1.
Proof. intros Hi H kv Hkv. apply H, Hi, Hkv. Qed.

Lemma move_by_patterns_miss file dest regexes t :
  misses re_match file regexes ->
  move_by_patterns slot re_match file dest regexes t = (t, Ok tt).
Proof.
  intros H. unfold move_by_patterns. apply for_each_noop.
  intros kv Hkv. unfold bind, lift. now rewrite (H kv Hkv).
Qed.

Lemma move_into_subfolder_miss file folder pm s t :
  forallb subfolder_ok pm = true ->
  In s (keys pm) ->
  misses re_match file (member_patterns all_patterns pm) ->
  move_into_subfolder slot re_match file folder (JObj pm) (JStr s) t
  = (t, Ok tt).
Proof.
  intros Hok Hin Hmiss. unfold move_into_subfolder. cbn [Py.eq_str].
  destruct (String.eqb_spec s "files") as [->|Hs]; [reflexivity|].
  cbn [negb]. apply mem_In in Hin. unfold mem in Hin.
  destruct (lookup s pm) as [node|] eqn:El; [|discriminate].
  apply lookup_In in El as Hmem.
  rewrite forallb_forall in Hok. specialize (Hok (s, node) Hmem).
  unfold subfolder_ok in Hok. cbn [fst snd] in Hok.
  destruct (String.eqb_spec s "files"); [contradiction|]. cbn [orb] in Hok.
  destruct node as [| | | | | |nm]; try discriminate.
  destruct (lookup "files" nm) as [[| | | | | |regs]|] eqn:Ef;
    try discriminate.
  unfold bind at 1. unfold lift at 1. cbn [Py.subscript Py.getitem].
  rewrite El. cbn [rbind Py.getitem]. rewrite Ef. cbn [rbind Py.items].
  apply move_by_patterns_miss.
  apply (misses_incl file regs (member_patterns all_patterns pm)); [|exact Hmiss].
  intros kv Hkv.
  apply (member_patterns_incl all_patterns s (JObj nm) pm Hmem Hs eq_refl).
  apply files_member_patterns. unfold files_member. now rewrite Ef.
Qed.

Lemma subfolders_miss file folder pm t :
  forallb subfolder_ok pm = true ->
  misses re_match file (member_patterns all_patterns pm) ->
  for_each (map JStr (keys pm))
    (move_into_subfolder slot re_match file folder (JObj pm)) t
  = (t, Ok tt).
Proof.
  intros Hok Hmiss. apply for_each_noop. intros x Hx.
  apply in_map_iff in Hx as (s & <- & Hs).
  now apply move_into_subfolder_miss.
Qed.

(** A readable folder none of whose patterns matches is passed over. *)
Lemma move_into_folder_miss file kv t :
  folder_ok kv = true ->
  (forall pm, snd kv = JObj pm ->
              misses re_match file (all_patterns (JObj pm))) ->
  move_into_folder slot re_match file kv t = (t, Ok tt).
Proof.
  destruct kv as [folder patterns]. unfold folder_ok. cbn [fst snd].
  intros Hok Hmiss. unfold move_into_folder.
  destruct (String.eqb_spec folder "files") as [->|Hf]; [reflexivity|].
  cbn [negb orb] in *.
  destruct patterns as [| | | | | |pm]; try discriminate.
  apply andb_prop in Hok as [Hfiles Hsubs].
  specialize (Hmiss pm eq_refl). rewrite all_patterns_obj in Hmiss.
  apply misses_app in Hmiss as [Hm1 Hm2]. unfold files_member in Hm1.
  unfold bind at 1. unfold lift at 1. cbn [Py.contains]. unfold mem.
  unfold bind at 1.
  destruct (lookup "files" pm) as [[| | | | | |regs]|] eqn:Ef;
    try discriminate.
  - unfold bind at 1. unfold lift at 1. cbn [Py.getitem]. rewrite Ef.
    cbn [rbind Py.items]. rewrite (move_by_patterns_miss _ _ _ _ Hm1).
    unfold bind, lift. cbn [Py.iter]. now apply subfolders_miss.
  - unfold ret at 1. unfold bind, lift. cbn [Py.iter].
    now apply subfolders_miss.
Qed.

Lemma folders_miss file folders t :
  readable folders = true ->
  misses re_match file (all_patterns (JObj folders)) ->
  for_each folders (move_into_folder slot re_match file) t = (t, Ok tt).
Proof.
  intros Hok Hmiss. apply for_each_noop. intros [folder patterns] Hin.
  unfold readable in Hok. rewrite forallb_forall in Hok.
  pose proof (Hok _ Hin) as Hk.
  destruct (String.eqb_spec folder "files") as [->|Hf]; [reflexivity|].
  apply move_into_folder_miss; [exact Hk|]. cbn [snd]. intros pm ->.
  exact (misses_incl file _ _ (subfolder_patterns folder pm folders Hin Hf)
           Hmiss).
Qed.

(** The rename of a plain file into a folder that has no entry of that
    name. *)
Lemma rename_into_folder file c g sub t :
  lookup file (files_of t) = Some c ->
  lookup g (dirs_of t) = Some sub ->
  find_entry file sub = None ->
  rename_into slot file [g] t
  = (Node (remove_entry file (files_of t))
          (replace_entry g
             (Node (add_entry slot file c (files_of sub)) (dirs_of sub))
             (dirs_of t)),
     Ok tt).
Proof.
  intros Hf Hg Hsub. unfold rename_into, find_entry, drop_entry.
  rewrite Hf. cbn [in_dir dirs_of files_of]. rewrite Hg.
  unfold place_entry. rewrite Hsub. reflexivity.
Qed.

End Routes.

(** X25. One listed file that exactly one pattern matches is moved into the
    folder of that pattern. The folder structure is readable by
    [move_files], the pattern is one of the [files] mapping of the folder
    [g], every other pattern of the structure is a string that compiles and
    does not match the name; the name is a plain file of the current
    directory, [g] is a directory of it and has no entry of that name. Then
    the loop body for that name returns normally, the file is gone from the
    current directory and is in [g] with its content, and nothing else has
    changed. *)
Theorem route_file_moves_to_the_matching_folder :
  forall slot re_match file c t before g pm after pre k pat post sub,
    Routing.readable (before ++ (g, JObj pm) :: after) = true ->
    g <> "files" ->
    lookup "files" pm = Some (JObj (pre ++ (k, pat) :: post)) ->
    re_match_json re_match pat file = Ok true ->
    Routing.misses re_match file (all_patterns (JObj before)) ->
    Routing.misses re_match file (pre ++ post) ->
    Routing.misses re_match file (member_patterns all_patterns pm) ->
    Routing.misses re_match file (all_patterns (JObj after)) ->
    lookup file (files_of t) = Some c ->
    lookup g (dirs_of t) = Some sub ->
    find_entry file sub = None ->
    Routing.route_file slot re_match (before ++ (g, JObj pm) :: after) file t
    = (Node (remove_entry file (files_of t))
            (replace_entry g
               (Node (add_entry slot file c (files_of sub)) (dirs_of sub))
               (dirs_of t)),
       Ok tt).
Proof.
  intros slot re_match file c t before g pm after pre k pat post sub
    Hok Hg Hfiles Hhit Hb Hpp Hsubs Ha Hf Hd Hnone.
  unfold Routing.readable in Hok. rewrite forallb_app in Hok.
  apply andb_prop in Hok as [Hokb Hok]. cbn [forallb] in Hok.
  apply andb_prop in Hok as [Hokg Hoka].
  unfold Routing.route_file. rewrite for_each_app.
  rewrite (folders_miss slot re_match file before t Hokb Hb).
  cbn [for_each]. unfold bind at 1.
  apply (misses_app re_match) in Hpp as [Hpre Hpost].
  unfold Routing.folder_ok in Hokg. cbn [fst snd] in Hokg.
  destruct (String.eqb_spec g "files"); [contradiction|]. cbn [orb] in Hokg.
  apply andb_prop in Hokg as [_ Hoksubs].
  assert (Eg : move_into_folder slot re_match file (g, JObj pm) t
               = (Node (remove_entry file (files_of t))
                       (replace_entry g
                          (Node (add_entry slot file c (files_of sub))
                                (dirs_of sub))
                          (dirs_of t)),
                  Ok tt)).
  { unfold move_into_folder.
    destruct (String.eqb_spec g "files"); [contradiction|]. cbn [negb].
    unfold bind at 1. unfold lift at 1. cbn [Py.contains]. unfold mem.
    rewrite Hfiles. unfold bind at 1. unfold bind at 1. unfold lift at 1.
    cbn [Py.getitem]. rewrite Hfiles. cbn [rbind Py.items].
    unfold move_by_patterns at 1. rewrite for_each_app.
    change (for_each pre _ t)
      with (move_by_patterns slot re_match file (Ok [g]) pre t).
    rewrite (move_by_patterns_miss slot re_match file _ pre t Hpre).
    cbn [for_each]. unfold bind at 1. unfold bind at 1. unfold lift at 1.
    cbn [snd]. rewrite Hhit. unfold bind at 1. unfold lift at 1.
    rewrite (rename_into_folder slot file c g sub t Hf Hd Hnone).
    match goal with
    | |- context [for_each post ?b ?s] =>
        change (for_each post b s)
          with (move_by_patterns slot re_match file (Ok [g]) post s)
    end.
    rewrite (move_by_patterns_miss slot re_match file _ post _ Hpost).
    unfold bind, lift. cbn [Py.iter].
    now apply subfolders_miss. }
  rewrite Eg.
  exact (folders_miss slot re_match file after _ Hoka Ha).
Qed.

Lemma route_file_moves_to_the_matching_folder_witness :
  Routing.route_file Sample.slot_last ReLite.re_match Worked.router_spec
    "y1.txt" Worked.three_files
  = (Node [("x1.txt", Raw ""); ("z1.txt", Raw "")]
          [("a", empty_dir); ("b", Node [("y1.txt", Raw "")] [])],
     Ok tt).
Proof.
  apply (route_file_moves_to_the_matching_folder Sample.slot_last
           ReLite.re_match "y1.txt" (Raw "") Worked.three_files
           [("a", JObj [("files", JObj [("k1", JStr "^x.*")])])]
           "b" [("files", JObj [("k2", JStr "^y.*")])] []
           [] "k2" (JStr "^y.*") [] empty_dir).
  - reflexivity.
  - discriminate.
  - reflexivity.
  - vm_compute. reflexivity.
  - intros kv [<-|[]]. vm_compute. reflexivity.
  - intros kv [].
  - intros kv [].
  - intros kv [].
  - reflexivity.
  - reflexivity.
  - reflexivity.
Defined.

End RouterExtras.

(** ** Creating the folders *)

Module FolderFacts.

Import PyDict DictFacts EntryFacts Fs LocalScript.

Lemma exists_path_one n t :
  exists_path [n] t = mem n (files_of t) || mem n (dirs_of t).
Proof. reflexivity. Qed.

Lemma exists_path_two n s t :
  exists_path [n; s] t
  = match lookup n (dirs_of t) with
    | Some sub => mem s (files_of sub) || mem s (dirs_of sub)
    | None => false
    end.
Proof. reflexivity. Qed.

Lemma mem_insert_at {V : Type} k n (x : string * V) l :
  mem k l = true -> mem k (insert_at n x l) = true.
Proof.
  unfold mem, insert_at. intros H.
  rewrite <- (firstn_skipn n l), lookup_app in H.
  rewrite lookup_app. destruct (lookup k (firstn n l)); [reflexivity|].
  destruct x as [k' v]. cbn [lookup]. destruct (String.eqb k' k); [reflexivity|].
  exact H.
Qed.

Section Steps.

Variable slot : string -> list string -> nat.

(** One sub-folder of a folder that is a directory. *)
Lemma create_subfolder_step folder s t sub :
  lookup folder (dirs_of t) = Some sub ->
  name_ok s = true ->
  exists sub',
    create_subfolder slot folder (JStr s) t
    = (Node (files_of t) (replace_entry folder sub' (dirs_of t)), Ok tt) /\
    files_of sub' = files_of sub /\
    (forall x, mem x (dirs_of sub) = true -> mem x (dirs_of sub') = true) /\
    (s <> "files" -> mem s (files_of sub') || mem s (dirs_of sub') = true).
Proof.
  intros Hl Hname. unfold create_subfolder. cbn [Py.eq_str].
  destruct (String.eqb_spec s "files") as [->|Hs]; cbn [negb].
  - exists sub. split; [|split; [reflexivity|split; [auto|congruence]]].
    unfold ret. destruct t as [files dirs]. cbn [files_of dirs_of] in *.
    now rewrite (replace_same _ _ _ Hl).
  - unfold bind, lift, gets. cbn [as_str]. rewrite exists_path_two, Hl.
    destruct (mem s (files_of sub) || mem s (dirs_of sub)) eqn:Ep; cbn [negb].
    + exists sub. split; [|split; [reflexivity|split; [auto|intros _; exact Ep]]].
      unfold ret. destruct t as [files dirs]. cbn [files_of dirs_of] in *.
      now rewrite (replace_same _ _ _ Hl).
    + unfold makedirs. cbn [mkdirs]. rewrite Hl. cbn [mkdirs].
      rewrite Ep, Hname. cbn [negb].
      exists (Node (files_of sub) (add_entry slot s empty_dir (dirs_of sub))).
      split; [reflexivity|]. split; [reflexivity|]. split.
      * intros x Hx. cbn [dirs_of]. now apply mem_insert_at.
      * intros _. cbn [files_of dirs_of]. apply orb_true_iff. right.
        unfold mem. rewrite lookup_add_new; [reflexivity|].
        apply orb_false_iff in Ep as [_ Ep]. unfold mem in Ep.
        now destruct (lookup s (dirs_of sub)).
Qed.

(** The sub-folders of a folder that is a directory. *)
Lemma create_subfolders_loop folder names :
  forallb name_ok names = true ->
  forall t sub,
    lookup folder (dirs_of t) = Some sub ->
    exists sub',
      for_each (map JStr names) (create_subfolder slot folder) t
      = (Node (files_of t) (replace_entry folder sub' (dirs_of t)), Ok tt) /\
      files_of sub' = files_of sub /\
      (forall x, mem x (dirs_of sub) = true -> mem x (dirs_of sub') = true) /\
      (forall s, In s names -> s <> "files" ->
                 mem s (files_of sub') || mem s (dirs_of sub') = true).
Proof.
  induction names as [|s names IH]; intros Hnames t sub Hl.
  - exists sub. split; [|split; [reflexivity|split; [auto|intros s []]]].
    cbn [map for_each]. unfold ret. destruct t as [files dirs].
    cbn [files_of dirs_of] in *. now rewrite (replace_same _ _ _ Hl).
  - cbn [map for_each]. unfold bind.
    cbn [forallb] in Hnames. apply andb_prop in Hnames as [Hname Hnames].
    destruct (create_subfolder_step folder s t sub Hl Hname)
      as (sub1 & -> & Hf1 & Hd1 & Hs1).
    assert (Hmem : mem folder (dirs_of t) = true)
      by (unfold mem; now rewrite Hl).
    destruct (IH Hnames
                (Node (files_of t) (replace_entry folder sub1 (dirs_of t)))
                sub1) as (sub2 & -> & Hf2 & Hd2 & Hs2).
    { cbn [dirs_of]. now apply lookup_replace_eq. }
    exists sub2. cbn [files_of dirs_of]. split; [|split; [|split]].
    + f_equal. f_equal. clear - Hmem. unfold mem in Hmem.
      induction (dirs_of t) as [|[k w] l IHl]; [reflexivity|].
      cbn [replace_entry lookup] in *.
      destruct (String.eqb k folder) eqn:E; cbn [replace_entry].
      * now rewrite String.eqb_refl.
      * rewrite E. f_equal. now apply IHl.
    + congruence.
    + auto.
    + intros x [<-|Hx] Hne.
      * specialize (Hs1 Hne). apply orb_true_iff in Hs1 as [Hs1|Hs1].
        -- apply orb_true_iff. left. now rewrite Hf2.
        -- apply orb_true_iff. right. now apply Hd2.
      * now apply Hs2.
Qed.

Lemma exists_one_same g t t' :
  files_of t' = files_of t ->
  lookup g (dirs_of t') = lookup g (dirs_of t) ->
  exists_path [g] t' = exists_path [g] t.
Proof.
  intros Hf Hd. rewrite !exists_path_one, Hf. unfold mem at 2 4.
  now rewrite Hd.
Qed.

(** One folder of the folder structure, described by an object. *)
Lemma create_folder_step spec g m t :
  lookup g spec = Some (JObj m) ->
  name_ok g = true ->
  forallb name_ok (keys m) = true ->
  exists t',
    create_folder slot spec g t = (t', Ok tt) /\
    files_of t' = files_of t /\
    (forall n sub, lookup n (dirs_of t) = Some sub ->
                   lookup n (dirs_of t') = Some sub) /\
    (forall n, n <> g -> lookup n (dirs_of t') = lookup n (dirs_of t)) /\
    (g <> "files" -> exists_path [g] t = false ->
     exists sub',
       lookup g (dirs_of t') = Some sub' /\
       files_of sub' = [] /\
       forall s, In s (keys m) -> s <> "files" ->
                 mem s (dirs_of sub') = true).
Proof.
  intros Hg Hname Hnames. unfold create_folder.
  destruct (String.eqb_spec g "files") as [->|Hne]; cbn [negb].
  - exists t. repeat split; auto; congruence.
  - unfold bind at 1. unfold gets.
    destruct (exists_path [g] t) eqn:Ex; cbn [negb].
    + exists t. repeat split; auto. discriminate.
    + pose proof Ex as Ex'. rewrite exists_path_one in Ex'.
      apply orb_false_iff in Ex' as [Exf Exd].
      assert (Hnone : lookup g (dirs_of t) = None)
        by (unfold mem in Exd; now destruct (lookup g (dirs_of t))).
      unfold bind at 1. unfold makedirs. cbn [mkdirs].
      rewrite Exf, Exd, Hname. cbn [orb negb].
      unfold bind at 1. unfold lift. cbn [Py.getitem rbind].
      rewrite Hg. cbn [rbind Py.iter].
      set (t1 := Node (files_of t) (add_entry slot g empty_dir (dirs_of t))).
      assert (Hl1 : lookup g (dirs_of t1) = Some empty_dir)
        by (cbn [t1 dirs_of]; now apply lookup_add_new).
      destruct (create_subfolders_loop g (keys m) Hnames t1 empty_dir Hl1)
        as (sub' & -> & Hf & _ & Hs).
      eexists. split; [reflexivity|]. cbn [files_of dirs_of t1].
      assert (Hother : forall n, n <> g ->
                lookup n (replace_entry g sub'
                            (add_entry slot g empty_dir (dirs_of t)))
                = lookup n (dirs_of t)).
      { intros n Hn. rewrite lookup_replace_neq by congruence.
        apply lookup_add_neq. congruence. }
      assert (Hself : lookup g (replace_entry g sub'
                                  (add_entry slot g empty_dir (dirs_of t)))
                      = Some sub').
      { apply lookup_replace_eq. unfold mem.
        now rewrite (lookup_add_new slot _ _ _ Hnone). }
      split; [reflexivity|]. split; [|split; [exact Hother|]].
      * intros n sub Hn. rewrite Hother; [exact Hn|]. congruence.
      * intros _ _. exists sub'. split; [exact Hself|].
        split; [exact Hf|]. intros s Hin Hs'.
        specialize (Hs s Hin Hs'). rewrite Hf in Hs. exact Hs.
Qed.

(** The loop over the folders. *)
Lemma create_folders_loop spec l :
  (forall g, In g l ->
             name_ok g = true /\
             exists m, lookup g spec = Some (JObj m) /\
                       forallb name_ok (keys m) = true) ->
  forall t,
    exists t',
      for_each l (create_folder slot spec) t = (t', Ok tt) /\
      files_of t' = files_of t /\
      (forall n sub, lookup n (dirs_of t) = Some sub ->
                     lookup n (dirs_of t') = Some sub) /\
      (forall g m,
         In g l -> g <> "files" -> exists_path [g] t = false ->
         lookup g spec = Some (JObj m) ->
         exists sub',
           lookup g (dirs_of t') = Some sub' /\
           files_of sub' = [] /\
           forall s, In s (keys m) -> s <> "files" ->
                     mem s (dirs_of sub') = true).
Proof.
  induction l as [|g l IH]; intros Hspec t.
  - exists t. cbn [for_each]. unfold ret.
    repeat split; auto; intros; contradiction.
  - destruct (Hspec g (or_introl eq_refl)) as (Hname & m & Hm & Hnames).
    destruct (create_folder_step spec g m t Hm Hname Hnames)
      as (t1 & E1 & Hf1 & Hd1 & Ho1 & Hs1).
    destruct (IH (fun g0 H0 => Hspec g0 (or_intror H0)) t1)
      as (t' & E' & Hf' & Hd' & Hs').
    exists t'. cbn [for_each]. unfold bind. rewrite E1.
    split; [exact E'|]. split; [congruence|]. split; [auto|].
    intros g0 m0 Hin Hne Hab Hm0.
    destruct (String.eqb_spec g g0) as [<-|Hgg].
    + assert (m0 = m) by congruence. subst m0.
      destruct (Hs1 Hne Hab) as (sub' & Hl' & Hrest).
      exists sub'. split; [now apply Hd'|exact Hrest].
    + destruct Hin as [->|Hin]; [contradiction|].
      apply (Hs' g0 m0 Hin Hne); [|exact Hm0].
      rewrite (exists_one_same g0 t t1 Hf1); [exact Hab|].
      apply Ho1. congruence.
Qed.

End Steps.

End FolderFacts.

Module FolderExtras.

Import PyDict DictFacts Fs LocalScript Folders FolderFacts.

(** X21. When every folder named by the folder structure exists in the
    current directory, [create_folders] returns without creating anything,
    whichever of the sub-folders are missing. The folder and sub-folder
    names are plain names, each one path component. *)
Theorem create_folders_passes_over_existing_folders :
  forall slot folder_structure t,
    plain_names folder_structure = true ->
    (forall folder, In folder (keys folder_structure) -> folder <> "files" ->
                    exists_path [folder] t = true) ->
    create_folders slot folder_structure t = (t, Ok tt).
Proof.
  intros slot spec t _ H. unfold create_folders.
  induction (keys spec) as [|g l IH]; [reflexivity|].
  cbn [for_each]. unfold bind.
  assert (Hg : create_folder slot spec g t = (t, Ok tt)).
  { destruct (String.eqb_spec g "files") as [->|Hne].
    - reflexivity.
    - apply RouterClaims.create_folder_existing. apply H; [now left | exact Hne]. }
  rewrite Hg. apply IH. intros folder Hin. apply H. now right.
Qed.

Lemma create_folders_passes_over_existing_folders_witness :
  create_folders Sample.slot_last Worked.router_spec Worked.one_file
  = (Worked.one_file, Ok tt).
Proof.
  apply (create_folders_passes_over_existing_folders Sample.slot_last
           Worked.router_spec Worked.one_file).
  - reflexivity.
  - intros folder [<-|[<-|[]]] _; reflexivity.
Defined.

(** X22. On a folder structure that describes every folder by an object,
    with plain names of at most 255 bytes for the folders and sub-folders,
    [create_folders] returns normally. A folder whose name was not taken
    before is afterwards a directory without files that has every
    sub-folder the structure lists for it as a sub-directory. A name that
    was taken, by a file or by a directory, is left as it was: no file of
    the current directory is touched and the directories that were there
    are left as they were. *)
Theorem create_folders_creates_the_folders :
  forall slot folder_structure t,
    plain_names folder_structure = true ->
    short_names folder_structure = true ->
    all_dicts folder_structure = true ->
    exists t',
      create_folders slot folder_structure t = (t', Ok tt) /\
      files_of t' = files_of t /\
      (forall n sub, lookup n (dirs_of t) = Some sub ->
                     lookup n (dirs_of t') = Some sub) /\
      (forall folder m,
         lookup folder folder_structure = Some (JObj m) ->
         folder <> "files" -> exists_path [folder] t = false ->
         exists sub',
           lookup folder (dirs_of t') = Some sub' /\
           files_of sub' = [] /\
           forall subfolder,
             In subfolder (keys m) -> subfolder <> "files" ->
             mem subfolder (dirs_of sub') = true).
Proof.
  intros slot spec t _ Hshort Hd. unfold create_folders.
  destruct (create_folders_loop slot spec (keys spec)) with (t := t)
    as (t' & E & Hf & Hk & Hs).
  { intros g Hg. apply mem_In in Hg. unfold mem in Hg.
    destruct (lookup g spec) as [v|] eqn:El; [|discriminate].
    apply lookup_In in El as Hin. unfold all_dicts in Hd.
    rewrite forallb_forall in Hd. specialize (Hd (g, v) Hin). cbn [snd] in Hd.
    unfold short_names in Hshort. rewrite forallb_forall in Hshort.
    specialize (Hshort (g, v) Hin). cbn [fst snd] in Hshort.
    apply andb_prop in Hshort as [Hname Hnames].
    destruct v; try discriminate. eauto. }
  exists t'. split; [exact E|]. split; [exact Hf|]. split; [exact Hk|].
  intros folder m Hl Hne Hab.
  apply (Hs folder m); auto.
  apply mem_In. unfold mem. now rewrite Hl.
Qed.

Lemma create_folders_creates_the_folders_witness :
  exists t' sub',
    create_folders Sample.slot_last Worked.nested_spec empty_dir = (t', Ok tt) /\
    lookup "a" (dirs_of t') = Some sub' /\
    mem "b" (dirs_of sub') = true.
Proof.
  destruct (create_folders_creates_the_folders Sample.slot_last
              Worked.nested_spec empty_dir eq_refl eq_refl eq_refl)
    as (t' & E & _ & _ & Hs).
  destruct (Hs "a" _ eq_refl ltac:(discriminate) eq_refl)
    as (sub' & Hl & _ & Hsub).
  exists t', sub'. split; [exact E|]. split; [exact Hl|].
  apply (Hsub "b"); [|discriminate]. right. now left.
Defined.

End FolderExtras.

(** ** Posting an entry and walking *)

Module SnippetExtras.

Import PyDict DictFacts EntryFacts CanonFacts Fs MetaJsonHandler Aux Cover.
Import WalkFacts TreeFacts Snippet.

Section Post.

Variable slot : string -> list string -> nat.

(** On an object manifest of the right shape that is listed, the loop body
    of the walk makes its changes without raising. *)
Lemma update_manifest_ok root dirs files d :
  manifest_shape (JObj d) = true ->
  existsb (String.eqb "meta.json") files = true ->
  exists m, update_manifest root dirs files (JObj d) = Ok m.
Proof.
  intros Hs Hm. unfold update_manifest. rewrite (init_listed _ _ _ _ Hm).
  cbn [rbind]. destruct (link_present_ok files d Hs) as [d' ->].
  cbn [rbind]. rewrite scan_object. eauto.
Qed.

(** What [update_meta_json] leaves when it has posted an entry. *)
Lemma posted file_path key value fs :
  PyPath.basename file_path = "meta.json" ->
  updatable "meta.json" fs = true ->
  exists fs1 d F,
    update_meta_json slot file_path key value "files" fs = (fs1, Ok tt) /\
    lookup "meta.json" fs1 = Some (Json (JObj d)) /\
    lookup "files" d = Some (JObj F) /\
    lookup key F = Some (JStr value).
Proof.
  intros Hb. rewrite UpdateExtras.update_meta_json_unfold. cbv zeta.
  rewrite Hb. unfold updatable.
  destruct (lookup "meta.json" fs) as [[doc|raw]|] eqn:E; try discriminate.
  - destruct doc as [| | | | | |d]; try discriminate.
    destruct (lookup "selfDirName" d) as [sdn|] eqn:Es; [|discriminate].
    destruct (lookup "files" d) as [[| | | | | |F]|] eqn:EF; try discriminate.
    intros _. rewrite (seeded_present slot _ _ _ _ E), E.
    destruct (UpdateExtras.updated_manifest_files file_path key value d sdn F
                Es EF) as (d' & -> & HF' & _).
    eexists _, d', _. split; [reflexivity|].
    split; [apply lookup_write_eq|]. split; [exact HF'|]. apply lookup_set_eq.
  - intros _. rewrite (seeded_absent slot _ _ _ E).
    rewrite (lookup_add_new slot _ _ _ E).
    destruct (UpdateExtras.updated_manifest_files file_path key value
                [ ("self", JStr "meta.json"); ("selfDirName", JStr "");
                  ("metaTargets", JArr []); ("files", JObj []);
                  ("versionInfo", JObj []) ] (JStr "") [] eq_refl eq_refl)
      as (d' & Hu & HF' & _).
    unfold META_TEMPLATE. rewrite Hu.
    eexists _, d', _. split; [reflexivity|].
    split; [apply lookup_write_eq|]. split; [exact HF'|]. apply lookup_set_eq.
Qed.

End Post.

Section Walked.

Variable slot : string -> list string -> nat.

Lemma at_dir_subtree {A : Type} p (m : M listing A) :
  forall t sub,
    subtree p t = Some sub ->
    subtree p (fst (at_dir p m t))
    = Some (Node (fst (m (files_of sub))) (dirs_of sub)) /\
    snd (at_dir p m t) = snd (m (files_of sub)).
Proof.
  induction p as [|d p IH]; intros t sub.
  - intros [= <-]. destruct t as [files dirs].
    cbn [at_dir at_top files_of dirs_of].
    destruct (m files) as [files' r]. now split.
  - cbn [subtree at_dir].
    destruct (lookup d (dirs_of t)) as [sub0|] eqn:Ed; [|discriminate].
    intros Hsub. destruct (IH sub0 sub Hsub) as [H1 H2].
    destruct (at_dir p m sub0) as [sub' r]. cbn [fst snd] in *.
    split; [|exact H2]. cbn [subtree dirs_of].
    rewrite lookup_replace_eq by (unfold mem; now rewrite Ed). exact H1.
Qed.

(** The loop body of the walk keeps an entry of [files]. *)
Lemma visit_keeps_entry root dirs fs d F key v fs2 r :
  lookup "meta.json" fs = Some (Json (JObj d)) ->
  lookup "files" d = Some (JObj F) ->
  lookup key F = Some v ->
  key <> "buildInfo" ->
  visit slot root dirs (map fst fs) fs = (fs2, r) ->
  lookup key (manifest_files "meta.json" fs2) = Some v.
Proof.
  intros Hl HF Hkey Hk. rewrite visit_unfold. cbv zeta.
  rewrite (seeded_present slot _ _ _ _ Hl), Hl.
  destruct (update_manifest_ok root dirs (map fst fs) d) as [m Hm].
  { cbn [manifest_shape]. now rewrite HF. }
  { exact (lookup_listed _ _ _ Hl). }
  rewrite Hm. intros [= <- _].
  destruct (WalkExtras.update_manifest_existing root dirs (map fst fs) d m
              (lookup_listed _ _ _ Hl) Hm) as (d' & -> & _ & Hf & _).
  unfold manifest_files. rewrite lookup_write_eq.
  change (lookup key (files_member d') = Some v).
  rewrite (Hf key Hk). unfold files_member. now rewrite HF.
Qed.

End Walked.

(** X23. An entry posted under [files] by [update_meta_json] survives the
    full walk that follows. When the directory of the target manifest has no
    manifest, or one that is an object with a [selfDirName] and an object as
    [files], and the two calls return normally, then afterwards the [files]
    mapping of that manifest has the file name under the posted key, for
    every key other than [buildInfo]. *)
Theorem posted_entry_survives_the_walk :
  forall slot parse_timestamp isoformat_local json_loads env destination_dir
         target_dir target_path meta_key file_name t t2 sub,
    subtree target_dir t = Some sub ->
    PyPath.basename target_path = "meta.json" ->
    updatable "meta.json" (files_of sub) = true ->
    meta_key <> "buildInfo" ->
    post_then_walk slot parse_timestamp isoformat_local json_loads env
      destination_dir target_dir target_path meta_key file_name t
    = (t2, Ok tt) ->
    exists sub2,
      subtree target_dir t2 = Some sub2 /\
      lookup meta_key (manifest_files "meta.json" (files_of sub2))
      = Some (JStr file_name).
Proof.
  intros slot parse iso loads env root p path key value t t2 sub
    Hsub Hb Hu Hk.
  unfold post_then_walk. unfold bind at 1.
  destruct (at_dir_subtree p
              (update_meta_json slot path key value "files") t sub Hsub)
    as [Hs1 _].
  destruct (at_dir p _ t) as [t1 [[]|e]]; [|discriminate]. cbn [fst] in Hs1.
  destruct (posted slot path key value (files_of sub) Hb Hu)
    as (fs1 & d & F & E & Hl & HF & Hkey).
  rewrite E in Hs1. cbn [fst] in Hs1.
  destruct t1 as [files1 dirs1].
  unfold create_meta_files_all, bind, at_top.
  pose proof (SelfDirNameClaims.generate_keeps_manifest slot parse iso loads
                env root files1) as Hg.
  destruct (generate_build_info_file slot parse iso loads env _ files1)
    as [filesg [[]|e]]; [|discriminate]. cbn [fst] in Hg.
  intros Hw.
  assert (Hsg : exists subg,
             subtree p (Node filesg dirs1) = Some subg /\
             lookup "meta.json" (files_of subg) = Some (Json (JObj d))).
  { destruct p as [|d0 p].
    - eexists. split; [reflexivity|]. cbn [files_of]. rewrite Hg.
      cbn [subtree] in Hs1. now injection Hs1 as -> _.
    - eexists. split; [exact Hs1|]. exact Hl. }
  destruct Hsg as (subg & Hsg & Hlg).
  destruct (WalkGeneric.os_walk_visits _ _ _ _ Hw p subg Hsg)
    as (sub2 & Hs2 & Hv).
  exists sub2. split; [exact Hs2|].
  exact (visit_keeps_entry slot _ _ _ d F key (JStr value) _ _
           Hlg HF Hkey Hk Hv).
Qed.

Lemma posted_entry_survives_the_walk_witness :
  exists sub2,
    subtree ["sub"]
      (fst (post_then_walk Sample.slot_last Sample.parse_timestamp
              Sample.isoformat_local Sample.json_loads Sample.env "rel"
              ["sub"] "rel/sub/meta.json" "firmware" "fw-1.2.3.4.hex"
              Worked.named_tree)) = Some sub2 /\
    lookup "firmware" (manifest_files "meta.json" (files_of sub2))
    = Some (JStr "fw-1.2.3.4.hex").
Proof.
  apply (posted_entry_survives_the_walk Sample.slot_last
           Sample.parse_timestamp Sample.isoformat_local Sample.json_loads
           Sample.env "rel" ["sub"] "rel/sub/meta.json" "firmware"
           "fw-1.2.3.4.hex" Worked.named_tree _
           (Node Worked.named_listing [])).
  - reflexivity.
  - reflexivity.
  - reflexivity.
  - discriminate.
  - vm_compute. reflexivity.
Defined.

End SnippetExtras.
